(** * The chat and feedback edge functions of the communication coach

    A shallow embedding of the two Deno handlers
    [supabase/functions/chat/index.ts] and [supabase/functions/feedback/index.ts]
    together with the parts of their collaborators they rely on: the rows of
    the [session], [scenario], [message] and [feedback] tables, the
    chat-completion endpoint, and the runtime's [JSON.parse] and
    [JSON.stringify].

    The handlers are written in a small state-and-exception monad over a world
    made of the persisted store and a chronological trace of the effects
    performed (store queries, store writes, calls of the model endpoint,
    [console.error]).  What the environment decides (secrets, faults of the
    store, the reply of the model endpoint, the clock) is an explicit record
    [Env], so every handler is an executable function. *)

From Stdlib Require Import String Ascii List ZArith NArith Bool Lia DecimalString.
From Stdlib Require Import Sorting.Sorted Sorting.Permutation.
Import ListNotations.

Local Open Scope string_scope.
Local Open Scope Z_scope.

(** ** JSON values and [JSON.parse] *)

Module Json.

(** A JSON number literal [m * 10^e].  [JSON.parse] reads it as the nearest
    double; the literal stands for that double, which is [Infinity] or
    [-Infinity] when the literal is beyond the range of the doubles (see
    [overflows] below). *)
Record number := mkNumber { mantissa : Z; exponent : Z }.

#[warnings="-register-all"]
Inductive json :=
| JNull
| JBool (b : bool)
| JNum (n : number)
| JStr (s : string)
| JArr (items : list json)
| JObj (members : list (string * json)).

Definition int (z : Z) : json := JNum (mkNumber z 0).

Definition is_number (v : json) : bool :=
  match v with JNum _ => true | _ => false end.

(** *** Lexer: a character automaton *)

Inductive token :=
| TLBrace | TRBrace | TLBracket | TRBracket | TColon | TComma
| TNull | TTrue | TFalse
| TNumber (n : number)
| TString (s : string).

(** A unit of a string literal: a source character, or a [\uXXXX] escape. *)
Inductive str_unit :=
| Raw (c : ascii)
| Esc (cu : N).

Inductive num_state :=
| NMinus | NZero | NInt | NDot | NFrac | NExp | NExpSign | NExpDigits.

Record num_acc := mkAcc {
  neg : bool;
  digits : Z;
  frac_len : Z;
  exp_neg : bool;
  exp_digits : Z
}.

Inductive lex_state :=
| LStart
| LLit (expected : string) (t : token)
| LNum (st : num_state) (a : num_acc)
| LStr (units_rev : list str_unit)
| LStrEsc (units_rev : list str_unit)
| LStrHex (units_rev : list str_unit) (seen : nat) (acc : N).

Definition code (c : ascii) : N := N_of_ascii c.

Definition is_ws (c : ascii) : bool :=
  let n := code c in
  (N.eqb n 32 || N.eqb n 9 || N.eqb n 10 || N.eqb n 13)%bool.

Definition digit_of (c : ascii) : option Z :=
  let n := code c in
  if (N.leb 48 n && N.leb n 57)%bool then Some (Z.of_N n - 48) else None.

Definition hex_of (c : ascii) : option N :=
  let n := code c in
  if (N.leb 48 n && N.leb n 57)%bool then Some (n - 48)%N
  else if (N.leb 65 n && N.leb n 70)%bool then Some (n - 55)%N
  else if (N.leb 97 n && N.leb n 102)%bool then Some (n - 87)%N
  else None.

Definition byte (n : N) : ascii := ascii_of_N n.

(** UTF-8 bytes of a code point (surrogate code points, which a JavaScript
    string may hold alone, get the three-byte form). *)
Definition utf8 (cp : N) : list ascii :=
  if N.ltb cp 128 then [byte cp]
  else if N.ltb cp 2048 then
    [byte (192 + N.shiftr cp 6); byte (128 + N.land cp 63)]
  else if N.ltb cp 65536 then
    [byte (224 + N.shiftr cp 12);
     byte (128 + N.land (N.shiftr cp 6) 63);
     byte (128 + N.land cp 63)]
  else
    [byte (240 + N.shiftr cp 18);
     byte (128 + N.land (N.shiftr cp 12) 63);
     byte (128 + N.land (N.shiftr cp 6) 63);
     byte (128 + N.land cp 63)].

Definition is_high_surrogate (cu : N) : bool := (N.leb 55296 cu && N.leb cu 56319)%bool.
Definition is_low_surrogate (cu : N) : bool := (N.leb 56320 cu && N.leb cu 57343)%bool.

Fixpoint decode_units (us : list str_unit) : list ascii :=
  match us with
  | [] => []
  | Raw c :: tl => c :: decode_units tl
  | Esc hi :: tl =>
      match tl with
      | Esc lo :: tl' =>
          if (is_high_surrogate hi && is_low_surrogate lo)%bool
          then (utf8 (65536 + (hi - 55296) * 1024 + (lo - 56320))%N ++ decode_units tl')%list
          else (utf8 hi ++ decode_units tl)%list
      | _ => (utf8 hi ++ decode_units tl)%list
      end
  end.

Definition string_of_units (units_rev : list str_unit) : string :=
  string_of_list_ascii (decode_units (rev units_rev)).

Definition number_of_acc (a : num_acc) : number :=
  mkNumber (if neg a then - digits a else digits a)
           ((if exp_neg a then - exp_digits a else exp_digits a) - frac_len a).

Definition acc0 (is_neg : bool) (d : Z) : num_acc := mkAcc is_neg d 0 false 0.

Definition lex_start (c : ascii) : option (lex_state * list token) :=
  if is_ws c then Some (LStart, [])
  else match digit_of c with
  | Some 0 => Some (LNum NZero (acc0 false 0), [])
  | Some d => Some (LNum NInt (acc0 false d), [])
  | None =>
      match c with
      | "{"%char => Some (LStart, [TLBrace])
      | "}"%char => Some (LStart, [TRBrace])
      | "["%char => Some (LStart, [TLBracket])
      | "]"%char => Some (LStart, [TRBracket])
      | ":"%char => Some (LStart, [TColon])
      | ","%char => Some (LStart, [TComma])
      | "034"%char => Some (LStr [], [])
      | "-"%char => Some (LNum NMinus (acc0 true 0), [])
      | "n"%char => Some (LLit "ull" TNull, [])
      | "t"%char => Some (LLit "rue" TTrue, [])
      | "f"%char => Some (LLit "alse" TFalse, [])
      | _ => None
      end
  end.

(** The literal ends before [c]: emit it and read [c] afresh. *)
Definition end_number (a : num_acc) (c : ascii) : option (lex_state * list token) :=
  match lex_start c with
  | Some (st, toks) => Some (st, TNumber (number_of_acc a) :: toks)
  | None => None
  end.

Definition is_e (c : ascii) : bool :=
  (Ascii.eqb c "e" || Ascii.eqb c "E")%bool.

Definition lex_num (st : num_state) (a : num_acc) (c : ascii)
  : option (lex_state * list token) :=
  match st with
  | NMinus =>
      match digit_of c with
      | Some 0 => Some (LNum NZero a, [])
      | Some d => Some (LNum NInt (mkAcc (neg a) d 0 false 0), [])
      | None => None
      end
  | NZero =>
      if Ascii.eqb c "." then Some (LNum NDot a, [])
      else if is_e c then Some (LNum NExp a, [])
      else end_number a c
  | NInt =>
      match digit_of c with
      | Some d => Some (LNum NInt (mkAcc (neg a) (10 * digits a + d) 0 false 0), [])
      | None =>
          if Ascii.eqb c "." then Some (LNum NDot a, [])
          else if is_e c then Some (LNum NExp a, [])
          else end_number a c
      end
  | NDot =>
      match digit_of c with
      | Some d =>
          Some (LNum NFrac (mkAcc (neg a) (10 * digits a + d) (frac_len a + 1) false 0), [])
      | None => None
      end
  | NFrac =>
      match digit_of c with
      | Some d =>
          Some (LNum NFrac (mkAcc (neg a) (10 * digits a + d) (frac_len a + 1) false 0), [])
      | None => if is_e c then Some (LNum NExp a, []) else end_number a c
      end
  | NExp =>
      match digit_of c with
      | Some d =>
          Some (LNum NExpDigits (mkAcc (neg a) (digits a) (frac_len a) false d), [])
      | None =>
          if Ascii.eqb c "+" then Some (LNum NExpSign a, [])
          else if Ascii.eqb c "-"
          then Some (LNum NExpSign (mkAcc (neg a) (digits a) (frac_len a) true 0), [])
          else None
      end
  | NExpSign =>
      match digit_of c with
      | Some d =>
          Some (LNum NExpDigits (mkAcc (neg a) (digits a) (frac_len a) (exp_neg a) d), [])
      | None => None
      end
  | NExpDigits =>
      match digit_of c with
      | Some d =>
          Some (LNum NExpDigits
                  (mkAcc (neg a) (digits a) (frac_len a) (exp_neg a) (10 * exp_digits a + d)), [])
      | None => end_number a c
      end
  end.

Definition lex_escape (units_rev : list str_unit) (c : ascii)
  : option (lex_state * list token) :=
  match c with
  | "034"%char | "\"%char | "/"%char => Some (LStr (Raw c :: units_rev), [])
  | "b"%char => Some (LStr (Raw "008"%char :: units_rev), [])
  | "f"%char => Some (LStr (Raw "012"%char :: units_rev), [])
  | "n"%char => Some (LStr (Raw "010"%char :: units_rev), [])
  | "r"%char => Some (LStr (Raw "013"%char :: units_rev), [])
  | "t"%char => Some (LStr (Raw "009"%char :: units_rev), [])
  | "u"%char => Some (LStrHex units_rev 0 0%N, [])
  | _ => None
  end.

Definition lex_step (st : lex_state) (c : ascii) : option (lex_state * list token) :=
  match st with
  | LStart => lex_start c
  | LLit expected t =>
      match expected with
      | String e rest =>
          if Ascii.eqb c e
          then match rest with
               | EmptyString => Some (LStart, [t])
               | _ => Some (LLit rest t, [])
               end
          else None
      | EmptyString => None
      end
  | LNum ns a => lex_num ns a c
  | LStr units_rev =>
      if Ascii.eqb c "034" then Some (LStart, [TString (string_of_units units_rev)])
      else if Ascii.eqb c "\" then Some (LStrEsc units_rev, [])
      else if N.ltb (code c) 32 then None
      else Some (LStr (Raw c :: units_rev), [])
  | LStrEsc units_rev => lex_escape units_rev c
  | LStrHex units_rev seen acc =>
      match hex_of c with
      | Some h =>
          let acc' := (16 * acc + h)%N in
          match seen with
          | 3%nat => Some (LStr (Esc acc' :: units_rev), [])
          | _ => Some (LStrHex units_rev (S seen) acc', [])
          end
      | None => None
      end
  end.

Definition lex_finish (st : lex_state) : option (list token) :=
  match st with
  | LStart => Some []
  | LNum (NZero | NInt | NFrac | NExpDigits) a => Some [TNumber (number_of_acc a)]
  | _ => None
  end.

Fixpoint lex_from (st : lex_state) (s : string) : option (list token) :=
  match s with
  | EmptyString => lex_finish st
  | String c rest =>
      match lex_step st c with
      | Some (st', toks) =>
          match lex_from st' rest with
          | Some more => Some (toks ++ more)%list
          | None => None
          end
      | None => None
      end
  end.

Definition lex (s : string) : option (list token) := lex_from LStart s.

(** *** Parser: a stack automaton over the tokens *)

Inductive frame :=
| FArr (items_rev : list json)
| FObj (members_rev : list (string * json))
| FKey (members_rev : list (string * json)) (key : string).

Inductive pstate :=
| PValue (stk : list frame)
| PFirstItem (stk : list frame)
| PFirstKey (stk : list frame)
| PKey (stk : list frame)
| PColon (stk : list frame)
| PAfter (stk : list frame)
| PDone (v : json).

Definition push_value (v : json) (stk : list frame) : option pstate :=
  match stk with
  | [] => Some (PDone v)
  | FArr items_rev :: tl => Some (PAfter (FArr (v :: items_rev) :: tl))
  | FKey members_rev k :: tl => Some (PAfter (FObj ((k, v) :: members_rev) :: tl))
  | FObj _ :: _ => None
  end.

Definition accept_value (t : token) (stk : list frame) : option pstate :=
  match t with
  | TNull => push_value JNull stk
  | TTrue => push_value (JBool true) stk
  | TFalse => push_value (JBool false) stk
  | TNumber n => push_value (JNum n) stk
  | TString s => push_value (JStr s) stk
  | TLBracket => Some (PFirstItem (FArr [] :: stk))
  | TLBrace => Some (PFirstKey (FObj [] :: stk))
  | _ => None
  end.

Definition close_array (stk : list frame) : option pstate :=
  match stk with
  | FArr items_rev :: tl => push_value (JArr (rev items_rev)) tl
  | _ => None
  end.

Definition close_object (stk : list frame) : option pstate :=
  match stk with
  | FObj members_rev :: tl => push_value (JObj (rev members_rev)) tl
  | _ => None
  end.

Definition accept_key (t : token) (stk : list frame) : option pstate :=
  match t, stk with
  | TString k, FObj members_rev :: tl => Some (PColon (FKey members_rev k :: tl))
  | _, _ => None
  end.

Definition parse_step (st : pstate) (t : token) : option pstate :=
  match st with
  | PValue stk => accept_value t stk
  | PFirstItem stk =>
      match t with
      | TRBracket => close_array stk
      | _ => accept_value t stk
      end
  | PFirstKey stk =>
      match t with
      | TRBrace => close_object stk
      | _ => accept_key t stk
      end
  | PKey stk => accept_key t stk
  | PColon stk =>
      match t with
      | TColon => Some (PValue stk)
      | _ => None
      end
  | PAfter stk =>
      match t, stk with
      | TComma, FArr _ :: _ => Some (PValue stk)
      | TRBracket, FArr _ :: _ => close_array stk
      | TComma, FObj _ :: _ => Some (PKey stk)
      | TRBrace, FObj _ :: _ => close_object stk
      | _, _ => None
      end
  | PDone _ => None
  end.

Fixpoint parse_from (st : pstate) (ts : list token) : option json :=
  match ts with
  | [] => match st with PDone v => Some v | _ => None end
  | t :: tl =>
      match parse_step st t with
      | Some st' => parse_from st' tl
      | None => None
      end
  end.

(** [JSON.parse text]: the value, or [None] where the runtime throws a
    [SyntaxError]. *)
Definition JSON_parse (text : string) : option json :=
  match lex text with
  | Some ts => parse_from (PValue []) ts
  | None => None
  end.

(** Property lookup in a parsed object: with a repeated key the last
    occurrence is the one the object holds. *)
Fixpoint lookup (name : string) (members : list (string * json)) : option json :=
  match members with
  | [] => None
  | (k, v) :: tl =>
      match lookup name tl with
      | Some v' => Some v'
      | None => if String.eqb k name then Some v else None
      end
  end.

(** *** Numbers as doubles, and what [JSON.stringify] writes

    The largest double is [2^1024 - 2^971]; a literal rounds to it, or to a
    smaller double, when its magnitude is below the midpoint
    [2^1024 - 2^970], and to an infinity from that midpoint on. *)
Definition double_limit : Z := 2 ^ 1024 - 2 ^ 970.

Definition overflows (n : number) : bool :=
  if 0 <=? exponent n
  then double_limit <=? Z.abs (mantissa n) * 10 ^ exponent n
  else double_limit * 10 ^ (- exponent n) <=? Z.abs (mantissa n).

(** The value the text [JSON.stringify] writes for a parsed value denotes:
    the same value, but for an infinity, written [null], wherever it
    occurs. *)
Fixpoint stringified (v : json) : json :=
  match v with
  | JNum n => if overflows n then JNull else JNum n
  | JArr items => JArr (map stringified items)
  | JObj members => JObj (map (fun kv => (fst kv, stringified (snd kv))) members)
  | _ => v
  end.

(** The integer a literal denotes exactly as a double: one of magnitude
    [2^53] at most, written without fraction. *)
Definition safe_integer (n : number) : option Z :=
  if mantissa n =? 0 then Some 0
  else if 0 <=? exponent n
  then let z := mantissa n * 10 ^ exponent n in
       if Z.abs z <=? 2 ^ 53 then Some z else None
  else None.

(** The digits [JSON.stringify] writes for such an integer. *)
Definition decimal (z : Z) : string := NilZero.string_of_int (Z.to_int z).

(** A string PostgreSQL cannot hold as text: it has the character U+0000, or
    a surrogate that is not paired (bytes [ED A0] to [ED BF] in the encoding
    of [utf8] above). *)
Fixpoint has_unstorable_char (s : string) : bool :=
  match s with
  | EmptyString => false
  | String c rest =>
      (N.eqb (code c) 0
       || (N.eqb (code c) 237
           && match rest with
              | String c' _ => N.leb 160 (code c')
              | EmptyString => false
              end)
       || has_unstorable_char rest)%bool
  end.

Fixpoint unstorable (v : json) : bool :=
  match v with
  | JStr s => has_unstorable_char s
  | JArr items => existsb unstorable items
  | JObj members =>
      existsb (fun kv => (has_unstorable_char (fst kv) || unstorable (snd kv))%bool) members
  | _ => false
  end.

End Json.

Import Json.

(** ** The persisted store

    The rows of the four tables the handlers touch, with the columns they
    read or write.  Identifiers are uuids in their text form; a
    [timestamptz] is a count of milliseconds. *)

Definition timestamp := Z.

Module scenario.
Record row := mk {
  id : string;
  title : string;
  objective : string;
  ai_persona : string
}.
End scenario.

Module session.
Record row := mk {
  id : string;
  user_id : string;
  scenario_id : option string;
  status : string;
  ended_at : option timestamp
}.
End session.

Module message.
Record row := mk {
  session_id : string;
  role : string;
  content : string;
  created_at : timestamp
}.
End message.

Module feedback.
(** A row as the store returns it: the two [text] columns [summary] and
    [recommendations] come back as JSON strings, the [jsonb] column [scores]
    as the JSON value stored. *)
Record row := mk {
  id : Z;
  session_id : string;
  summary : json;
  scores : json;
  recommendations : json;
  created_at : timestamp
}.
End feedback.

Record Store := mkStore {
  scenario_table : list scenario.row;
  session_table : list session.row;
  message_table : list message.row;
  feedback_table : list feedback.row;
  feedback_id_seq : Z
}.

(** [.order('created_at')]: ascending.  The query fixes no order among rows
    of equal time; here a row stored earlier comes after one stored later. *)
Fixpoint insert_by_created_at (m : message.row) (l : list message.row) : list message.row :=
  match l with
  | [] => [m]
  | x :: tl =>
      if message.created_at m <? message.created_at x
      then m :: x :: tl
      else x :: insert_by_created_at m tl
  end.

Fixpoint order_by_created_at (l : list message.row) : list message.row :=
  match l with
  | [] => []
  | m :: tl => insert_by_created_at m (order_by_created_at tl)
  end.

Definition messages_of (db : Store) (session_id : string) : list message.row :=
  order_by_created_at
    (filter (fun m => String.eqb (message.session_id m) session_id) (message_table db)).

Definition sessions_with_id (db : Store) (session_id : string) : list session.row :=
  filter (fun s => String.eqb (session.id s) session_id) (session_table db).

(** The embedded [scenario(...)] of a session row: the row its foreign key
    points to, [None] (JavaScript [null]) when the key is null. *)
Definition scenario_of (db : Store) (s : session.row) : option scenario.row :=
  match session.scenario_id s with
  | Some sid => find (fun sc => String.eqb (scenario.id sc) sid) (scenario_table db)
  | None => None
  end.

(** ** The environment of one invocation *)

Record chat_message := mkMessage { role : string; content : string }.

(** The request sent to the chat-completion endpoint. *)
Record completion_request := mkCompletion {
  url : string;
  authorization : string;
  model : string;
  messages : list chat_message;
  temperature : number;
  max_tokens : Z
}.

(** What [fetch] and the reading of its body give: the promise rejects, the
    endpoint answers with a non-2xx status and some text, or it answers 2xx
    with a body of the endpoint's documented shape, a list of choices each
    with a [message.content] that is a string or [null]. *)
Inductive fetch_result :=
| Rejected
| Failure (errorText : string)
| Completion (choices : list (option string)).

Inductive db_op := SelectSession | SelectMessages | InsertFeedback | UpdateSession.

(** Errors the runtime raises by itself; the engine words their message. *)
Inductive runtime_fault :=
| BodyNotJson
| FetchRejected
| ReadOfNull (property : string)
| ReadOfUndefined (property : string)
| NotJson (text : string).

Inductive exn :=
| Error (message : string)
| PostgrestError (message : string)
| RuntimeError (fault : runtime_fault).

(** The row sent by [.insert(...)]: a property is [None] when its value is
    [undefined], which serialisation of the request drops. *)
Record feedback_insert := mkInsert {
  ins_session_id : string;
  ins_summary : option json;
  ins_scores : list (string * option json);
  ins_recommendations : option json
}.

Record Env := mkEnv {
  OPENAI_API_KEY : option string;
  (** [createClient]: [Some m] when the client library throws [Error m] *)
  createClient_error : option string;
  (** a fault of the store at one operation, with the store's message *)
  db_fault : db_op -> option string;
  fetch : completion_request -> fetch_result;
  runtime_message : runtime_fault -> string;
  (** [new Date()] in the handler, and [now()] in the store *)
  js_now : timestamp;
  db_now : timestamp;
  (** the text a [text] column takes for a JSON value other than a string, a
      boolean or an integer a double holds exactly: the JSON text the client
      library wrote for that value *)
  text_rendering : json -> string;
  (** the store's answer to a feedback row holding text it cannot store:
      [Some m] when it refuses the row with message [m] *)
  unstorable_refusal : feedback_insert -> option string;
  (** whether a refusal of a feedback row for another reason than a
      [NOT NULL] constraint came after the row's [id] was drawn *)
  refused_after_id : bool
}.

Definition message_of (env : Env) (e : exn) : string :=
  match e with
  | Error m => m
  | PostgrestError m => m
  | RuntimeError f => runtime_message env f
  end.

(** ** Effects *)

Inductive event :=
| EvSelectSession (session_id : string)
| EvSelectMessages (session_id : string)
| EvFetch (r : completion_request)
| EvInsertFeedback (payload : feedback_insert)
| EvUpdateSession (session_id : string) (status : string) (ended_at : timestamp)
| EvConsoleError (label : string) (e : exn).

Definition is_write (e : event) : bool :=
  match e with
  | EvInsertFeedback _ | EvUpdateSession _ _ _ => true
  | _ => false
  end.

Record World := mkWorld {
  db : Store;
  trace : list event
}.

Inductive outcome (A : Type) :=
| Return (a : A)
| Throw (e : exn).
Arguments Return {A} a.
Arguments Throw {A} e.

Definition M (A : Type) : Type := World -> outcome A * World.

Definition ret {A} (a : A) : M A := fun w => (Return a, w).

Definition throw {A} (e : exn) : M A := fun w => (Throw e, w).

Definition bind {A B} (m : M A) (k : A -> M B) : M B :=
  fun w =>
    match m w with
    | (Return a, w') => k a w'
    | (Throw e, w') => (Throw e, w')
    end.

Definition try_catch {A} (m : M A) (handler : exn -> M A) : M A :=
  fun w =>
    match m w with
    | (Return a, w') => (Return a, w')
    | (Throw e, w') => handler e w'
    end.

Definition emit (e : event) : M unit :=
  fun w => (Return tt, mkWorld (db w) (trace w ++ [e])%list).

Definition read_db : M Store := fun w => (Return (db w), w).

Definition write_db (d : Store) : M unit :=
  fun w => (Return tt, mkWorld d (trace w)).

Declare Scope handler_scope.
Delimit Scope handler_scope with handler.
Notation "x <- m ;; k" := (bind m (fun x => k))
  (at level 100, m at next level, right associativity) : handler_scope.
Notation "m ;; k" := (bind m (fun _ => k))
  (at level 100, right associativity) : handler_scope.
Local Open Scope handler_scope.

(** ** The store client *)

(** The [{data, error}] pair a query resolves to. *)
Inductive db_result (A : Type) :=
| Data (data : A)
| DbError (message : string).
Arguments Data {A} data.
Arguments DbError {A} message.

(** [.from('session').select('scenario_id, scenario(...)').eq('id', id).single()]:
    an error unless exactly one row matches. *)
Definition select_session (env : Env) (session_id : string)
  : M (db_result (session.row * option scenario.row)) :=
  emit (EvSelectSession session_id) ;;
  d <- read_db ;;
  match db_fault env SelectSession with
  | Some m => ret (DbError m)
  | None =>
      match sessions_with_id d session_id with
      | [s] => ret (Data (s, scenario_of d s))
      | _ => ret (DbError "JSON object requested, multiple (or no) rows returned")
      end
  end.

(** [.from('message').select('role, content').eq('session_id', id).order('created_at')] *)
Definition select_messages (env : Env) (session_id : string)
  : M (db_result (list message.row)) :=
  emit (EvSelectMessages session_id) ;;
  d <- read_db ;;
  match db_fault env SelectMessages with
  | Some m => ret (DbError m)
  | None => ret (Data (messages_of d session_id))
  end.

Definition not_null (v : option json) : option json :=
  match v with
  | Some JNull | None => None
  | Some x => Some x
  end.

(** Serialisation of an object drops the properties that are [undefined]. *)
Fixpoint defined_members (l : list (string * option json)) : list (string * json) :=
  match l with
  | [] => []
  | (k, Some v) :: tl => (k, v) :: defined_members tl
  | (_, None) :: tl => defined_members tl
  end.

(** A property of the row as the request body carries it: the client
    library sends [JSON.stringify] of the row. *)
Definition sent (v : option json) : option json := option_map stringified v.

(** The members of the [scores] object as the request body carries them. *)
Definition sent_members (l : list (string * option json)) : list (string * json) :=
  map (fun kv => (fst kv, stringified (snd kv))) (defined_members l).

(** The row holds text the store cannot keep. *)
Definition unstorable_row (payload : feedback_insert) : bool :=
  (match ins_summary payload with Some v => unstorable v | None => false end
   || existsb (fun kv => unstorable (snd kv)) (defined_members (ins_scores payload))
   || match ins_recommendations payload with Some v => unstorable v | None => false end)%bool.

Definition dq : string := String "034"%char EmptyString.

Definition not_null_violation (column : string) : string :=
  "null value in column " ++ dq ++ column ++ dq ++ " of relation " ++ dq ++ "feedback" ++ dq
  ++ " violates not-null constraint".

(** A refusal of the row that no constraint of the table explains: a fault
    of the store, or its answer to text it cannot keep. *)
Definition early_refusal (env : Env) (payload : feedback_insert) : option string :=
  match db_fault env InsertFeedback with
  | Some m => Some m
  | None => if unstorable_row payload then unstorable_refusal env payload else None
  end.

(** Why the store refuses a feedback row, if it does: a fault, text it
    cannot keep, or a null in one of the [NOT NULL] columns [summary] and
    [recommendations], as the request body carries them. *)
Definition insert_refusal (env : Env) (payload : feedback_insert) : option string :=
  match early_refusal env payload with
  | Some m => Some m
  | None =>
      match not_null (sent (ins_summary payload)),
            not_null (sent (ins_recommendations payload)) with
      | Some _, Some _ => None
      | None, _ => Some (not_null_violation "summary")
      | _, None => Some (not_null_violation "recommendations")
      end
  end.

(** Whether a refused insert has drawn a value from the sequence of [id]:
    the default of the column is computed before the [NOT NULL] constraints
    are checked, so a row refused by one of them has used a value. *)
Definition id_drawn (env : Env) (payload : feedback_insert) : bool :=
  match early_refusal env payload with
  | Some _ => refused_after_id env
  | None => true
  end.

(** The store with the next value of the sequence used up. *)
Definition skip_id (d : Store) : Store :=
  mkStore (scenario_table d) (session_table d) (message_table d) (feedback_table d)
    (feedback_id_seq d + 1).

(** What a [text] column returns for the value sent: a string as it is, any
    other value as the text written for it in the request body. *)
Definition text_column (env : Env) (v : option json) : json :=
  match v with
  | None | Some JNull => JNull
  | Some (JStr s) => JStr s
  | Some (JBool b) => JStr (if b then "true" else "false")
  | Some (JNum n) =>
      JStr (match safe_integer n with
            | Some z => decimal z
            | None => text_rendering env (JNum n)
            end)
  | Some x => JStr (text_rendering env x)
  end.

(** The stored row: the next value of the [bigserial] and the store's time
    fill [id] and [created_at]. *)
Definition inserted_row (env : Env) (d : Store) (payload : feedback_insert) : feedback.row :=
  feedback.mk (feedback_id_seq d) (ins_session_id payload)
    (text_column env (sent (ins_summary payload)))
    (JObj (sent_members (ins_scores payload)))
    (text_column env (sent (ins_recommendations payload)))
    (db_now env).

(** [.from('feedback').insert(row).select().single()] *)
Definition insert_feedback (env : Env) (payload : feedback_insert)
  : M (db_result feedback.row) :=
  emit (EvInsertFeedback payload) ;;
  d <- read_db ;;
  match insert_refusal env payload with
  | Some m =>
      (if id_drawn env payload then write_db (skip_id d) else ret tt) ;;
      ret (DbError m)
  | None =>
      let new_row := inserted_row env d payload in
      write_db (mkStore (scenario_table d) (session_table d) (message_table d)
                  (feedback_table d ++ [new_row])%list (feedback_id_seq d + 1)) ;;
      ret (Data new_row)
  end.

Definition set_status (session_id : string) (status : string) (ended_at : timestamp)
    (s : session.row) : session.row :=
  if String.eqb (session.id s) session_id
  then session.mk (session.id s) (session.user_id s) (session.scenario_id s)
         status (Some ended_at)
  else s.

(** [.from('session').update({status, ended_at}).eq('id', id)] *)
Definition update_session (env : Env) (session_id : string) (status : string)
    (ended_at : timestamp) : M (db_result unit) :=
  emit (EvUpdateSession session_id status ended_at) ;;
  d <- read_db ;;
  match db_fault env UpdateSession with
  | Some m => ret (DbError m)
  | None =>
      write_db (mkStore (scenario_table d)
                  (map (set_status session_id status ended_at) (session_table d))
                  (message_table d) (feedback_table d) (feedback_id_seq d)) ;;
      ret (Data tt)
  end.

(** ** Requests and responses *)

Record Request (B : Type) := mkRequest {
  method : string;
  (** the body as [req.json()] gives it, [None] when that rejects *)
  json_body : option B
}.
Arguments mkRequest {B} method json_body.
Arguments method {B} r.
Arguments json_body {B} r.

Record ChatRequest := mkChatRequest {
  session_id : string;
  user_message : string;
  is_initial : option bool
}.

Record FeedbackRequest := mkFeedbackRequest {
  feedback_session_id : string
}.

(** The value handed to [JSON.stringify] for the body, or no body. *)
Inductive response_body :=
| NoBody
| ErrorBody (error : string)
| MessageBody (message : option string)
| FeedbackBody (row : feedback.row).

Record Response := mkResponse {
  status : Z;
  headers : list (string * string);
  body : response_body
}.

Definition corsHeaders : list (string * string) :=
  [ ("Access-Control-Allow-Origin", "*");
    ("Access-Control-Allow-Methods", "GET, POST, PUT, DELETE, OPTIONS");
    ("Access-Control-Allow-Headers", "Content-Type, Authorization, X-Client-Info, Apikey") ].

Definition json_headers : list (string * string) :=
  (corsHeaders ++ [("Content-Type", "application/json")])%list.

Definition preflight : Response := mkResponse 200 corsHeaders NoBody.

(** JavaScript truthiness of the values the handlers test. *)
Definition truthy_string (s : string) : bool := negb (String.eqb s EmptyString).

Definition truthy_flag (b : option bool) : bool :=
  match b with Some true => true | _ => false end.

(** [error.message || 'Internal server error'] *)
Definition error_response (env : Env) (error : exn) : Response :=
  let m := message_of env error in
  mkResponse 500 json_headers
    (ErrorBody (if truthy_string m then m else "Internal server error")).

Definition console_error (label : string) (error : exn) : M unit :=
  emit (EvConsoleError label error).

(** ** Steps both handlers share *)

Definition require_key (env : Env) : M string :=
  match OPENAI_API_KEY env with
  | Some k =>
      if truthy_string k then ret k else throw (Error "OpenAI API key not configured")
  | None => throw (Error "OpenAI API key not configured")
  end.

Definition createClient (env : Env) : M unit :=
  match createClient_error env with
  | Some m => throw (Error m)
  | None => ret tt
  end.

Definition req_json {B} (req : Request B) : M B :=
  match json_body req with
  | Some b => ret b
  | None => throw (RuntimeError BodyNotJson)
  end.

(** [(sessionError || !session)] then [throw new Error('Session not found')] *)
Definition found_session (r : db_result (session.row * option scenario.row))
  : M (session.row * option scenario.row) :=
  match r with
  | Data s => ret s
  | DbError _ => throw (Error "Session not found")
  end.

(** Reading a property of the embedded scenario, which may be [null]. *)
Definition scenario_title (sc : option scenario.row) : M scenario.row :=
  match sc with
  | Some r => ret r
  | None => throw (RuntimeError (ReadOfNull "title"))
  end.

(** [fetch] of the endpoint, the check of [ok], and
    [openaiData.choices[0].message.content]. *)
Definition completion_content (env : Env) (r : completion_request) : M (option string) :=
  emit (EvFetch r) ;;
  match fetch env r with
  | Rejected => throw (RuntimeError FetchRejected)
  | Failure errorText => throw (Error ("OpenAI API error: " ++ errorText))
  | Completion [] => throw (RuntimeError (ReadOfUndefined "message"))
  | Completion (c :: _) => ret c
  end.

Definition nl : string := String "010"%char EmptyString.

Definition completions_url : string := "https://api.openai.com/v1/chat/completions".

(** ** The chat handler *)

Definition systemPrompt (sc : scenario.row) (initial : bool) : string :=
  "You are a professional communication coach simulating a real-world "
  ++ scenario.title sc ++ " scenario." ++ nl
  ++ "Your role: " ++ scenario.ai_persona sc ++ nl
  ++ nl
  ++ "Objective: " ++ scenario.objective sc ++ nl
  ++ nl
  ++ "Your goal is to help the user practice effective conversation and improve their communication skills." ++ nl
  ++ "Keep responses concise (2-3 sentences), natural, and human-like." ++ nl
  ++ "Stay in character and create a realistic, challenging but supportive practice environment." ++ nl
  ++ (if initial
      then "Start the conversation by introducing yourself and the scenario context."
      else "Respond as your character would in this situation.").

Definition history_message (msg : message.row) : chat_message :=
  mkMessage (if String.eqb (message.role msg) "assistant" then "assistant" else "user")
            (message.content msg).

Definition openaiMessages (sc : scenario.row) (conversationHistory : list message.row)
    (req : ChatRequest) : list chat_message :=
  let initial := truthy_flag (is_initial req) in
  let base :=
    mkMessage "system" (systemPrompt sc initial)
    :: map history_message conversationHistory in
  if (negb initial && truthy_string (user_message req))%bool
  then (base ++ [mkMessage "user" (user_message req)])%list
  else base.

Definition chat_temperature : number := mkNumber 8 (-1).
Definition chat_max_tokens : Z := 200.

Definition chat_completion (openaiKey : string) (msgs : list chat_message)
  : completion_request :=
  mkCompletion completions_url ("Bearer " ++ openaiKey) "gpt-4o-mini" msgs
    chat_temperature chat_max_tokens.

Definition chat_try (env : Env) (req : Request ChatRequest) : M Response :=
  openaiKey <- require_key env ;;
  createClient env ;;
  r <- req_json req ;;
  q <- select_session env (session_id r) ;;
  s <- found_session q ;;
  let scenario := snd s in
  ms <- select_messages env (session_id r) ;;
  let conversationHistory := match ms with Data l => l | DbError _ => [] end in
  sc <- scenario_title scenario ;;
  let msgs := openaiMessages sc conversationHistory r in
  aiMessage <- completion_content env (chat_completion openaiKey msgs) ;;
  ret (mkResponse 200 json_headers (MessageBody aiMessage)).

Definition chat (env : Env) (req : Request ChatRequest) : M Response :=
  if String.eqb (method req) "OPTIONS" then ret preflight
  else try_catch (chat_try env req)
         (fun error => console_error "Chat error:" error ;; ret (error_response env error)).

(** ** The feedback handler *)

Definition transcript_line (m : message.row) : string :=
  (if String.eqb (message.role m) "user" then "User" else "Coach") ++ ": " ++ message.content m.

(** [lines.join('\n\n')] *)
Fixpoint join_blank_line (lines : list string) : string :=
  match lines with
  | [] => EmptyString
  | [l] => l
  | l :: tl => l ++ nl ++ nl ++ join_blank_line tl
  end.

Definition conversationText (msgs : list message.row) : string :=
  join_blank_line (map transcript_line msgs).

Definition feedbackPrompt (sc : scenario.row) (msgs : list message.row) : string :=
  "You are an expert communication coach evaluating a practice conversation." ++ nl
  ++ nl
  ++ "Scenario: " ++ scenario.title sc ++ nl
  ++ "Objective: " ++ scenario.objective sc ++ nl
  ++ nl
  ++ "Conversation:" ++ nl
  ++ conversationText msgs ++ nl
  ++ nl
  ++ "Evaluate the user's communication during this conversation on these metrics (0-5 scale):" ++ nl
  ++ "1. Clarity - Was the message structured, concise, and easy to follow?" ++ nl
  ++ "2. Empathy - Did the user demonstrate understanding and emotional awareness?" ++ nl
  ++ "3. Assertiveness - Did the user communicate confidently and maintain appropriate boundaries?" ++ nl
  ++ nl
  ++ "Provide your response in the following JSON format:" ++ nl
  ++ "{" ++ nl
  ++ "  " ++ dq ++ "summary" ++ dq ++ ": " ++ dq
  ++ "A brief 2-3 sentence overall assessment of the user's performance" ++ dq ++ "," ++ nl
  ++ "  " ++ dq ++ "clarity" ++ dq ++ ": <number 0-5>," ++ nl
  ++ "  " ++ dq ++ "empathy" ++ dq ++ ": <number 0-5>," ++ nl
  ++ "  " ++ dq ++ "assertiveness" ++ dq ++ ": <number 0-5>," ++ nl
  ++ "  " ++ dq ++ "recommendations" ++ dq ++ ": " ++ dq
  ++ "Three specific, actionable recommendations for improvement, each on a new line starting with a bullet point"
  ++ dq ++ nl
  ++ "}" ++ nl
  ++ nl
  ++ "Respond ONLY with valid JSON, no additional text.".

Definition feedback_temperature : number := mkNumber 7 (-1).
Definition feedback_max_tokens : Z := 500.

Definition feedback_completion (openaiKey : string) (prompt : string) : completion_request :=
  mkCompletion completions_url ("Bearer " ++ openaiKey) "gpt-4o-mini"
    [ mkMessage "system" "You are an expert communication coach providing constructive feedback.";
      mkMessage "user" prompt ]
    feedback_temperature feedback_max_tokens.

(** [JSON.parse(feedbackText)]: the argument is turned into a string first,
    [null] into the text [null]. *)
Definition parse_feedback (feedbackText : option string) : M json :=
  let text := match feedbackText with Some t => t | None => "null" end in
  match JSON_parse text with
  | Some v => ret v
  | None => throw (RuntimeError (NotJson text))
  end.

(** [feedbackJson.name] for the five names the handler reads, none of which
    is a property of a string, number, boolean or array: [None] is
    [undefined]. *)
Definition member (feedbackJson : json) (name : string) : M (option json) :=
  match feedbackJson with
  | JNull => throw (RuntimeError (ReadOfNull name))
  | JObj members => ret (lookup name members)
  | _ => ret None
  end.

Definition enough_conversation (ms : db_result (list message.row)) : M (list message.row) :=
  match ms with
  | Data l =>
      if (Z.of_nat (length l) <? 2) then throw (Error "Not enough conversation for feedback")
      else ret l
  | DbError _ => throw (Error "Not enough conversation for feedback")
  end.

Definition feedback_try (env : Env) (req : Request FeedbackRequest) : M Response :=
  openaiKey <- require_key env ;;
  createClient env ;;
  r <- req_json req ;;
  let session_id := feedback_session_id r in
  q <- select_session env session_id ;;
  s <- found_session q ;;
  let scenario := snd s in
  ms <- select_messages env session_id ;;
  msgs <- enough_conversation ms ;;
  sc <- scenario_title scenario ;;
  feedbackText <-
    completion_content env (feedback_completion openaiKey (feedbackPrompt sc msgs)) ;;
  feedbackJson <- parse_feedback feedbackText ;;
  clarity <- member feedbackJson "clarity" ;;
  empathy <- member feedbackJson "empathy" ;;
  assertiveness <- member feedbackJson "assertiveness" ;;
  let scores :=
    [("clarity", clarity); ("empathy", empathy); ("assertiveness", assertiveness)] in
  summary <- member feedbackJson "summary" ;;
  recommendations <- member feedbackJson "recommendations" ;;
  ins <- insert_feedback env (mkInsert session_id summary scores recommendations) ;;
  match ins with
  | DbError m => throw (PostgrestError m)
  | Data feedback =>
      update_session env session_id "completed" (js_now env) ;;
      ret (mkResponse 200 json_headers (FeedbackBody feedback))
  end.

Definition feedback (env : Env) (req : Request FeedbackRequest) : M Response :=
  if String.eqb (method req) "OPTIONS" then ret preflight
  else try_catch (feedback_try env req)
         (fun error => console_error "Feedback error:" error ;; ret (error_response env error)).

(** Running a handler on a store, from an empty trace. *)
Definition run {A} (m : M A) (d : Store) : outcome A * World := m (mkWorld d []).

(** ** A concrete session, used to run the handlers *)

Module Demo.

Definition interview : scenario.row :=
  scenario.mk "sc-1" "Job Interview" "Answer behavioural questions clearly"
    "A hiring manager at a technology company".

Definition s1 : session.row := session.mk "s-1" "u-1" (Some "sc-1") "active" None.

Definition greeting : message.row :=
  message.mk "s-1" "assistant" "Welcome. Tell me about yourself." 10.

Definition answer : message.row :=
  message.mk "s-1" "user" "I am a software engineer." 20.

(** The later message is stored first: the query has to order them. *)
Definition store2 : Store := mkStore [interview] [s1] [answer; greeting] [] 1.

Definition store1 : Store := mkStore [interview] [s1] [greeting] [] 1.

Definition store0 : Store := mkStore [interview] [s1] [] [] 1.

Definition v8_message (f : runtime_fault) : string :=
  match f with
  | BodyNotJson => "Unexpected end of JSON input"
  | FetchRejected => "error sending request"
  | ReadOfNull p => "Cannot read properties of null (reading '" ++ p ++ "')"
  | ReadOfUndefined p => "Cannot read properties of undefined (reading '" ++ p ++ "')"
  | NotJson _ => "Unexpected token in JSON"
  end.

Fixpoint comma_separated (parts : list string) : string :=
  match parts with
  | [] => EmptyString
  | [part] => part
  | part :: rest => part ++ "," ++ comma_separated rest
  end.

(** A writer of compact JSON text for the examples: right for strings that
    need no escape and for integers; another number is written as its
    mantissa and exponent. *)
Fixpoint json_text (v : json) : string :=
  match v with
  | JNull => "null"
  | JBool b => if b then "true" else "false"
  | JNum n =>
      decimal (mantissa n)
      ++ (if exponent n =? 0 then EmptyString else "e" ++ decimal (exponent n))
  | JStr s => dq ++ s ++ dq
  | JArr items => "[" ++ comma_separated (map json_text items) ++ "]"
  | JObj members =>
      "{" ++ comma_separated
               (map (fun kv => dq ++ fst kv ++ dq ++ ":" ++ json_text (snd kv)) members)
      ++ "}"
  end.

Definition unsupported_escape : string := "unsupported Unicode escape sequence".

(** An environment with every secret set and a sound store, whose model
    endpoint always resolves to [reply]. *)
Definition env_with (reply : fetch_result) : Env :=
  mkEnv (Some "sk-test") None (fun _ => None) (fun _ => reply) v8_message 5000 5001
    json_text (fun _ => Some unsupported_escape) false.

Definition bullet : string :=
  String "226"%char (String "128"%char (String "162"%char EmptyString)).

(** The text
    [{"summary":"ok","clarity":4,"empathy":3,"assertiveness":5,"recommendations":"• a\n• b\n• c"}],
    the two [\n] being escapes inside the JSON string. *)
Definition well_formed_payload : string :=
  "{" ++ dq ++ "summary" ++ dq ++ ":" ++ dq ++ "ok" ++ dq ++ ","
  ++ dq ++ "clarity" ++ dq ++ ":4,"
  ++ dq ++ "empathy" ++ dq ++ ":3,"
  ++ dq ++ "assertiveness" ++ dq ++ ":5,"
  ++ dq ++ "recommendations" ++ dq ++ ":" ++ dq
  ++ bullet ++ " a\n" ++ bullet ++ " b\n" ++ bullet ++ " c" ++ dq ++ "}".


(** The JSON object wrapped in commentary, as chat models tend to do. *)
Definition commented_payload : string :=
  "Here is the evaluation: " ++ well_formed_payload ++ " Hope this helps!".

Definition post {B} (b : B) : Request B := mkRequest "POST" (Some b).

End Demo.

(** * Vocabulary of the properties *)

(** ** Symbolic execution of a handler *)

Ltac reduce_handler :=
  cbv beta iota zeta delta
    [run chat chat_try feedback feedback_try try_catch bind ret throw emit read_db
     write_db require_key createClient req_json select_session found_session
     select_messages enough_conversation scenario_title completion_content
     parse_feedback member insert_feedback update_session console_error
     db trace fst snd].

Ltac case_step :=
  match goal with
  | |- context [match ?x with _ => _ end] =>
      lazymatch x with
      | context [match _ with _ => _ end] => fail
      | _ => destruct x eqn:?
      end
  end.

Ltac all_paths := reduce_handler; repeat (case_step; reduce_handler).

Definition older_or_same (a b : message.row) : Prop :=
  message.created_at a <= message.created_at b.

Definition get_header (name : string) (hs : list (string * string)) : option string :=
  match find (fun h => String.eqb (fst h) name) hs with
  | Some h => Some (snd h)
  | None => None
  end.

(** The three cross-origin headers of a response, as a client reads them. *)
Definition cors_of (resp : Response) : option string * option string * option string :=
  (get_header "Access-Control-Allow-Origin" (headers resp),
   get_header "Access-Control-Allow-Methods" (headers resp),
   get_header "Access-Control-Allow-Headers" (headers resp)).

Definition permissive_cors : option string * option string * option string :=
  (Some "*",
   Some "GET, POST, PUT, DELETE, OPTIONS",
   Some "Content-Type, Authorization, X-Client-Info, Apikey").

(** Case analysis of a membership in a concrete trace. *)
Ltac in_trace H :=
  cbn [app In] in H;
  repeat (destruct H as [H|H]; [try discriminate|]);
  try contradiction.

Definition is_read_or_call (e : event) : bool :=
  match e with
  | EvSelectSession _ | EvSelectMessages _ | EvFetch _ | EvConsoleError _ _ => true
  | EvInsertFeedback _ | EvUpdateSession _ _ _ => false
  end.

(** C5 as the specification words it: the feedback request is capped lower
    than the chat request. *)
Definition feedback_cap_lower_than_chat_cap : Prop :=
  forall key prompt msgs,
    max_tokens (feedback_completion key prompt) < max_tokens (chat_completion key msgs).

(** The secrets are set: the model key is a non-empty string and the store
    client is created. *)
Definition configured (env : Env) : bool :=
  match OPENAI_API_KEY env, createClient_error env with
  | Some k, None => truthy_string k
  | _, _ => false
  end.

Definition is_post {B} (req : Request B) (b : B) : Prop :=
  String.eqb (method req) "OPTIONS" = false /\ json_body req = Some b.

(** No row of the session table has this identifier. *)
Definition session_unknown (d : Store) (session_id : string) : Prop :=
  forall s, In s (session_table d) -> session.id s <> session_id.

(** Run a handler along the path the equations of the context select. *)
Ltac known_path :=
  repeat (reduce_handler;
          match goal with
          | H : ?x = _ |- context [match ?x with _ => _ end] => rewrite H
          end);
  reduce_handler.

(** The rows of the message table that belong to a session. *)
Definition message_rows (d : Store) (session_id : string) : list message.row :=
  filter (fun m => String.eqb (message.session_id m) session_id) (message_table d).

(** [part] occurs in [whole]. *)
Definition embeds (whole part : string) : Prop :=
  exists before after, whole = before ++ part ++ after.

Definition ends_with (whole part : string) : Prop :=
  exists before, whole = before ++ part.

Definition introduce_yourself : string :=
  "Start the conversation by introducing yourself and the scenario context.".

Definition respond_in_character : string :=
  "Respond as your character would in this situation.".

(** The [CHECK] of the [role] column. *)
Definition role_checked (m : message.row) : Prop :=
  message.role m = "user" \/ message.role m = "assistant".

(** The history the handler works with: the session's messages oldest
    first, or none when the message query fails ([messages || []]). *)
Definition history_read (env : Env) (d : Store) (session_id : string) : list message.row :=
  match db_fault env SelectMessages with
  | None => messages_of d session_id
  | Some _ => []
  end.

(** C7 as the specification words it: on every turn that is not the opening
    one the user message closes the list. *)
Definition user_message_closes_every_later_turn
    (env : Env) (d : Store) (c : ChatRequest) : Prop :=
  forall req r,
    json_body req = Some c ->
    In (EvFetch r) (trace (snd (run (chat env req) d))) ->
    exists sc,
      messages r =
        (mkMessage "system" (systemPrompt sc (truthy_flag (is_initial c)))
         :: map history_message (messages_of d (session_id c))
         ++ (if truthy_flag (is_initial c) then []
             else [mkMessage "user" (user_message c)]))%list.

(** [feedbackJson.name] as a value: [None] is [undefined]. *)
Definition field (v : json) (name : string) : option json :=
  match v with
  | JObj members => lookup name members
  | _ => None
  end.






(** Every update of a session comes after an insert of feedback: [inserted]
    tells whether an insert has been seen so far. *)
Fixpoint updates_follow_insert (inserted : bool) (t : list event) : bool :=
  match t with
  | [] => true
  | EvInsertFeedback _ :: tl => updates_follow_insert true tl
  | EvUpdateSession _ _ _ :: tl => (inserted && updates_follow_insert inserted tl)%bool
  | _ :: tl => updates_follow_insert inserted tl
  end.

Definition is_update (e : event) : bool :=
  match e with
  | EvUpdateSession _ _ _ => true
  | _ => false
  end.


Definition is_insert (e : event) : bool :=
  match e with
  | EvInsertFeedback _ => true
  | _ => false
  end.


(** * Vocabulary of the further properties *)

(** [!openaiKey]: the variable is unset or empty. *)
Definition key_missing (env : Env) : bool :=
  match OPENAI_API_KEY env with
  | Some k => negb (truthy_string k)
  | None => true
  end.

Definition is_model_call (e : event) : bool :=
  match e with
  | EvFetch _ => true
  | _ => false
  end.

Definition is_console_error (e : event) : bool :=
  match e with
  | EvConsoleError _ _ => true
  | _ => false
  end.

(** The run ended in the handler's [catch]: the error was logged once, as
    the last effect, and the response reports it. *)
Definition reports (env : Env) (label : string) (resp : Response) (t : list event) : Prop :=
  exists e pre m,
    t = (pre ++ [EvConsoleError label e])%list /\
    Forall (fun ev => is_console_error ev = false) pre /\
    resp = mkResponse 500 json_headers (ErrorBody m) /\
    m <> EmptyString /\
    (m = message_of env e \/ m = "Internal server error").

(** Split a concrete trace before its last event and conclude with [lem]. *)
Ltac as_report lem :=
  match goal with
  | |- reports _ _ _ ?t =>
      let t' := eval cbn [app] in t in
      change t with t'
  end;
  repeat match goal with
  | |- reports _ _ _ [?e] => change [e] with ([] ++ [e])%list
  | |- reports _ _ _ [?a; ?e] => change [a; e] with ([a] ++ [e])%list
  | |- reports _ _ _ [?a; ?b; ?e] => change [a; b; e] with ([a; b] ++ [e])%list
  | |- reports _ _ _ [?a; ?b; ?c; ?e] => change [a; b; c; e] with ([a; b; c] ++ [e])%list
  | |- reports _ _ _ [?a; ?b; ?c; ?d; ?e] =>
      change [a; b; c; d; e] with ([a; b; c; d] ++ [e])%list
  end;
  apply lem; repeat constructor.

(** The text [JSON.parse] is given: a [null] content reads [null]. *)
Definition feedback_text (content : option string) : string :=
  match content with Some t => t | None => "null" end.

(** The row the feedback handler sends for a parsed model output. *)
Definition feedback_payload (session_id : string) (v : json) : feedback_insert :=
  mkInsert session_id (field v "summary")
    [("clarity", field v "clarity");
     ("empathy", field v "empathy");
     ("assertiveness", field v "assertiveness")]
    (field v "recommendations").

(** The store after the insert of [row] and the update of the session,
    which takes effect unless the store refuses it. *)
Definition after_feedback (env : Env) (d : Store) (session_id : string)
    (row : feedback.row) : Store :=
  mkStore (scenario_table d)
    (match db_fault env UpdateSession with
     | None => map (set_status session_id "completed" (js_now env)) (session_table d)
     | Some _ => session_table d
     end)
    (message_table d)
    (feedback_table d ++ [row])%list
    (feedback_id_seq d + 1).

(** The feedback handler gets as far as asking the model: the secrets are
    set, the POST body is read, the session resolves to one row with a
    scenario, and at least two messages are read. *)
Definition feedback_reaches_model (env : Env) (d : Store) (req : Request FeedbackRequest)
    (f : FeedbackRequest) (k : string) (s : session.row) (sc : scenario.row) : Prop :=
  configured env = true /\
  OPENAI_API_KEY env = Some k /\
  is_post req f /\
  db_fault env SelectSession = None /\
  sessions_with_id d (feedback_session_id f) = [s] /\
  scenario_of d s = Some sc /\
  db_fault env SelectMessages = None /\
  (2 <= length (message_rows d (feedback_session_id f)))%nat.

(** The chat handler gets as far as asking the model. *)
Definition chat_reaches_model (env : Env) (d : Store) (req : Request ChatRequest)
    (c : ChatRequest) (k : string) (s : session.row) (sc : scenario.row) : Prop :=
  configured env = true /\
  OPENAI_API_KEY env = Some k /\
  is_post req c /\
  db_fault env SelectSession = None /\
  sessions_with_id d (session_id c) = [s] /\
  scenario_of d s = Some sc.

(** The effects of a chat run that reaches the model. *)
Definition chat_trace (env : Env) (d : Store) (c : ChatRequest) (k : string)
    (sc : scenario.row) : list event :=
  [EvSelectSession (session_id c);
   EvSelectMessages (session_id c);
   EvFetch (chat_completion k
              (openaiMessages sc (history_read env d (session_id c)) c))].

(** Everything a feedback request needs to go through: the secrets, a
    readable POST body, a session that resolves with its scenario, at least
    two messages read, a model reply that parses to something other than
    [null], and a row the store accepts: no fault, no refusal of text it
    cannot keep, and a [summary] and [recommendations] that are not null in
    the request body. *)
Definition feedback_goes_through (env : Env) (d : Store) (req : Request FeedbackRequest)
    (f : FeedbackRequest) (k : string) (s : session.row) (sc : scenario.row)
    (content : option string) (v : json) : Prop :=
  configured env = true /\
  OPENAI_API_KEY env = Some k /\
  is_post req f /\
  db_fault env SelectSession = None /\
  sessions_with_id d (feedback_session_id f) = [s] /\
  scenario_of d s = Some sc /\
  db_fault env SelectMessages = None /\
  (2 <= length (message_rows d (feedback_session_id f)))%nat /\
  (exists rest,
     fetch env (feedback_completion k
                  (feedbackPrompt sc (messages_of d (feedback_session_id f))))
     = Completion (content :: rest)) /\
  JSON_parse (feedback_text content) = Some v /\
  v <> JNull /\
  insert_refusal env (feedback_payload (feedback_session_id f) v) = None.

(** The effects of a feedback run that goes through. *)
Definition feedback_trace (env : Env) (d : Store) (f : FeedbackRequest) (k : string)
    (sc : scenario.row) (v : json) : list event :=
  [EvSelectSession (feedback_session_id f);
   EvSelectMessages (feedback_session_id f);
   EvFetch (feedback_completion k
              (feedbackPrompt sc (messages_of d (feedback_session_id f))));
   EvInsertFeedback (feedback_payload (feedback_session_id f) v);
   EvUpdateSession (feedback_session_id f) "completed" (js_now env)].

Definition score_names : list string := ["clarity"; "empathy"; "assertiveness"].

(** A role the chat-completion endpoint is sent for a turn of the
    conversation. *)
Definition turn_role (m : chat_message) : Prop :=
  role m = "user" \/ role m = "assistant".

(** Turn [Hreach], the fact that the feedback handler reaches the model,
    into the equations its run follows; [inv] inverts [configured] and
    [len] relates the rows of a session to the result of the query. *)
Ltac to_the_model Hreach inv len :=
  let Hc := fresh "Hc" in
  let Hk := fresh "Hk" in
  let Hm := fresh "Hm" in
  let Hb := fresh "Hb" in
  let Hf1 := fresh "Hf1" in
  let Hs := fresh "Hs" in
  let Hsc := fresh "Hsc" in
  let Hf2 := fresh "Hf2" in
  let Hlen := fresh "Hlen" in
  let Hge := fresh "Hge" in
  destruct Hreach as (Hc & Hk & [Hm Hb] & Hf1 & Hs & Hsc & Hf2 & Hlen);
  apply inv in Hc as (? & Hc & ? & ?);
  rewrite Hk in Hc; injection Hc as <-;
  rewrite <- len in Hlen;
  match type of Hlen with
  | (2 <= length ?l)%nat =>
      assert (Hge : (Z.of_nat (length l) <? 2) = false) by (apply Z.ltb_ge; lia)
  end.

(** ** More concrete data *)

Module Scene.

(** A session whose scenario key is null. *)
Definition adrift : session.row := session.mk "s-2" "u-1" None "active" None.

Definition store_adrift : Store :=
  mkStore [Demo.interview] [Demo.s1; adrift]
    [Demo.answer; Demo.greeting;
     message.mk "s-2" "assistant" "Hello." 30; message.mk "s-2" "user" "Hi." 40]
    [] 1.

End Scene.

Module Replies.

(** A reply that scores but gives no summary. *)
Definition no_summary : string :=
  "{" ++ dq ++ "clarity" ++ dq ++ ":4,"
  ++ dq ++ "empathy" ++ dq ++ ":3,"
  ++ dq ++ "assertiveness" ++ dq ++ ":5,"
  ++ dq ++ "recommendations" ++ dq ++ ":" ++ dq ++ "practise" ++ dq ++ "}".

(** A reply with a field the handler does not read. *)
Definition with_tone : string :=
  "{" ++ dq ++ "summary" ++ dq ++ ":" ++ dq ++ "ok" ++ dq ++ ","
  ++ dq ++ "clarity" ++ dq ++ ":4,"
  ++ dq ++ "tone" ++ dq ++ ":2,"
  ++ dq ++ "assertiveness" ++ dq ++ ":5,"
  ++ dq ++ "recommendations" ++ dq ++ ":" ++ dq ++ "practise" ++ dq ++ "}".

(** A reply whose [clarity] is beyond the range of the doubles. *)
Definition beyond_double_score : string :=
  "{" ++ dq ++ "summary" ++ dq ++ ":" ++ dq ++ "ok" ++ dq ++ ","
  ++ dq ++ "clarity" ++ dq ++ ":1e400,"
  ++ dq ++ "empathy" ++ dq ++ ":3,"
  ++ dq ++ "assertiveness" ++ dq ++ ":5,"
  ++ dq ++ "recommendations" ++ dq ++ ":" ++ dq ++ "practise" ++ dq ++ "}".

(** A reply whose [summary] is such a number. *)
Definition beyond_double_summary : string :=
  "{" ++ dq ++ "summary" ++ dq ++ ":1e400,"
  ++ dq ++ "clarity" ++ dq ++ ":4,"
  ++ dq ++ "empathy" ++ dq ++ ":3,"
  ++ dq ++ "assertiveness" ++ dq ++ ":5,"
  ++ dq ++ "recommendations" ++ dq ++ ":" ++ dq ++ "practise" ++ dq ++ "}".

(** A reply whose [summary] is a number and whose [recommendations] are a
    list. *)
Definition not_text : string :=
  "{" ++ dq ++ "summary" ++ dq ++ ":7,"
  ++ dq ++ "clarity" ++ dq ++ ":4,"
  ++ dq ++ "empathy" ++ dq ++ ":3,"
  ++ dq ++ "assertiveness" ++ dq ++ ":5,"
  ++ dq ++ "recommendations" ++ dq ++ ":[" ++ dq ++ "a" ++ dq ++ "," ++ dq ++ "b" ++ dq
  ++ "]}".

End Replies.


(** * Row-level security and the page that calls the chat function *)

(** ** The policies of the message, session and feedback tables

    [uid] is [auth.uid()]: the signed-in user of the request, [None] for a
    request without one, to which no policy applies.  A session row carries
    its user: the page creates sessions with [user_id] set to the signed-in
    user, as the policy for creating them demands. *)

Module Policy.

(** [auth.uid() = user_id] *)
Definition is_own (uid : option string) (owner : string) : bool :=
  match uid with
  | Some u => String.eqb u owner
  | None => false
  end.

(** [EXISTS (SELECT 1 FROM session WHERE session.id = ... AND
    session.user_id = auth.uid())] *)
Definition owns_session (d : Store) (uid : option string) (session_id : string) : bool :=
  existsb (fun s => (String.eqb (session.id s) session_id
                     && is_own uid (session.user_id s))%bool)
          (session_table d).

(** "Users can view messages from own sessions"; "Users can create messages
    in own sessions" checks the same condition on the session of the new
    row. *)
Definition view_message (d : Store) (uid : option string) (m : message.row) : bool :=
  owns_session d uid (message.session_id m).

(** "Users can view feedback for own sessions" *)
Definition view_feedback (d : Store) (uid : option string) (f : feedback.row) : bool :=
  owns_session d uid (feedback.session_id f).

End Policy.

(** The primary key of the session table. *)
Definition session_key (d : Store) : Prop := NoDup (map session.id (session_table d)).

(** ** The chat page *)

Module ChatInterface.

(** The state of the component that [loadMessages] and [sendMessage] read or
    set. *)
Record State := mkState {
  messages : list message.row;
  input : string;
  loading : bool;
  typingIndicator : bool;
  initializing : bool
}.

Inductive page_error :=
| StoreError (message : string)
| JsError (message : string)
| FetchFailed
| BodyUnreadable.

Inductive ui_event :=
| ShowTip (text : string)
| ShowToast (text : string) (kind : string)
| ConsoleError (label : string) (error : page_error).

Inductive page_op := SelectMessages | InsertUserMessage | InsertAssistantMessage.

(** What becomes of the [fetch] of the function's URL: it rejects, the
    platform answers by itself with a status that is not a success, or the
    function runs. *)
Inductive gateway := Unreachable | Refused | Forwarded.

Record PageEnv := mkPageEnv {
  uid : option string;
  (** [String.prototype.trim] *)
  trim : string -> string;
  page_fault : page_op -> option string;
  (** the store's [now()] at an insert *)
  page_now : page_op -> timestamp;
  chat_gateway : gateway;
  (** the environment the function runs in *)
  function_env : Env
}.

Record Page := mkPage {
  store : Store;
  state : State;
  ui : list ui_event;
  (** the effects of the function's runs *)
  function_log : list event
}.

Inductive result (A : Type) :=
| Done (a : A)
| Raised (e : page_error).
Arguments Done {A} a.
Arguments Raised {A} e.

Definition P (A : Type) : Type := Page -> result A * Page.

Definition done {A} (a : A) : P A := fun p => (Done a, p).

Definition raise {A} (e : page_error) : P A := fun p => (Raised e, p).

Definition then_ {A B} (m : P A) (k : A -> P B) : P B :=
  fun p =>
    match m p with
    | (Done a, p') => k a p'
    | (Raised e, p') => (Raised e, p')
    end.

Definition catch {A} (m : P A) (handler : page_error -> P A) : P A :=
  fun p =>
    match m p with
    | (Done a, p') => (Done a, p')
    | (Raised e, p') => handler e p'
    end.

(** [try { m } finally { f }] for an [f] that does not throw. *)
Definition finally {A} (m : P A) (f : P unit) : P A :=
  fun p =>
    match m p with
    | (r, p') => (r, snd (f p'))
    end.

Declare Scope page_scope.
Delimit Scope page_scope with page.
Notation "x <- m ;; k" := (then_ m (fun x => k))
  (at level 100, m at next level, right associativity) : page_scope.
Notation "m ;; k" := (then_ m (fun _ => k))
  (at level 100, right associativity) : page_scope.
Local Open Scope page_scope.

Definition set_state (f : State -> State) : P unit :=
  fun p => (Done tt, mkPage (store p) (f (state p)) (ui p) (function_log p)).

Definition setMessages (f : list message.row -> list message.row) : P unit :=
  set_state (fun s =>
    mkState (f (messages s)) (input s) (loading s) (typingIndicator s) (initializing s)).

Definition setInput (v : string) : P unit :=
  set_state (fun s =>
    mkState (messages s) v (loading s) (typingIndicator s) (initializing s)).

Definition setLoading (v : bool) : P unit :=
  set_state (fun s =>
    mkState (messages s) (input s) v (typingIndicator s) (initializing s)).

Definition setTypingIndicator (v : bool) : P unit :=
  set_state (fun s =>
    mkState (messages s) (input s) (loading s) v (initializing s)).

Definition setInitializing (v : bool) : P unit :=
  set_state (fun s =>
    mkState (messages s) (input s) (loading s) (typingIndicator s) v).

Definition show (e : ui_event) : P unit :=
  fun p => (Done tt, mkPage (store p) (state p) (ui p ++ [e])%list (function_log p)).

Definition showTip (text : string) : P unit := show (ShowTip text).

Definition showToast (text kind : string) : P unit := show (ShowToast text kind).

Definition console_error (label : string) (error : page_error) : P unit :=
  show (ConsoleError label error).

(** [.from('message').select('*').eq('session_id', id).order('created_at')]
    as the signed-in user: the rows the policy lets the user see. *)
Definition select_messages (env : PageEnv) (sessionId : string)
  : P (db_result (list message.row)) :=
  fun p =>
    match page_fault env SelectMessages with
    | Some m => (Done (DbError m), p)
    | None =>
        (Done (Data (filter (Policy.view_message (store p) (uid env))
                       (messages_of (store p) sessionId))), p)
    end.

Definition policy_violation : string :=
  "new row violates row-level security policy for table " ++ dq ++ "message" ++ dq.

Definition content_violation : string :=
  "null value in column " ++ dq ++ "content" ++ dq ++ " of relation " ++ dq ++ "message"
  ++ dq ++ " violates not-null constraint".

(** Why the store refuses a message row, if it does: a fault, the policy
    for creating messages, or a null [content]. *)
Definition message_refusal (env : PageEnv) (d : Store) (op : page_op)
    (sessionId : string) (content : option string) : option string :=
  match page_fault env op with
  | Some m => Some m
  | None =>
      if Policy.owns_session d (uid env) sessionId
      then match content with
           | Some _ => None
           | None => Some content_violation
           end
      else Some policy_violation
  end.

(** [.from('message').insert({session_id, role, content}).select().single()],
    then [if (error) throw error]: the new row goes after the others, with
    the store's time. *)
Definition insert_message (env : PageEnv) (op : page_op) (sessionId role : string)
    (content : option string) : P message.row :=
  fun p =>
    let d := store p in
    match message_refusal env d op sessionId content with
    | Some m => (Raised (StoreError m), p)
    | None =>
        let row :=
          message.mk sessionId role
            (match content with Some c => c | None => EmptyString end)
            (page_now env op) in
        (Done row,
         mkPage (mkStore (scenario_table d) (session_table d)
                   (message_table d ++ [row])%list
                   (feedback_table d) (feedback_id_seq d))
                (state p) (ui p) (function_log p))
    end.

(** The answer to the [fetch] of the chat function. *)
Inductive http_response :=
| FromPlatform
| FromFunction (r : Response).

Definition ok (r : http_response) : bool :=
  match r with
  | FromPlatform => false
  | FromFunction r => ((200 <=? status r) && (status r <? 300))%bool
  end.

(** [fetch(apiUrl, {method: 'POST', body: JSON.stringify(request)})]: when the
    function runs, it runs on the store as it is now. *)
Definition fetch_chat (env : PageEnv) (request : ChatRequest) : P http_response :=
  fun p =>
    match chat_gateway env with
    | Unreachable => (Raised FetchFailed, p)
    | Refused => (Done FromPlatform, p)
    | Forwarded =>
        match run (chat (function_env env) (mkRequest "POST" (Some request))) (store p) with
        | (Return r, w) =>
            (Done (FromFunction r),
             mkPage (db w) (state p) (ui p) (function_log p ++ trace w)%list)
        | (Throw _, w) =>
            (Done FromPlatform,
             mkPage (db w) (state p) (ui p) (function_log p ++ trace w)%list)
        end
    end.

(** [(await response.json()).message]: [None] is [null] or [undefined],
    which the [content] column refuses alike. *)
Definition result_message (r : http_response) : P (option string) :=
  match r with
  | FromFunction (mkResponse _ _ (MessageBody m)) => done m
  | FromFunction (mkResponse _ _ NoBody) => raise BodyUnreadable
  | FromFunction _ => done None
  | FromPlatform => raise BodyUnreadable
  end.

Definition light_bulb : string :=
  String "240"%char (String "159"%char (String "146"%char (String "161"%char EmptyString))).

Definition first_message_tip : string :=
  light_bulb ++ " Try to be clear and specific in your responses for better feedback!".

Definition sendMessage (env : PageEnv) (sessionId : string) (content : string)
    (isInitial : bool) : P unit :=
  fun p =>
    let now := state p in
    if ((negb (truthy_string (trim env content)) && negb isInitial) || loading now)%bool
    then (Done tt, p)
    else
      (setLoading true ;;
       setTypingIndicator true ;;
       finally
         (catch
            ((if negb isInitial
              then
                userMessage <-
                  insert_message env InsertUserMessage sessionId "user"
                    (Some (trim env content)) ;;
                setMessages (fun prev => prev ++ [userMessage])%list ;;
                setInput EmptyString ;;
                if (length (messages now) =? 0)%nat
                then showTip first_message_tip
                else done tt
              else done tt) ;;
             response <-
               fetch_chat env
                 (mkChatRequest sessionId
                    (if isInitial then EmptyString else trim env content)
                    (Some isInitial)) ;;
             (if negb (ok response) then raise (JsError "Failed to get AI response")
              else done tt) ;;
             message <- result_message response ;;
             assistantMessage <-
               insert_message env InsertAssistantMessage sessionId "assistant" message ;;
             setMessages (fun prev => prev ++ [assistantMessage])%list)
            (fun error =>
               console_error "Error sending message:" error ;;
               showToast "Failed to send message. Please try again." "error"))
         (setLoading false ;; setTypingIndicator false)) p.

Definition loadMessages (env : PageEnv) (sessionId : string) : P unit :=
  finally
    (catch
       (r <- select_messages env sessionId ;;
        match r with
        | DbError m => raise (StoreError m)
        | Data data =>
            if (length data =? 0)%nat
            then sendMessage env sessionId EmptyString true
            else setMessages (fun _ => data)
        end)
       (fun error => console_error "Error loading messages:" error))
    (setInitializing false).

End ChatInterface.

(** ** Vocabulary of the page's properties *)

(** The store with one more message row. *)
Definition with_message (d : Store) (row : message.row) : Store :=
  mkStore (scenario_table d) (session_table d) (message_table d ++ [row])%list
    (feedback_table d) (feedback_id_seq d).

(** The row [sendMessage] stores for the user's text, and the one it stores
    for the reply. *)
Definition user_row (env : ChatInterface.PageEnv) (sessionId content : string)
  : message.row :=
  message.mk sessionId "user" (ChatInterface.trim env content)
    (ChatInterface.page_now env ChatInterface.InsertUserMessage).

Definition assistant_row (env : ChatInterface.PageEnv) (sessionId reply : string)
  : message.row :=
  message.mk sessionId "assistant" reply
    (ChatInterface.page_now env ChatInterface.InsertAssistantMessage).

(** The request [sendMessage] posts to the chat function. *)
Definition posted (env : ChatInterface.PageEnv) (sessionId content : string)
    (isInitial : bool) : Request ChatRequest :=
  mkRequest "POST"
    (Some (mkChatRequest sessionId
             (if isInitial then EmptyString else ChatInterface.trim env content)
             (Some isInitial))).

(** [sendMessage] returns at once. *)
Definition send_guard (env : ChatInterface.PageEnv) (content : string)
    (isInitial : bool) (p : ChatInterface.Page) : bool :=
  ((negb (truthy_string (ChatInterface.trim env content)) && negb isInitial)
   || ChatInterface.loading (ChatInterface.state p))%bool.

(** The last thing shown is the toast of a failed send, after the logging
    of the error. *)
Definition send_failed (before after : list ChatInterface.ui_event) : Prop :=
  exists shown error,
    after = (before ++ shown ++
             [ChatInterface.ConsoleError "Error sending message:" error;
              ChatInterface.ShowToast "Failed to send message. Please try again." "error"])%list.

Module Visit.

Definition is_blank (c : ascii) : bool := Json.is_ws c.

Fixpoint drop_blanks (s : list ascii) : list ascii :=
  match s with
  | c :: rest => if is_blank c then drop_blanks rest else s
  | [] => []
  end.

(** Trimming of spaces, tabs and line ends, which is what [trim] does on a
    text with no other blank. *)
Definition trim_blanks (s : string) : string :=
  string_of_list_ascii
    (rev (drop_blanks (rev (drop_blanks (list_ascii_of_string s))))).

Definition env_of (user : option string) (g : ChatInterface.gateway)
    (reply : fetch_result) : ChatInterface.PageEnv :=
  ChatInterface.mkPageEnv user trim_blanks (fun _ => None)
    (fun op => match op with
               | ChatInterface.InsertUserMessage => 50
               | _ => 60
               end)
    g (Demo.env_with reply).

Definition arriving (d : Store) : ChatInterface.Page :=
  ChatInterface.mkPage d (ChatInterface.mkState [] EmptyString false false true) [] [].

Definition chatting (d : Store) : ChatInterface.Page :=
  ChatInterface.mkPage d
    (ChatInterface.mkState [Demo.greeting; Demo.answer] "  And then I moved to Lisbon. "
       false false false) [] [].

End Visit.

(** ** Symbolic execution of the page *)

Ltac reduce_page :=
  cbv beta iota zeta delta
    [ChatInterface.sendMessage ChatInterface.loadMessages ChatInterface.then_
     ChatInterface.catch ChatInterface.finally ChatInterface.done ChatInterface.raise
     ChatInterface.set_state ChatInterface.setMessages ChatInterface.setInput
     ChatInterface.setLoading ChatInterface.setTypingIndicator
     ChatInterface.setInitializing ChatInterface.show ChatInterface.showTip
     ChatInterface.showToast ChatInterface.console_error ChatInterface.select_messages
     ChatInterface.insert_message ChatInterface.fetch_chat ChatInterface.result_message
     ChatInterface.store ChatInterface.state ChatInterface.ui ChatInterface.function_log
     ChatInterface.messages ChatInterface.input ChatInterface.loading
     ChatInterface.typingIndicator ChatInterface.initializing
     with_message user_row assistant_row posted send_guard
     fst snd].

(** One case split of the run of the page; [shape] gives the form of a run
    of the chat function. *)
Ltac page_step shape :=
  match goal with
  | |- context [match run (chat ?e ?r) ?d with _ => _ end] =>
      let resp := fresh "resp" in
      let t := fresh "t" in
      let H := fresh "Hrun" in
      destruct (shape e r d) as (resp & t & H); rewrite H
  | _ => case_step
  end.

Ltac page_paths shape := reduce_page; repeat (page_step shape; reduce_page).

Ltac reduce_page_in H :=
  cbv beta iota zeta delta
    [ChatInterface.store ChatInterface.state ChatInterface.ui ChatInterface.function_log
     ChatInterface.messages ChatInterface.input ChatInterface.loading
     ChatInterface.typingIndicator ChatInterface.initializing
     with_message user_row assistant_row posted send_guard
     fst snd] in H.

(** * Properties *)

(** ** [JSON.parse] on small texts *)

Example parse_array :
  JSON_parse " [1, -2.50e3, true, null, {}, []] " =
  Some (JArr [int 1; JNum (mkNumber (-250) 1); JBool true; JNull; JObj []; JArr []]).
Proof. vm_compute. reflexivity. Qed.

Example parse_object_last_key_wins :
  option_map (fun v => field v "a")
    (JSON_parse ("{" ++ dq ++ "a" ++ dq ++ ":1," ++ dq ++ "a" ++ dq ++ ":2}")) =
  Some (Some (int 2)).
Proof. vm_compute. reflexivity. Qed.

Example parse_escapes :
  JSON_parse (dq ++ "a\n\u00e9\ud83d\ude00" ++ dq) =
  Some (JStr (String "a" (String "010" (String "195" (String "169"
          (String "240" (String "159" (String "152" (String "128" EmptyString))))))))).
Proof. vm_compute. reflexivity. Qed.

Example parse_rejects :
  map JSON_parse
    [EmptyString; "[1,]"; "01"; "1."; ".5"; "[1 2]"; "nul"; "{1:2}"; "1 2"; "-"; "+1";
     "NaN"; "undefined"; "{a:1}"; "[" ] =
  [None; None; None; None; None; None; None; None; None; None; None;
   None; None; None; None].
Proof. vm_compute. reflexivity. Qed.

(** ** Ordering of the message query *)

Lemma insert_by_created_at_perm m l :
  Permutation (m :: l) (insert_by_created_at m l).
Proof.
  induction l as [|x tl IH]; simpl.
  - apply Permutation_refl.
  - destruct (message.created_at m <? message.created_at x).
    + apply Permutation_refl.
    + eapply perm_trans; [apply perm_swap|].
      now apply perm_skip.
Qed.

Lemma order_by_created_at_perm l :
  Permutation l (order_by_created_at l).
Proof.
  induction l as [|m tl IH]; simpl.
  - constructor.
  - eapply perm_trans; [apply perm_skip, IH|].
    apply insert_by_created_at_perm.
Qed.

Lemma insert_by_created_at_hd m x l :
  older_or_same x m -> HdRel older_or_same x l ->
  HdRel older_or_same x (insert_by_created_at m l).
Proof.
  intros Hxm Hl. destruct l as [|y tl]; simpl.
  - now constructor.
  - destruct (message.created_at m <? message.created_at y).
    + now constructor.
    + inversion Hl; subst. now constructor.
Qed.

Lemma insert_by_created_at_sorted m l :
  Sorted older_or_same l -> Sorted older_or_same (insert_by_created_at m l).
Proof.
  induction 1 as [|x tl Hs IH Hhd]; simpl.
  - repeat constructor.
  - destruct (message.created_at m <? message.created_at x) eqn:E.
    + apply Z.ltb_lt in E. constructor.
      * now constructor.
      * constructor. unfold older_or_same. lia.
    + apply Z.ltb_ge in E. constructor; [exact IH|].
      now apply insert_by_created_at_hd.
Qed.

Lemma order_by_created_at_sorted l :
  Sorted older_or_same (order_by_created_at l).
Proof.
  induction l as [|m tl IH]; simpl.
  - constructor.
  - now apply insert_by_created_at_sorted.
Qed.

Lemma messages_of_sorted d sid : Sorted older_or_same (messages_of d sid).
Proof. apply order_by_created_at_sorted. Qed.

Lemma messages_of_perm d sid :
  Permutation
    (filter (fun m => String.eqb (message.session_id m) sid) (message_table d))
    (messages_of d sid).
Proof. apply order_by_created_at_perm. Qed.

Lemma messages_of_in d sid m :
  In m (messages_of d sid) <->
  In m (message_table d) /\ message.session_id m = sid.
Proof.
  rewrite <- (Permutation_in' eq_refl (messages_of_perm d sid)).
  rewrite filter_In, String.eqb_eq. reflexivity.
Qed.

(** ** Response headers *)

(** C10. Both handlers always answer, and every response they produce (the
    preflight one, the success ones and the error ones) carries the same three
    cross-origin headers: any origin, the fixed method list, the fixed header
    list.  The preflight response is status 200 with exactly these headers
    and no body. *)
Theorem every_response_has_cors_headers (env : Env) (d : Store) :
  (forall req, exists resp w,
      run (chat env req) d = (Return resp, w) /\ cors_of resp = permissive_cors) /\
  (forall req, exists resp w,
      run (feedback env req) d = (Return resp, w) /\ cors_of resp = permissive_cors) /\
  cors_of preflight = permissive_cors /\
  (forall req, method req = "OPTIONS" ->
      run (chat env req) d = (Return preflight, mkWorld d [])) /\
  (forall req, method req = "OPTIONS" ->
      run (feedback env req) d = (Return preflight, mkWorld d [])).
Proof.
  repeat split.
  - intros req. all_paths; eexists; eexists; split; reflexivity.
  - intros req. all_paths; eexists; eexists; split; reflexivity.
  - intros req H. unfold run, chat. now rewrite H.
  - intros req H. unfold run, feedback. now rewrite H.
Qed.

Lemma every_response_has_cors_headers_witness :
  run (chat (Demo.env_with Rejected) (mkRequest "OPTIONS" None)) Demo.store0
  = (Return preflight, mkWorld Demo.store0 []).
Proof.
  apply (every_response_has_cors_headers (Demo.env_with Rejected) Demo.store0).
  reflexivity.
Defined.

(** ** The chat handler leaves the store alone *)

(** C3. Whatever the environment, the request and the store, the chat handler
    answers with a response and ends with the store it started from (so the
    message table is unchanged): its effects are the two queries, the call of
    the model endpoint and the logging of an error, never an insert or an
    update.  A response carrying a reply carries the text of the first choice
    the model endpoint returned for the request sent. *)
Theorem chat_writes_nothing (env : Env) (req : Request ChatRequest) (d : Store) :
  exists resp w,
    run (chat env req) d = (Return resp, w) /\
    db w = d /\
    message_table (db w) = message_table d /\
    Forall (fun e => is_read_or_call e = true /\ is_write e = false) (trace w) /\
    (forall reply, body resp = MessageBody reply ->
       status resp = 200 /\
       exists r rest, In (EvFetch r) (trace w) /\ fetch env r = Completion (reply :: rest)).
Proof.
  all_paths; eexists; eexists; (split; [reflexivity|]); cbn [db trace app body status];
    (split; [reflexivity|]); (split; [reflexivity|]);
    (split; [repeat constructor|]); intros reply Hb; try discriminate.
  all: cbn [body] in Hb; injection Hb as <-; split; [reflexivity|].
  all: eexists; eexists; split; [|eassumption]; simpl; eauto 6.
Qed.

Lemma chat_writes_nothing_witness :
  exists resp w,
    run (chat (Demo.env_with (Completion [Some "Hello, I am your interviewer."]))
              (Demo.post (mkChatRequest "s-1" EmptyString (Some true)))) Demo.store0
    = (Return resp, w) /\
    db w = Demo.store0 /\
    body resp = MessageBody (Some "Hello, I am your interviewer.") /\
    status resp = 200.
Proof.
  destruct (chat_writes_nothing
              (Demo.env_with (Completion [Some "Hello, I am your interviewer."]))
              (Demo.post (mkChatRequest "s-1" EmptyString (Some true))) Demo.store0)
    as (resp & w & Hrun & Hdb & _ & _ & Hreply).
  exists resp, w. split; [exact Hrun|]. split; [exact Hdb|].
  vm_compute in Hrun. injection Hrun as <- <-. split; reflexivity.
Defined.

(** ** Parameters of the two model invocations *)

(** C5, refuted: the feedback request asks for up to 500 tokens, the chat
    request for up to 200. *)
Lemma feedback_cap_is_not_lower : ~ feedback_cap_lower_than_chat_cap.
Proof.
  intros H. specialize (H "sk-test" "prompt" []). simpl in H.
  unfold feedback_max_tokens, chat_max_tokens in H. lia.
Qed.

(** C5, amended. Every request the feedback handler sends to the model
    endpoint has a maximum of 500 output tokens and temperature 0.7; every
    request the chat handler sends has a maximum of 200 output tokens and
    temperature 0.8, whatever the input; so the feedback maximum is the higher
    of the two, and both temperatures are fixed. *)
Theorem feedback_cap_higher_both_temperatures_fixed
    (env : Env) (d : Store) (r : completion_request) :
  (forall req, In (EvFetch r) (trace (snd (run (feedback env req) d))) ->
     max_tokens r = 500 /\ temperature r = mkNumber 7 (-1)) /\
  (forall req, In (EvFetch r) (trace (snd (run (chat env req) d))) ->
     max_tokens r = 200 /\ temperature r = mkNumber 8 (-1)) /\
  chat_max_tokens < feedback_max_tokens.
Proof.
  repeat split.
  all: revert H; all_paths; intros H; in_trace H.
  all: injection H as <-; reflexivity.
Qed.

Lemma feedback_cap_higher_both_temperatures_fixed_witness :
  max_tokens
    (feedback_completion "sk-test"
       (feedbackPrompt Demo.interview (messages_of Demo.store2 "s-1"))) = 500 /\
  max_tokens
    (chat_completion "sk-test"
       (openaiMessages Demo.interview (messages_of Demo.store2 "s-1")
          (mkChatRequest "s-1" "And then I moved to Lisbon." None))) = 200.
Proof.
  split.
  - apply (proj1 (feedback_cap_higher_both_temperatures_fixed
                    (Demo.env_with (Completion [Some Demo.well_formed_payload]))
                    Demo.store2 _)
             (Demo.post (mkFeedbackRequest "s-1"))).
    vm_compute. right. right. left. reflexivity.
  - apply (proj1 (proj2 (feedback_cap_higher_both_temperatures_fixed
                    (Demo.env_with (Completion [Some "I see."]))
                    Demo.store2 _))
             (Demo.post (mkChatRequest "s-1" "And then I moved to Lisbon." None))).
    vm_compute. right. right. left. reflexivity.
Defined.

(** ** Rejections before the model is called *)

Lemma configured_inv env :
  configured env = true ->
  exists k, OPENAI_API_KEY env = Some k /\ truthy_string k = true /\
            createClient_error env = None.
Proof.
  unfold configured. destruct (OPENAI_API_KEY env) as [k|]; [|discriminate].
  destruct (createClient_error env); [discriminate|]. eauto.
Qed.

Lemma session_unknown_no_row d sid :
  session_unknown d sid -> sessions_with_id d sid = [].
Proof.
  unfold session_unknown, sessions_with_id. intros H.
  induction (session_table d) as [|s tl IH]; simpl; [reflexivity|].
  destruct (String.eqb (session.id s) sid) eqn:E.
  - apply String.eqb_eq in E. exfalso. apply (H s); simpl; auto.
  - apply IH. intros s' Hin. apply H. now right.
Qed.

(** C9. With the secrets set, a request for a session identifier that no
    session row carries is answered, by the chat handler and by the feedback
    handler alike, with status 500 and the error [Session not found]; the only
    effects are the session query and the logging of that error, so the model
    endpoint is not called and no upstream error can be reported. *)
Theorem unknown_session_is_reported
    (env : Env) (d : Store) (sid : string)
    (creq : Request ChatRequest) (c : ChatRequest)
    (freq : Request FeedbackRequest) (f : FeedbackRequest) :
  configured env = true ->
  session_unknown d sid ->
  is_post creq c -> session_id c = sid ->
  is_post freq f -> feedback_session_id f = sid ->
  run (chat env creq) d =
    (Return (mkResponse 500 json_headers (ErrorBody "Session not found")),
     mkWorld d [EvSelectSession sid;
                EvConsoleError "Chat error:" (Error "Session not found")]) /\
  run (feedback env freq) d =
    (Return (mkResponse 500 json_headers (ErrorBody "Session not found")),
     mkWorld d [EvSelectSession sid;
                EvConsoleError "Feedback error:" (Error "Session not found")]).
Proof.
  intros Hc Hu [Hcm Hcb] Hcs [Hfm Hfb] Hfs.
  apply configured_inv in Hc as (k & Hk & Ht & Hcc).
  apply session_unknown_no_row in Hu.
  split.
  - clear Hfs. subst sid. known_path.
    destruct (db_fault env SelectSession); reflexivity.
  - clear Hcs. subst sid. known_path.
    destruct (db_fault env SelectSession); reflexivity.
Qed.

Lemma unknown_session_is_reported_witness :
  run (chat (Demo.env_with (Completion [Some "Hello"]))
            (Demo.post (mkChatRequest "s-404" "Hi" None))) Demo.store2 =
    (Return (mkResponse 500 json_headers (ErrorBody "Session not found")),
     mkWorld Demo.store2
       [EvSelectSession "s-404";
        EvConsoleError "Chat error:" (Error "Session not found")]) /\
  run (feedback (Demo.env_with (Completion [Some Demo.well_formed_payload]))
                (Demo.post (mkFeedbackRequest "s-404"))) Demo.store2 =
    (Return (mkResponse 500 json_headers (ErrorBody "Session not found")),
     mkWorld Demo.store2
       [EvSelectSession "s-404";
        EvConsoleError "Feedback error:" (Error "Session not found")]).
Proof.
  split.
  - apply (proj1 (unknown_session_is_reported
             (Demo.env_with (Completion [Some "Hello"])) Demo.store2 "s-404"
             (Demo.post (mkChatRequest "s-404" "Hi" None)) (mkChatRequest "s-404" "Hi" None)
             (Demo.post (mkFeedbackRequest "s-404")) (mkFeedbackRequest "s-404")
             eq_refl
             ltac:(intros s [<-|[]]; vm_compute; discriminate)
             (conj eq_refl eq_refl) eq_refl (conj eq_refl eq_refl) eq_refl)).
  - apply (proj2 (unknown_session_is_reported
             (Demo.env_with (Completion [Some Demo.well_formed_payload])) Demo.store2 "s-404"
             (Demo.post (mkChatRequest "s-404" "Hi" None)) (mkChatRequest "s-404" "Hi" None)
             (Demo.post (mkFeedbackRequest "s-404")) (mkFeedbackRequest "s-404")
             eq_refl
             ltac:(intros s [<-|[]]; vm_compute; discriminate)
             (conj eq_refl eq_refl) eq_refl (conj eq_refl eq_refl) eq_refl)).
Defined.

Lemma messages_of_length d sid :
  length (messages_of d sid) = length (message_rows d sid).
Proof. symmetry. apply Permutation_length, messages_of_perm. Qed.

(** C2. With the secrets set, a feedback request for a session that resolves
    to its row and has fewer than two messages is answered with status 500 and
    the error [Not enough conversation for feedback]; the effects are the two
    queries and the logging of the error: the model endpoint is not called and
    the store is unchanged. *)
Theorem short_conversation_is_rejected
    (env : Env) (d : Store) (req : Request FeedbackRequest) (f : FeedbackRequest)
    (s : session.row) :
  configured env = true ->
  is_post req f ->
  db_fault env SelectSession = None ->
  sessions_with_id d (feedback_session_id f) = [s] ->
  (length (message_rows d (feedback_session_id f)) < 2)%nat ->
  run (feedback env req) d =
    (Return (mkResponse 500 json_headers
               (ErrorBody "Not enough conversation for feedback")),
     mkWorld d [EvSelectSession (feedback_session_id f);
                EvSelectMessages (feedback_session_id f);
                EvConsoleError "Feedback error:"
                  (Error "Not enough conversation for feedback")]).
Proof.
  intros Hc [Hm Hb] Hf Hs Hlen.
  apply configured_inv in Hc as (k & Hk & Ht & Hcc).
  rewrite <- messages_of_length in Hlen.
  assert (Hlt : (Z.of_nat (length (messages_of d (feedback_session_id f))) <? 2) = true)
    by (apply Z.ltb_lt; lia).
  known_path. destruct (db_fault env SelectMessages); [reflexivity|].
  known_path. reflexivity.
Qed.

Lemma short_conversation_is_rejected_witness :
  run (feedback (Demo.env_with (Completion [Some Demo.well_formed_payload]))
                (Demo.post (mkFeedbackRequest "s-1"))) Demo.store1 =
    (Return (mkResponse 500 json_headers
               (ErrorBody "Not enough conversation for feedback")),
     mkWorld Demo.store1
       [EvSelectSession "s-1"; EvSelectMessages "s-1";
        EvConsoleError "Feedback error:"
          (Error "Not enough conversation for feedback")]).
Proof.
  apply (short_conversation_is_rejected
           (Demo.env_with (Completion [Some Demo.well_formed_payload])) Demo.store1
           (Demo.post (mkFeedbackRequest "s-1")) (mkFeedbackRequest "s-1") Demo.s1
           eq_refl (conj eq_refl eq_refl) eq_refl eq_refl).
  vm_compute. lia.
Defined.

(** Whatever the environment, a feedback request for a session with fewer
    than two messages never reaches the model endpoint. *)
Lemma short_conversation_never_calls_model
    (env : Env) (d : Store) (req : Request FeedbackRequest) (f : FeedbackRequest)
    (r : completion_request) :
  json_body req = Some f ->
  (length (message_rows d (feedback_session_id f)) < 2)%nat ->
  ~ In (EvFetch r) (trace (snd (run (feedback env req) d))).
Proof.
  intros Hb Hlen. rewrite <- messages_of_length in Hlen.
  all_paths; intros H; in_trace H.
  all: injection Hb as ->.
  all: match goal with
       | E : (_ <? 2) = false |- _ => apply Z.ltb_ge in E; lia
       end.
Qed.

(** ** What the chat handler sends to the model *)

Lemma append_assoc (a b c : string) : ((a ++ b) ++ c = a ++ (b ++ c))%string.
Proof. induction a as [|x a IH]; simpl; [reflexivity|]. now rewrite IH. Qed.

Lemma systemPrompt_embeds_persona sc initial :
  embeds (systemPrompt sc initial) (scenario.ai_persona sc).
Proof.
  exists ("You are a professional communication coach simulating a real-world "
          ++ scenario.title sc ++ " scenario." ++ nl ++ "Your role: ").
  eexists. unfold systemPrompt.
  repeat rewrite append_assoc. reflexivity.
Qed.

Lemma systemPrompt_embeds_objective sc initial :
  embeds (systemPrompt sc initial) (scenario.objective sc).
Proof.
  exists ("You are a professional communication coach simulating a real-world "
          ++ scenario.title sc ++ " scenario." ++ nl
          ++ "Your role: " ++ scenario.ai_persona sc ++ nl ++ nl ++ "Objective: ").
  eexists. unfold systemPrompt.
  repeat rewrite append_assoc. reflexivity.
Qed.

Lemma systemPrompt_last_sentence sc initial :
  ends_with (systemPrompt sc initial)
    (if initial then introduce_yourself else respond_in_character).
Proof.
  eexists. unfold systemPrompt.
  repeat rewrite <- append_assoc.
  destruct initial; reflexivity.
Qed.

Lemma history_message_keeps_checked_role m :
  role_checked m ->
  history_message m = mkMessage (message.role m) (message.content m).
Proof.
  unfold history_message. intros [H|H]; rewrite H; reflexivity.
Qed.

Lemma history_read_sorted env d sid : Sorted older_or_same (history_read env d sid).
Proof.
  unfold history_read. destruct (db_fault env SelectMessages).
  - constructor.
  - apply messages_of_sorted.
Qed.

(** C7, refuted: a later turn with an empty [user_message] sends the system
    instruction and the two stored messages, and nothing after them. *)
Lemma empty_user_message_is_not_appended :
  ~ user_message_closes_every_later_turn
      (Demo.env_with (Completion [Some "Go on."])) Demo.store2
      (mkChatRequest "s-1" EmptyString None).
Proof.
  intros H.
  destruct (H (Demo.post (mkChatRequest "s-1" EmptyString None))
              (chat_completion "sk-test"
                 (openaiMessages Demo.interview [Demo.greeting; Demo.answer]
                    (mkChatRequest "s-1" EmptyString None)))
              eq_refl) as [sc Hsc].
  - vm_compute. right. right. left. reflexivity.
  - apply (f_equal (@length chat_message)) in Hsc.
    vm_compute in Hsc. discriminate.
Qed.

(** C7, amended. Every request the chat handler sends to the model carries:
    first one system instruction built from the session's scenario, which
    embeds its persona and its objective and ends, on the opening turn only,
    with the sentence that tells the model to introduce itself; then the
    session's prior messages as read from the store, oldest first (none when
    the message query fails), each with its content and its role (any role
    other than [assistant] is sent as [user], which changes nothing for rows
    that pass the role check); and last, when this is not the opening turn and
    the user message is not empty, the new user message. *)
Theorem chat_prompt_assembly
    (env : Env) (d : Store) (req : Request ChatRequest) (c : ChatRequest)
    (r : completion_request) :
  json_body req = Some c ->
  In (EvFetch r) (trace (snd (run (chat env req) d))) ->
  let initial := truthy_flag (is_initial c) in
  let history := history_read env d (session_id c) in
  exists s sc,
    sessions_with_id d (session_id c) = [s] /\
    scenario_of d s = Some sc /\
    messages r =
      (mkMessage "system" (systemPrompt sc initial)
       :: map history_message history
       ++ (if (negb initial && truthy_string (user_message c))%bool
           then [mkMessage "user" (user_message c)]
           else []))%list /\
    embeds (systemPrompt sc initial) (scenario.ai_persona sc) /\
    embeds (systemPrompt sc initial) (scenario.objective sc) /\
    ends_with (systemPrompt sc initial)
      (if initial then introduce_yourself else respond_in_character) /\
    Sorted older_or_same history /\
    (db_fault env SelectMessages = None ->
       Permutation (message_rows d (session_id c)) history) /\
    (Forall role_checked history ->
       map history_message history =
       map (fun m => mkMessage (message.role m) (message.content m)) history).
Proof.
  intros Hb Hin initial history.
  assert (Hshape : exists s sc,
    sessions_with_id d (session_id c) = [s] /\ scenario_of d s = Some sc /\
    messages r =
      (mkMessage "system" (systemPrompt sc initial)
       :: map history_message history
       ++ (if (negb initial && truthy_string (user_message c))%bool
           then [mkMessage "user" (user_message c)]
           else []))%list).
  { subst initial history. unfold history_read. revert Hin.
    all_paths; intros Hin; in_trace Hin.
    all: injection Hb as ->; injection Hin as <-.
    all: eexists; eexists; (split; [eassumption|]); (split; [eassumption|]).
    all: cbn [messages chat_completion]; unfold openaiMessages.
    all: match goal with E : (negb _ && _)%bool = _ |- _ => rewrite E end.
    all: cbn [map app]; try rewrite app_nil_r; reflexivity. }
  destruct Hshape as (s & sc & Hs & Hsc & Hm).
  exists s, sc. repeat split; try assumption.
  - apply systemPrompt_embeds_persona.
  - apply systemPrompt_embeds_objective.
  - apply systemPrompt_last_sentence.
  - apply history_read_sorted.
  - intros Hf. subst history. unfold history_read. rewrite Hf.
    apply messages_of_perm.
  - intros Hall. apply map_ext_in. intros m Hm'.
    apply history_message_keeps_checked_role.
    rewrite Forall_forall in Hall. now apply Hall.
Qed.

Lemma chat_prompt_assembly_witness :
  exists s sc,
    sessions_with_id Demo.store2 "s-1" = [s] /\
    scenario_of Demo.store2 s = Some sc /\
    messages
      (chat_completion "sk-test"
         (openaiMessages Demo.interview [Demo.greeting; Demo.answer]
            (mkChatRequest "s-1" "And then I moved to Lisbon." None)))
    = [ mkMessage "system" (systemPrompt sc false);
        mkMessage "assistant" "Welcome. Tell me about yourself.";
        mkMessage "user" "I am a software engineer.";
        mkMessage "user" "And then I moved to Lisbon." ].
Proof.
  destruct (chat_prompt_assembly
              (Demo.env_with (Completion [Some "I see."])) Demo.store2
              (Demo.post (mkChatRequest "s-1" "And then I moved to Lisbon." None))
              (mkChatRequest "s-1" "And then I moved to Lisbon." None)
              (chat_completion "sk-test"
                 (openaiMessages Demo.interview [Demo.greeting; Demo.answer]
                    (mkChatRequest "s-1" "And then I moved to Lisbon." None)))
              eq_refl)
    as (s & sc & Hs & Hsc & Hm & _).
  - vm_compute. right. right. left. reflexivity.
  - exists s, sc. split; [exact Hs|]. split; [exact Hsc|]. exact Hm.
Defined.

(** ** The feedback handler on the model's output *)




Example parse_well_formed_payload :
  JSON_parse Demo.well_formed_payload =
  Some (JObj [("summary", JStr "ok");
              ("clarity", int 4); ("empathy", int 3); ("assertiveness", int 5);
              ("recommendations",
               JStr (Demo.bullet ++ " a" ++ nl ++ Demo.bullet ++ " b" ++ nl
                     ++ Demo.bullet ++ " c"))]).
Proof. vm_compute. reflexivity. Qed.

Example parse_commented_payload : JSON_parse Demo.commented_payload = None.
Proof. vm_compute. reflexivity. Qed.

(** C6. Take any session that resolves to its row and its scenario and has
    at least two messages, with the secrets set and a store that answers the
    queries and accepts the insert.  If the model endpoint answers the
    evaluation request with exactly the text
    [{"summary":"ok","clarity":4,"empathy":3,"assertiveness":5,"recommendations":"• a\n• b\n• c"}],
    the handler answers 200 with the row it stored, the feedback table has
    gained exactly that row, and its scores are
    [{clarity: 4, empathy: 3, assertiveness: 5}]. *)
Theorem well_formed_payload_round_trip
    (env : Env) (d : Store) (req : Request FeedbackRequest) (f : FeedbackRequest)
    (k : string) (s : session.row) (sc : scenario.row) (rest : list (option string)) :
  configured env = true ->
  OPENAI_API_KEY env = Some k ->
  is_post req f ->
  db_fault env SelectSession = None ->
  db_fault env SelectMessages = None ->
  db_fault env InsertFeedback = None ->
  sessions_with_id d (feedback_session_id f) = [s] ->
  scenario_of d s = Some sc ->
  (2 <= length (message_rows d (feedback_session_id f)))%nat ->
  fetch env
    (feedback_completion k (feedbackPrompt sc (messages_of d (feedback_session_id f))))
  = Completion (Some Demo.well_formed_payload :: rest) ->
  exists row w,
    run (feedback env req) d = (Return (mkResponse 200 json_headers (FeedbackBody row)), w) /\
    feedback_table (db w) = (feedback_table d ++ [row])%list /\
    feedback.session_id row = feedback_session_id f /\
    feedback.summary row = JStr "ok" /\
    feedback.scores row =
      JObj [("clarity", int 4); ("empathy", int 3); ("assertiveness", int 5)].
Proof.
  intros Hc Hk [Hm Hb] Hf1 Hf2 Hf3 Hs Hsc Hlen Hfetch.
  apply configured_inv in Hc as (k' & Hk' & Ht & Hcc).
  rewrite Hk in Hk'. injection Hk' as <-.
  rewrite <- messages_of_length in Hlen.
  assert (Hge : (Z.of_nat (length (messages_of d (feedback_session_id f))) <? 2) = false)
    by (apply Z.ltb_ge; lia).
  pose proof parse_well_formed_payload as Hparse.
  known_path.
  match goal with
  | |- context [insert_refusal env ?p] =>
      replace (insert_refusal env p) with (@None string)
        by (unfold insert_refusal, early_refusal; rewrite Hf3; reflexivity)
  end.
  reduce_handler.
  destruct (db_fault env UpdateSession); reduce_handler;
    eexists; eexists; (split; [reflexivity|]); repeat split.
Qed.

Lemma well_formed_payload_round_trip_witness :
  exists row w,
    run (feedback (Demo.env_with (Completion [Some Demo.well_formed_payload]))
                  (Demo.post (mkFeedbackRequest "s-1"))) Demo.store2
    = (Return (mkResponse 200 json_headers (FeedbackBody row)), w) /\
    feedback_table (db w) = [row] /\
    feedback.scores row =
      JObj [("clarity", int 4); ("empathy", int 3); ("assertiveness", int 5)].
Proof.
  destruct (well_formed_payload_round_trip
              (Demo.env_with (Completion [Some Demo.well_formed_payload])) Demo.store2
              (Demo.post (mkFeedbackRequest "s-1")) (mkFeedbackRequest "s-1")
              "sk-test" Demo.s1 Demo.interview []
              eq_refl eq_refl (conj eq_refl eq_refl) eq_refl eq_refl eq_refl
              eq_refl eq_refl)
    as (row & w & Hrun & Htable & _ & _ & Hscores).
  - vm_compute. lia.
  - reflexivity.
  - exists row, w. split; [exact Hrun|]. split; [exact Htable|]. exact Hscores.
Defined.

(** C8. Whenever the model endpoint answers the evaluation request with a
    text that [JSON.parse] rejects (a JSON object wrapped in commentary, for
    one), the handler still answers: the [SyntaxError] is caught, logged with
    [console.error], and reported as status 500 with the JSON body
    [{error: message}], the message being the engine's or, were that empty,
    [Internal server error]; nothing is written to the store. *)
Theorem unparseable_output_is_reported
    (env : Env) (d : Store) (req : Request FeedbackRequest)
    (r : completion_request) (text : string) (rest : list (option string)) :
  In (EvFetch r) (trace (snd (run (feedback env req) d))) ->
  fetch env r = Completion (Some text :: rest) ->
  JSON_parse text = None ->
  exists w,
    run (feedback env req) d =
      (Return (mkResponse 500 json_headers
                 (ErrorBody
                    (if truthy_string (runtime_message env (NotJson text))
                     then runtime_message env (NotJson text)
                     else "Internal server error"))), w) /\
    db w = d /\
    In (EvConsoleError "Feedback error:" (RuntimeError (NotJson text))) (trace w) /\
    Forall (fun e => is_write e = false) (trace w).
Proof.
  intros Hin Hfetch Hparse. revert Hin.
  all_paths; intros Hin; in_trace Hin.
  all: injection Hin as <-.
  all: match goal with
       | E : fetch _ _ = _ |- _ => rewrite Hfetch in E; try discriminate E
       end.
  all: match goal with
       | E : Completion _ = Completion _ |- _ => injection E as <- <-
       end.
  all: match goal with
       | E : JSON_parse _ = _ |- _ => rewrite Hparse in E; try discriminate E
       end.
  all: unfold error_response, message_of.
  all: match goal with
       | E : truthy_string (runtime_message _ _) = _ |- _ => rewrite E
       end.
  all: eexists; (split; [reflexivity|]); cbn [db trace app].
  all: split; [reflexivity|]; split; [simpl; auto 8|]; repeat constructor.
Qed.

Lemma unparseable_output_is_reported_witness :
  exists w,
    run (feedback (Demo.env_with (Completion [Some Demo.commented_payload]))
                  (Demo.post (mkFeedbackRequest "s-1"))) Demo.store2
    = (Return (mkResponse 500 json_headers (ErrorBody "Unexpected token in JSON")), w) /\
    db w = Demo.store2.
Proof.
  destruct (unparseable_output_is_reported
              (Demo.env_with (Completion [Some Demo.commented_payload])) Demo.store2
              (Demo.post (mkFeedbackRequest "s-1"))
              (feedback_completion "sk-test"
                 (feedbackPrompt Demo.interview [Demo.greeting; Demo.answer]))
              Demo.commented_payload [])
    as (w & Hrun & Hdb & _).
  - vm_compute. right. right. left. reflexivity.
  - reflexivity.
  - vm_compute. reflexivity.
  - exists w. split; [exact Hrun|exact Hdb].
Defined.

(** ** The two writes of the feedback handler *)

Lemma updates_follow_insert_split t :
  forall inserted pre post sid st at_,
    updates_follow_insert inserted t = true ->
    t = (pre ++ EvUpdateSession sid st at_ :: post)%list ->
    inserted = true \/ exists p, In (EvInsertFeedback p) pre.
Proof.
  induction t as [|e tl IH]; intros inserted pre post sid st at_ Hok Heq.
  - destruct pre; discriminate.
  - destruct pre as [|e' pre'].
    + simpl in Heq. injection Heq as -> ->. simpl in Hok.
      apply andb_true_iff in Hok as [Hi _]. now left.
    + simpl in Heq. injection Heq as <- ->.
      destruct e; simpl in Hok;
        try (destruct (IH _ _ _ _ _ _ Hok eq_refl) as [Hi|[p Hp]];
             [now left | right; exists p; now right]).
      * destruct (IH _ _ _ _ _ _ Hok eq_refl) as [_|[p Hp]].
        -- right. eexists. left. reflexivity.
        -- right. exists p. now right.
      * apply andb_true_iff in Hok as [Hi _]. now left.
Qed.

Lemma feedback_updates_follow_insert env d req :
  updates_follow_insert false (trace (snd (run (feedback env req) d))) = true.
Proof. all_paths; reflexivity. Qed.

(** C4. In every run of the feedback handler an update of the session comes
    only after an insert of feedback, and only after one the store accepted.
    When the store accepts the insert, the update is the very next effect
    and the last one: the handler answers 200 with the stored row, and the
    session's rows are completed unless the store refuses the update.  When
    the store refuses the insert, the handler throws the store's error, which
    the response reports with status 500; the session is not updated: no
    update is issued, and the store is as it was but for the value of the
    sequence of identifiers the refused row may have used, so the session
    rows, status and end time included, are unchanged. *)
Theorem insert_precedes_update_and_its_failure_stops
    (env : Env) (d : Store) (req : Request FeedbackRequest) :
  (forall pre post sid st at_,
     trace (snd (run (feedback env req) d))
     = (pre ++ EvUpdateSession sid st at_ :: post)%list ->
     exists p, In (EvInsertFeedback p) pre) /\
  (forall p sid st at_,
     In (EvInsertFeedback p) (trace (snd (run (feedback env req) d))) ->
     In (EvUpdateSession sid st at_) (trace (snd (run (feedback env req) d))) ->
     insert_refusal env p = None) /\
  (forall p,
     In (EvInsertFeedback p) (trace (snd (run (feedback env req) d))) ->
     insert_refusal env p = None ->
     exists f pre w,
       json_body req = Some f /\
       run (feedback env req) d
       = (Return (mkResponse 200 json_headers (FeedbackBody (inserted_row env d p))), w) /\
       trace w
       = (pre ++ [EvInsertFeedback p;
                  EvUpdateSession (feedback_session_id f) "completed" (js_now env)])%list /\
       Forall (fun e => is_write e = false) pre /\
       feedback_table (db w) = (feedback_table d ++ [inserted_row env d p])%list /\
       (db_fault env UpdateSession = None ->
        session_table (db w)
        = map (set_status (feedback_session_id f) "completed" (js_now env))
              (session_table d))) /\
  (forall p m,
     In (EvInsertFeedback p) (trace (snd (run (feedback env req) d))) ->
     insert_refusal env p = Some m ->
     exists w,
       run (feedback env req) d = (Return (error_response env (PostgrestError m)), w) /\
       status (error_response env (PostgrestError m)) = 500 /\
       In (EvConsoleError "Feedback error:" (PostgrestError m)) (trace w) /\
       Forall (fun e => is_update e = false) (trace w) /\
       db w = (if id_drawn env p then skip_id d else d) /\
       session_table (db w) = session_table d /\
       feedback_table (db w) = feedback_table d).
Proof.
  split; [|split; [|split]].
  - intros pre post sid st at_ Heq.
    destruct (updates_follow_insert_split _ false pre post sid st at_
                (feedback_updates_follow_insert env d req) Heq) as [Hf|Hp].
    + discriminate.
    + exact Hp.
  - intros p sid st at_.
    all_paths; intros Hin Hup; in_trace Hin; in_trace Hup.
    all: injection Hin as <-; assumption.
  - intros p.
    all_paths; intros Hin Href; in_trace Hin.
    all: injection Hin as <-.
    all: rewrite Href in *; try discriminate.
    all: eexists; eexists; eexists; (split; [reflexivity|]); (split; [reflexivity|]).
    all: cbv beta iota; cbn [app db trace feedback_table session_table].
    all: split;
      [ match goal with
        | |- [?a; ?b; ?c; ?i; ?u] = _ => change [a; b; c; i; u] with ([a; b; c] ++ [i; u])%list
        end; reflexivity |].
    all: split; [repeat constructor|]; split; [reflexivity|].
    all: intros Hup; first [reflexivity | congruence].
  - intros p m.
    all_paths; intros Hin Href; in_trace Hin.
    all: injection Hin as <-.
    all: rewrite Href in *; try discriminate.
    all: match goal with E : Some _ = Some _ |- _ => injection E as <- end.
    all: try congruence.
    all: eexists; (split; [reflexivity|]); cbv beta iota; cbn [app].
    all: split; [reflexivity|]; split; [simpl; auto 8|].
    all: split; [repeat constructor|].
    all: repeat match goal with
         | E : id_drawn _ _ = _ |- context [id_drawn _ _] => rewrite E
         end.
    all: repeat split; reflexivity.
Qed.

Lemma insert_precedes_update_and_its_failure_stops_witness :
  exists w,
    run (feedback (Demo.env_with (Completion [Some Replies.no_summary]))
           (Demo.post (mkFeedbackRequest "s-1"))) Demo.store2
    = (Return (mkResponse 500 json_headers (ErrorBody (not_null_violation "summary"))), w) /\
    session_table (db w) = [Demo.s1] /\
    feedback_table (db w) = [] /\
    feedback_id_seq (db w) = 2.
Proof.
  destruct (insert_precedes_update_and_its_failure_stops
              (Demo.env_with (Completion [Some Replies.no_summary]))
              Demo.store2 (Demo.post (mkFeedbackRequest "s-1")))
    as (_ & _ & _ & Hfail).
  destruct (Hfail
              (mkInsert "s-1" None
                 [("clarity", Some (int 4)); ("empathy", Some (int 3));
                  ("assertiveness", Some (int 5))]
                 (Some (JStr "practise")))
              (not_null_violation "summary"))
    as (w & Hrun & _ & _ & _ & Hdb & Hsess & Htable).
  - vm_compute. right. right. right. left. reflexivity.
  - reflexivity.
  - exists w. split; [exact Hrun|]. split; [exact Hsess|]. split; [exact Htable|].
    rewrite Hdb. reflexivity.
Defined.

(** ** A successful feedback run *)







(** The result of the update is not inspected, unlike that of the insert:
    when the store refuses the update the run still answers 200 with the
    stored row, and the session keeps the status it had. *)
Lemma refused_update_goes_unnoticed :
  let env :=
    mkEnv (Some "sk-test") None
      (fun op => match op with
                 | UpdateSession => Some "connection reset"
                 | _ => None
                 end)
      (fun _ => Completion [Some Demo.well_formed_payload])
      Demo.v8_message 5000 5001
      Demo.json_text (fun _ => Some Demo.unsupported_escape) false in
  let result := run (feedback env (Demo.post (mkFeedbackRequest "s-1"))) Demo.store2 in
  (exists row, fst result = Return (mkResponse 200 json_headers (FeedbackBody row)) /\
               feedback_table (db (snd result)) = [row]) /\
  session_table (db (snd result)) = [Demo.s1] /\
  session.status Demo.s1 = "active".
Proof.
  vm_compute. split; [|split; reflexivity].
  eexists. split; reflexivity.
Qed.

(** ** The handler on replies at the edges of JSON *)

(** A score beyond the range of the doubles is read as an infinity and
    written [null]: the run succeeds and the row holds [null] for it. *)
Example overflowing_score_is_stored_as_null :
  fst (run (feedback (Demo.env_with (Completion [Some Replies.beyond_double_score]))
              (Demo.post (mkFeedbackRequest "s-1"))) Demo.store2)
  = Return (mkResponse 200 json_headers
              (FeedbackBody
                 (feedback.mk 1 "s-1" (JStr "ok")
                    (JObj [("clarity", JNull); ("empathy", int 3);
                           ("assertiveness", int 5)])
                    (JStr "practise") 5001))).
Proof. vm_compute. reflexivity. Qed.

(** A summary that is such a number reaches the store as null and is
    refused. *)
Example overflowing_summary_is_refused :
  fst (run (feedback (Demo.env_with (Completion [Some Replies.beyond_double_summary]))
              (Demo.post (mkFeedbackRequest "s-1"))) Demo.store2)
  = Return (mkResponse 500 json_headers (ErrorBody (not_null_violation "summary"))).
Proof. vm_compute. reflexivity. Qed.

(** A summary that is a number and recommendations that are a list come
    back as the text written for them. *)
Example values_come_back_as_text :
  fst (run (feedback (Demo.env_with (Completion [Some Replies.not_text]))
              (Demo.post (mkFeedbackRequest "s-1"))) Demo.store2)
  = Return (mkResponse 200 json_headers
              (FeedbackBody
                 (feedback.mk 1 "s-1" (JStr "7")
                    (JObj [("clarity", int 4); ("empathy", int 3);
                           ("assertiveness", int 5)])
                    (JStr ("[" ++ dq ++ "a" ++ dq ++ "," ++ dq ++ "b" ++ dq ++ "]"))
                    5001))).
Proof. vm_compute. reflexivity. Qed.

(** A row refused by a [NOT NULL] constraint has used an identifier: the
    row stored next gets the one after. *)
Example refused_row_uses_an_identifier :
  let refused :=
    run (feedback (Demo.env_with (Completion [Some Replies.no_summary]))
           (Demo.post (mkFeedbackRequest "s-1"))) Demo.store2 in
  let stored :=
    run (feedback (Demo.env_with (Completion [Some Demo.well_formed_payload]))
           (Demo.post (mkFeedbackRequest "s-1"))) (db (snd refused)) in
  feedback_table (db (snd refused)) = [] /\
  map feedback.id (feedback_table (db (snd stored))) = [2].
Proof. vm_compute. split; reflexivity. Qed.

(** * Further properties of the two handlers *)

Lemma key_missing_inv env :
  key_missing env = true ->
  OPENAI_API_KEY env = None \/
  exists k, OPENAI_API_KEY env = Some k /\ truthy_string k = false.
Proof.
  unfold key_missing. destruct (OPENAI_API_KEY env) as [k|]; [|now left].
  intros H. right. exists k. split; [reflexivity|].
  now destruct (truthy_string k).
Qed.

(** X1. When the model key is unset or empty, a request other than the
    preflight is answered by either handler with status 500 and the error
    [OpenAI API key not configured]; the only effect is the logging of that
    error: the store is not queried and the model endpoint is not called. *)
Theorem missing_key_stops_everything
    (env : Env) (d : Store) (creq : Request ChatRequest) (freq : Request FeedbackRequest) :
  key_missing env = true ->
  String.eqb (method creq) "OPTIONS" = false ->
  String.eqb (method freq) "OPTIONS" = false ->
  run (chat env creq) d =
    (Return (mkResponse 500 json_headers (ErrorBody "OpenAI API key not configured")),
     mkWorld d [EvConsoleError "Chat error:" (Error "OpenAI API key not configured")]) /\
  run (feedback env freq) d =
    (Return (mkResponse 500 json_headers (ErrorBody "OpenAI API key not configured")),
     mkWorld d [EvConsoleError "Feedback error:" (Error "OpenAI API key not configured")]).
Proof.
  intros Hk Hc Hf.
  destruct (key_missing_inv env Hk) as [Hn|(k & Hs & Ht)];
    split; known_path; reflexivity.
Qed.

Lemma missing_key_stops_everything_witness :
  run (feedback (mkEnv (Some EmptyString) None (fun _ => None)
                   (fun _ => Completion [Some Demo.well_formed_payload])
                   Demo.v8_message 5000 5001
                   Demo.json_text (fun _ => Some Demo.unsupported_escape) false)
                (Demo.post (mkFeedbackRequest "s-1"))) Demo.store2 =
    (Return (mkResponse 500 json_headers (ErrorBody "OpenAI API key not configured")),
     mkWorld Demo.store2
       [EvConsoleError "Feedback error:" (Error "OpenAI API key not configured")]).
Proof.
  apply (proj2 (missing_key_stops_everything
                  (mkEnv (Some EmptyString) None (fun _ => None)
                     (fun _ => Completion [Some Demo.well_formed_payload])
                     Demo.v8_message 5000 5001
                   Demo.json_text (fun _ => Some Demo.unsupported_escape) false)
                  Demo.store2
                  (Demo.post (mkChatRequest "s-1" "Hi" None))
                  (Demo.post (mkFeedbackRequest "s-1"))
                  eq_refl eq_refl eq_refl)).
Defined.

(** X2. With the secrets set, a request whose body cannot be read as JSON is
    answered by either handler with status 500 and the engine's message (or
    [Internal server error] were that empty), before any query of the store
    and any call of the model endpoint. *)
Theorem unreadable_body_stops_before_store
    (env : Env) (d : Store) (creq : Request ChatRequest) (freq : Request FeedbackRequest) :
  configured env = true ->
  String.eqb (method creq) "OPTIONS" = false -> json_body creq = None ->
  String.eqb (method freq) "OPTIONS" = false -> json_body freq = None ->
  run (chat env creq) d =
    (Return (error_response env (RuntimeError BodyNotJson)),
     mkWorld d [EvConsoleError "Chat error:" (RuntimeError BodyNotJson)]) /\
  run (feedback env freq) d =
    (Return (error_response env (RuntimeError BodyNotJson)),
     mkWorld d [EvConsoleError "Feedback error:" (RuntimeError BodyNotJson)]).
Proof.
  intros Hc Hcm Hcb Hfm Hfb.
  apply configured_inv in Hc as (k & Hk & Ht & Hcc).
  split; known_path; reflexivity.
Qed.

Lemma unreadable_body_stops_before_store_witness :
  run (chat (Demo.env_with (Completion [Some "Hello"])) (mkRequest "POST" None)) Demo.store2 =
    (Return (mkResponse 500 json_headers (ErrorBody "Unexpected end of JSON input")),
     mkWorld Demo.store2 [EvConsoleError "Chat error:" (RuntimeError BodyNotJson)]).
Proof.
  apply (proj1 (unreadable_body_stops_before_store
                  (Demo.env_with (Completion [Some "Hello"])) Demo.store2
                  (mkRequest "POST" None) (mkRequest "POST" None)
                  eq_refl eq_refl eq_refl eq_refl eq_refl)).
Defined.

(** X3. When the model endpoint answers the request sent with a status that
    is not a success, either handler answers 500 with the error
    [OpenAI API error: ] followed by the text of the upstream body; the error
    is logged and nothing is written: the feedback handler stores no row and
    leaves the session as it was. *)
Theorem upstream_failure_is_relayed
    (env : Env) (d : Store) (r : completion_request) (errorText : string) :
  fetch env r = Failure errorText ->
  (forall req, In (EvFetch r) (trace (snd (run (chat env req) d))) ->
     exists w,
       run (chat env req) d =
         (Return (mkResponse 500 json_headers
                    (ErrorBody ("OpenAI API error: " ++ errorText))), w) /\
       db w = d /\
       In (EvConsoleError "Chat error:" (Error ("OpenAI API error: " ++ errorText)))
          (trace w)) /\
  (forall req, In (EvFetch r) (trace (snd (run (feedback env req) d))) ->
     exists w,
       run (feedback env req) d =
         (Return (mkResponse 500 json_headers
                    (ErrorBody ("OpenAI API error: " ++ errorText))), w) /\
       db w = d /\
       Forall (fun e => is_write e = false) (trace w) /\
       In (EvConsoleError "Feedback error:" (Error ("OpenAI API error: " ++ errorText)))
          (trace w)).
Proof.
  intros Hfetch. split; intros req.
  - all_paths; intros Hin; in_trace Hin.
    all: injection Hin as <-.
    all: rewrite Hfetch in *; try discriminate.
    all: match goal with E : Failure _ = Failure _ |- _ => injection E as <- end.
    all: eexists; (split; [reflexivity|]); cbv beta iota; cbn [app].
    all: split; [reflexivity|]; simpl; auto 8.
  - all_paths; intros Hin; in_trace Hin.
    all: injection Hin as <-.
    all: rewrite Hfetch in *; try discriminate.
    all: match goal with E : Failure _ = Failure _ |- _ => injection E as <- end.
    all: eexists; (split; [reflexivity|]); cbv beta iota; cbn [app].
    all: split; [reflexivity|]; split; [repeat constructor|]; simpl; auto 8.
Qed.

Lemma upstream_failure_is_relayed_witness :
  exists w,
    run (feedback (Demo.env_with (Failure "rate limit exceeded"))
                  (Demo.post (mkFeedbackRequest "s-1"))) Demo.store2 =
      (Return (mkResponse 500 json_headers
                 (ErrorBody "OpenAI API error: rate limit exceeded")), w) /\
    db w = Demo.store2.
Proof.
  destruct (proj2 (upstream_failure_is_relayed
                     (Demo.env_with (Failure "rate limit exceeded")) Demo.store2
                     (feedback_completion "sk-test"
                        (feedbackPrompt Demo.interview [Demo.greeting; Demo.answer]))
                     "rate limit exceeded" eq_refl)
                  (Demo.post (mkFeedbackRequest "s-1")))
    as (w & Hrun & Hdb & _).
  - vm_compute. right. right. left. reflexivity.
  - exists w. split; [exact Hrun|exact Hdb].
Defined.

(** X4. A session row without a scenario (its foreign key is null, so the
    embedded scenario is [null]) makes either handler fail on reading
    [scenario.title]: status 500 with the engine's message for that read,
    after the two queries and without any call of the model endpoint.  The
    feedback handler gets there only with at least two messages. *)
Theorem session_without_scenario_fails_before_model
    (env : Env) (d : Store) (s : session.row) (sid : string)
    (creq : Request ChatRequest) (c : ChatRequest)
    (freq : Request FeedbackRequest) (f : FeedbackRequest) :
  configured env = true ->
  db_fault env SelectSession = None ->
  sessions_with_id d sid = [s] ->
  scenario_of d s = None ->
  is_post creq c -> session_id c = sid ->
  is_post freq f -> feedback_session_id f = sid ->
  run (chat env creq) d =
    (Return (error_response env (RuntimeError (ReadOfNull "title"))),
     mkWorld d [EvSelectSession sid; EvSelectMessages sid;
                EvConsoleError "Chat error:" (RuntimeError (ReadOfNull "title"))]) /\
  (db_fault env SelectMessages = None ->
   (2 <= length (message_rows d sid))%nat ->
   run (feedback env freq) d =
     (Return (error_response env (RuntimeError (ReadOfNull "title"))),
      mkWorld d [EvSelectSession sid; EvSelectMessages sid;
                 EvConsoleError "Feedback error:" (RuntimeError (ReadOfNull "title"))])).
Proof.
  intros Hc Hf Hs Hsc [Hcm Hcb] Hcs [Hfm Hfb] Hfs.
  apply configured_inv in Hc as (k & Hk & Ht & Hcc).
  split.
  - clear Hfs. subst sid. known_path.
    destruct (db_fault env SelectMessages); known_path; reflexivity.
  - intros Hf2 Hlen. clear Hcs. subst sid.
    rewrite <- messages_of_length in Hlen.
    assert (Hge : (Z.of_nat (length (messages_of d (feedback_session_id f))) <? 2) = false)
      by (apply Z.ltb_ge; lia).
    known_path. reflexivity.
Qed.

Lemma session_without_scenario_fails_before_model_witness :
  run (chat (Demo.env_with (Completion [Some "Hello"]))
            (Demo.post (mkChatRequest "s-2" "Hi" None))) Scene.store_adrift =
    (Return (mkResponse 500 json_headers
               (ErrorBody "Cannot read properties of null (reading 'title')")),
     mkWorld Scene.store_adrift
       [EvSelectSession "s-2"; EvSelectMessages "s-2";
        EvConsoleError "Chat error:" (RuntimeError (ReadOfNull "title"))]).
Proof.
  apply (proj1 (session_without_scenario_fails_before_model
                  (Demo.env_with (Completion [Some "Hello"])) Scene.store_adrift
                  Scene.adrift "s-2"
                  (Demo.post (mkChatRequest "s-2" "Hi" None)) (mkChatRequest "s-2" "Hi" None)
                  (Demo.post (mkFeedbackRequest "s-2")) (mkFeedbackRequest "s-2")
                  eq_refl eq_refl eq_refl eq_refl
                  (conj eq_refl eq_refl) eq_refl (conj eq_refl eq_refl) eq_refl)).
Defined.

Lemma error_response_reports env label e pre :
  Forall (fun ev => is_console_error ev = false) pre ->
  reports env label (error_response env e) (pre ++ [EvConsoleError label e])%list.
Proof.
  intros Hpre. unfold reports, error_response.
  exists e, pre. eexists. split; [reflexivity|]. split; [exact Hpre|].
  split; [reflexivity|].
  destruct (truthy_string (message_of env e)) eqn:E.
  - split; [|now left]. intros Hm. rewrite Hm in E. discriminate.
  - split; [discriminate|now right].
Qed.

(** X5. Every run of either handler ends in one of three ways: the preflight
    answer, with no effect at all; a 200 answer carrying the reply (chat) or
    the stored record (feedback), with nothing logged; or a 500 answer whose
    body is [{error: m}] with [m] never empty (the error's message, else
    [Internal server error]), the error having been logged exactly once,
    as the last effect. *)
Theorem every_run_ends_in_one_of_three_ways (env : Env) (d : Store) :
  (forall req, exists resp w,
     run (chat env req) d = (Return resp, w) /\
     ((method req = "OPTIONS" /\ resp = preflight /\ w = mkWorld d []) \/
      (status resp = 200 /\ (exists reply, body resp = MessageBody reply) /\
       Forall (fun ev => is_console_error ev = false) (trace w)) \/
      reports env "Chat error:" resp (trace w))) /\
  (forall req, exists resp w,
     run (feedback env req) d = (Return resp, w) /\
     ((method req = "OPTIONS" /\ resp = preflight /\ w = mkWorld d []) \/
      (status resp = 200 /\ (exists row, body resp = FeedbackBody row) /\
       Forall (fun ev => is_console_error ev = false) (trace w)) \/
      reports env "Feedback error:" resp (trace w))).
Proof.
  split; intros req.
  - all_paths; eexists; eexists; (split; [reflexivity|]).
    all: try (left; split; [now apply String.eqb_eq|split; reflexivity]).
    all: try (right; right; as_report error_response_reports).
    all: right; left; split; [reflexivity|]; split; [eexists; reflexivity|].
    all: repeat constructor.
  - all_paths; eexists; eexists; (split; [reflexivity|]).
    all: try (left; split; [now apply String.eqb_eq|split; reflexivity]).
    all: try (right; right; as_report error_response_reports).
    all: right; left; split; [reflexivity|]; split; [eexists; reflexivity|].
    all: repeat constructor.
Qed.

(** X6. Neither handler repeats an effect: a run calls the model endpoint at
    most once, and a run of the feedback handler issues at most one insert and
    at most one update.  A run of the feedback handler that answers with the
    stored record performed exactly the session query, the message query, the
    model call, the insert and the update, in this order; a run of the chat
    handler that answers with a reply performed exactly the two queries and
    the model call. *)
Theorem effects_happen_once_and_in_order
    (env : Env) (d : Store) :
  (forall req,
     (length (filter is_model_call (trace (snd (run (chat env req) d)))) <= 1)%nat) /\
  (forall req,
     let t := trace (snd (run (feedback env req) d)) in
     (length (filter is_model_call t) <= 1)%nat /\
     (length (filter is_insert t) <= 1)%nat /\
     (length (filter is_update t) <= 1)%nat) /\
  (forall req resp w reply,
     run (chat env req) d = (Return resp, w) -> body resp = MessageBody reply ->
     exists c r,
       json_body req = Some c /\
       trace w = [EvSelectSession (session_id c); EvSelectMessages (session_id c);
                  EvFetch r]) /\
  (forall req resp w row,
     run (feedback env req) d = (Return resp, w) -> body resp = FeedbackBody row ->
     exists f r p,
       json_body req = Some f /\
       trace w = [EvSelectSession (feedback_session_id f);
                  EvSelectMessages (feedback_session_id f);
                  EvFetch r; EvInsertFeedback p;
                  EvUpdateSession (feedback_session_id f) "completed" (js_now env)]).
Proof.
  split; [|split; [|split]].
  - intros req. all_paths; cbn; lia.
  - intros req. all_paths; cbn; lia.
  - intros req resp w reply.
    all_paths; intros Hrun Hbody; injection Hrun as <- <- <-;
      cbn [body] in Hbody; try discriminate Hbody.
    all: eexists; eexists; split; reflexivity.
  - intros req resp w row.
    all_paths; intros Hrun Hbody; injection Hrun as <- <- <-;
      cbn [body] in Hbody; try discriminate Hbody.
    all: eexists; eexists; eexists; split; reflexivity.
Qed.

Lemma effects_happen_once_and_in_order_witness :
  exists f r p,
    json_body (Demo.post (mkFeedbackRequest "s-1")) = Some f /\
    trace (snd (run (feedback (Demo.env_with (Completion [Some Demo.well_formed_payload]))
                      (Demo.post (mkFeedbackRequest "s-1"))) Demo.store2)) =
      [EvSelectSession (feedback_session_id f); EvSelectMessages (feedback_session_id f);
       EvFetch r; EvInsertFeedback p;
       EvUpdateSession (feedback_session_id f) "completed" 5000].
Proof.
  exact (proj2 (proj2 (proj2 (effects_happen_once_and_in_order
           (Demo.env_with (Completion [Some Demo.well_formed_payload])) Demo.store2)))
         (Demo.post (mkFeedbackRequest "s-1"))
         (mkResponse 200 json_headers
            (FeedbackBody
               (feedback.mk 1 "s-1" (JStr "ok")
                  (JObj [("clarity", int 4); ("empathy", int 3); ("assertiveness", int 5)])
                  (JStr (Demo.bullet ++ " a" ++ nl ++ Demo.bullet ++ " b" ++ nl
                         ++ Demo.bullet ++ " c")) 5001)))
         (snd (run (feedback (Demo.env_with (Completion [Some Demo.well_formed_payload]))
                      (Demo.post (mkFeedbackRequest "s-1"))) Demo.store2))
         (feedback.mk 1 "s-1" (JStr "ok")
            (JObj [("clarity", int 4); ("empathy", int 3); ("assertiveness", int 5)])
            (JStr (Demo.bullet ++ " a" ++ nl ++ Demo.bullet ++ " b" ++ nl
                   ++ Demo.bullet ++ " c")) 5001)
         ltac:(vm_compute; reflexivity) ltac:(vm_compute; reflexivity)).
Defined.

(** X7. Whatever happens, a run of the feedback handler leaves the scenario
    and message tables as they were; it keeps every feedback row there was, in
    place, and adds at most one after them; it keeps the session table's rows
    in place with their identifiers, and every session row of another
    identifier unchanged. *)
Theorem feedback_run_frame
    (env : Env) (d : Store) (req : Request FeedbackRequest) :
  let d' := db (snd (run (feedback env req) d)) in
  scenario_table d' = scenario_table d /\
  message_table d' = message_table d /\
  (exists added, feedback_table d' = (feedback_table d ++ added)%list /\
                 (length added <= 1)%nat) /\
  map session.id (session_table d') = map session.id (session_table d) /\
  (forall f s, json_body req = Some f ->
     In s (session_table d) -> session.id s <> feedback_session_id f ->
     In s (session_table d')).
Proof.
  assert (Hids : forall sid st t l,
    map session.id (map (set_status sid st t) l) = map session.id l).
  { intros sid st t l. rewrite map_map. apply map_ext. intros s.
    unfold set_status. destruct (String.eqb (session.id s) sid); reflexivity. }
  assert (Hother : forall sid st t l s,
    In s l -> session.id s <> sid -> In s (map (set_status sid st t) l)).
  { intros sid st t l s Hin Hne. apply in_map_iff. exists s. split; [|exact Hin].
    unfold set_status. apply String.eqb_neq in Hne. now rewrite Hne. }
  all_paths.
  all: repeat split; try reflexivity.
  all: try (exists []; split; [now rewrite app_nil_r|simpl; lia]).
  all: try (eexists; split; [reflexivity|simpl; lia]).
  all: try apply Hids.
  all: intros f' s' Hb Hin Hne; try exact Hin.
  all: try discriminate Hb.
  all: injection Hb as <-; now apply Hother.
Qed.

Lemma feedback_run_frame_witness :
  In Scene.adrift
    (session_table
       (db (snd (run (feedback (Demo.env_with (Completion [Some Demo.well_formed_payload]))
                       (Demo.post (mkFeedbackRequest "s-1"))) Scene.store_adrift)))).
Proof.
  apply (proj2 (proj2 (proj2 (proj2 (feedback_run_frame
           (Demo.env_with (Completion [Some Demo.well_formed_payload]))
           Scene.store_adrift (Demo.post (mkFeedbackRequest "s-1"))))))
         (mkFeedbackRequest "s-1") Scene.adrift eq_refl).
  - vm_compute. right. left. reflexivity.
  - vm_compute. discriminate.
Defined.

(** ** When a feedback request goes through *)

Lemma feedback_goes_through_runs env d req f k s sc content v :
  feedback_goes_through env d req f k s sc content v ->
  let row := inserted_row env d (feedback_payload (feedback_session_id f) v) in
  run (feedback env req) d =
    (Return (mkResponse 200 json_headers (FeedbackBody row)),
     mkWorld (after_feedback env d (feedback_session_id f) row)
       (feedback_trace env d f k sc v)).
Proof.
  intros (Hc & Hk & [Hm Hb] & Hf1 & Hs & Hsc & Hf2 & Hlen & [rest Hfetch] & Hparse
          & Hv & Hins) row.
  apply configured_inv in Hc as (k' & Hk' & Ht & Hcc).
  rewrite Hk in Hk'. injection Hk' as <-.
  rewrite <- messages_of_length in Hlen.
  assert (Hge : (Z.of_nat (length (messages_of d (feedback_session_id f))) <? 2) = false)
    by (apply Z.ltb_ge; lia).
  unfold feedback_text in Hparse. subst row. unfold after_feedback, feedback_trace.
  destruct content as [t|]; known_path.
  all: destruct v; try contradiction; reduce_handler.
  all: unfold feedback_payload, field in Hins; rewrite Hins; reduce_handler.
  all: destruct (db_fault env UpdateSession); reduce_handler; reflexivity.
Qed.

Lemma configured_intro env k :
  OPENAI_API_KEY env = Some k -> truthy_string k = true ->
  createClient_error env = None -> configured env = true.
Proof. intros Hk Ht Hc. unfold configured. now rewrite Hk, Hc. Qed.

Lemma feedback_run_went_through env d req row w :
  run (feedback env req) d = (Return (mkResponse 200 json_headers (FeedbackBody row)), w) ->
  exists f k s sc content v,
    feedback_goes_through env d req f k s sc content v /\
    row = inserted_row env d (feedback_payload (feedback_session_id f) v) /\
    w = mkWorld (after_feedback env d (feedback_session_id f) row)
          (feedback_trace env d f k sc v).
Proof.
  all_paths; unfold preflight, error_response; intros Hrun;
    try discriminate Hrun; injection Hrun as <- <-.
  all: match goal with
       | E : (_ <? 2) = false |- _ =>
           apply Z.ltb_ge in E; rewrite messages_of_length in E
       end.
  all: do 4 eexists.
  all: match goal with
       | E : JSON_parse ?t = Some ?v |- _ =>
           match goal with
           | E' : fetch _ _ = Completion (?c :: _) |- _ => exists c, v
           end
       end.
  all: split; [|split].
  all: try reflexivity.
  all: try (unfold after_feedback, feedback_trace;
            match goal with
            | E : db_fault _ UpdateSession = _ |- _ => rewrite E
            end; reflexivity).
  all: unfold feedback_goes_through.
  all: repeat match goal with
       | |- _ /\ _ => split
       end; try eassumption; try discriminate.
  all: try (eapply configured_intro; eassumption).
  all: try (split; eassumption).
  all: try (eexists; eassumption).
  all: try lia.
Qed.

(** X8. A feedback request is answered 200 with a stored record exactly when
    everything goes through: the secrets are set, the POST body is read, the
    session resolves to one row with a scenario, at least two messages are
    read, the model's reply parses as JSON to something other than [null],
    and the store accepts the row: it has no fault, it does not refuse text
    it cannot keep, and [summary] and [recommendations] reach it as something
    other than null (the field is there, is not [null], and is not a number
    beyond the range of the doubles, which is sent as [null]).  The record is
    then the row as the store returns it: the next identifier, [summary] and
    [recommendations] as text (a string as it is, any other value as the text
    written for it), and the scores as sent.  The run leaves the store with
    that row appended and the update applied unless the store refused it. *)
Theorem feedback_succeeds_exactly_when
    (env : Env) (d : Store) (req : Request FeedbackRequest)
    (row : feedback.row) (w : World) :
  run (feedback env req) d = (Return (mkResponse 200 json_headers (FeedbackBody row)), w)
  <->
  exists f k s sc content v,
    feedback_goes_through env d req f k s sc content v /\
    row = inserted_row env d (feedback_payload (feedback_session_id f) v) /\
    w = mkWorld (after_feedback env d (feedback_session_id f) row)
          (feedback_trace env d f k sc v).
Proof.
  split.
  - apply feedback_run_went_through.
  - intros (f & k & s & sc & content & v & Hgo & -> & ->).
    apply (feedback_goes_through_runs _ _ _ _ _ _ _ _ _ Hgo).
Qed.

Lemma feedback_succeeds_exactly_when_witness :
  exists f k s sc content v,
    feedback_goes_through
      (Demo.env_with (Completion [Some Demo.well_formed_payload])) Demo.store2
      (Demo.post (mkFeedbackRequest "s-1")) f k s sc content v /\
    feedback_session_id f = "s-1" /\
    content = Some Demo.well_formed_payload.
Proof.
  destruct (proj1 (feedback_succeeds_exactly_when
                     (Demo.env_with (Completion [Some Demo.well_formed_payload]))
                     Demo.store2 (Demo.post (mkFeedbackRequest "s-1"))
                     (feedback.mk 1 "s-1" (JStr "ok")
                        (JObj [("clarity", int 4); ("empathy", int 3);
                               ("assertiveness", int 5)])
                        (JStr (Demo.bullet ++ " a" ++ nl ++ Demo.bullet ++ " b" ++ nl
                               ++ Demo.bullet ++ " c")) 5001)
                     (snd (run (feedback
                                  (Demo.env_with (Completion [Some Demo.well_formed_payload]))
                                  (Demo.post (mkFeedbackRequest "s-1"))) Demo.store2)))
                  ltac:(vm_compute; reflexivity))
    as (f & k & s & sc & content & v & Hgo & _ & _).
  exists f, k, s, sc, content, v. split; [exact Hgo|].
  destruct Hgo as (_ & Hk & [_ Hb] & _ & Hs & Hsc & _ & _ & [rest Hfetch] & _).
  injection Hb as <-. split; [reflexivity|].
  injection Hfetch as <- _. reflexivity.
Defined.

(** ** Asking for feedback twice *)

Lemma set_status_keeps_id sid st t s :
  session.id (set_status sid st t s) = session.id s.
Proof. unfold set_status. destruct (String.eqb (session.id s) sid); reflexivity. Qed.

Lemma set_status_keeps_scenario sid st t s :
  session.scenario_id (set_status sid st t s) = session.scenario_id s.
Proof. unfold set_status. destruct (String.eqb (session.id s) sid); reflexivity. Qed.

Lemma filter_id_set_status sid st t l :
  filter (fun s => String.eqb (session.id s) sid) (map (set_status sid st t) l) =
  map (set_status sid st t) (filter (fun s => String.eqb (session.id s) sid) l).
Proof.
  induction l as [|s tl IH]; simpl; [reflexivity|].
  rewrite set_status_keeps_id.
  destruct (String.eqb (session.id s) sid); simpl; now rewrite IH.
Qed.

Lemma session_still_resolves env d sid row s :
  sessions_with_id d sid = [s] ->
  exists s',
    sessions_with_id (after_feedback env d sid row) sid = [s'] /\
    scenario_of (after_feedback env d sid row) s' = scenario_of d s.
Proof.
  intros Hs. unfold after_feedback, sessions_with_id in *. cbn [session_table].
  destruct (db_fault env UpdateSession).
  - exists s. split; [exact Hs|reflexivity].
  - exists (set_status sid "completed" (js_now env) s).
    rewrite filter_id_set_status, Hs. split; [reflexivity|].
    unfold scenario_of. cbn [scenario_table]. now rewrite set_status_keeps_scenario.
Qed.

Lemma feedback_goes_through_again env d req f k s sc content v row :
  feedback_goes_through env d req f k s sc content v ->
  exists s',
    feedback_goes_through env (after_feedback env d (feedback_session_id f) row)
      req f k s' sc content v.
Proof.
  intros (Hc & Hk & Hp & Hf1 & Hs & Hsc & Hf2 & Hlen & Hfetch & Hparse & Hv & Hins).
  destruct (session_still_resolves env d _ row s Hs) as (s' & Hs' & Hsc').
  exists s'. unfold feedback_goes_through.
  repeat match goal with |- _ /\ _ => split end; try assumption.
  now rewrite Hsc'.
Qed.

(** X9. The feedback handler does not look for an earlier record: when a
    request has been answered with a stored record, the same request in the
    same environment, run on the store the first run left, goes through again
    and stores a second row for the session, with the next identifier and the
    same summary, scores and recommendations. *)
Theorem asking_twice_stores_two_rows
    (env : Env) (d : Store) (req : Request FeedbackRequest)
    (row1 : feedback.row) (w1 : World) :
  run (feedback env req) d =
    (Return (mkResponse 200 json_headers (FeedbackBody row1)), w1) ->
  exists row2 w2,
    run (feedback env req) (db w1) =
      (Return (mkResponse 200 json_headers (FeedbackBody row2)), w2) /\
    feedback_table (db w2) = (feedback_table d ++ [row1; row2])%list /\
    feedback.id row2 = feedback.id row1 + 1 /\
    feedback.session_id row2 = feedback.session_id row1 /\
    feedback.summary row2 = feedback.summary row1 /\
    feedback.scores row2 = feedback.scores row1 /\
    feedback.recommendations row2 = feedback.recommendations row1.
Proof.
  intros Hrun.
  apply feedback_run_went_through in Hrun
    as (f & k & s & sc & content & v & Hgo & -> & ->).
  cbn [db].
  destruct (feedback_goes_through_again _ _ _ _ _ _ _ _ _
              (inserted_row env d (feedback_payload (feedback_session_id f) v)) Hgo)
    as (s' & Hgo').
  eexists. eexists. split.
  - apply (feedback_goes_through_runs _ _ _ _ _ _ _ _ _ Hgo').
  - cbn [db after_feedback feedback_table]. rewrite <- app_assoc.
    repeat split.
Qed.

Lemma asking_twice_stores_two_rows_witness :
  exists row2 w2,
    run (feedback (Demo.env_with (Completion [Some Demo.well_formed_payload]))
                  (Demo.post (mkFeedbackRequest "s-1")))
        (db (snd (run (feedback (Demo.env_with (Completion [Some Demo.well_formed_payload]))
                         (Demo.post (mkFeedbackRequest "s-1"))) Demo.store2))) =
      (Return (mkResponse 200 json_headers (FeedbackBody row2)), w2) /\
    length (feedback_table (db w2)) = 2%nat /\
    feedback.id row2 = 2.
Proof.
  destruct (asking_twice_stores_two_rows
              (Demo.env_with (Completion [Some Demo.well_formed_payload])) Demo.store2
              (Demo.post (mkFeedbackRequest "s-1"))
              (feedback.mk 1 "s-1" (JStr "ok")
                 (JObj [("clarity", int 4); ("empathy", int 3); ("assertiveness", int 5)])
                 (JStr (Demo.bullet ++ " a" ++ nl ++ Demo.bullet ++ " b" ++ nl
                        ++ Demo.bullet ++ " c")) 5001)
              (snd (run (feedback
                           (Demo.env_with (Completion [Some Demo.well_formed_payload]))
                           (Demo.post (mkFeedbackRequest "s-1"))) Demo.store2))
              ltac:(vm_compute; reflexivity))
    as (row2 & w2 & Hrun & Htable & Hid & _).
  exists row2, w2. split; [exact Hrun|]. split.
  - rewrite Htable. reflexivity.
  - rewrite Hid. reflexivity.
Defined.

(** ** Runs that reach the model *)

Lemma feedback_model_call_inv env d req r :
  In (EvFetch r) (trace (snd (run (feedback env req) d))) ->
  exists f k s sc,
    feedback_reaches_model env d req f k s sc /\
    r = feedback_completion k
          (feedbackPrompt sc (messages_of d (feedback_session_id f))).
Proof.
  all_paths; intros Hin; in_trace Hin.
  all: injection Hin as <-.
  all: match goal with
       | E : (_ <? 2) = false |- _ =>
           apply Z.ltb_ge in E; rewrite messages_of_length in E
       end.
  all: do 4 eexists; split; [|reflexivity].
  all: unfold feedback_reaches_model, is_post.
  all: repeat match goal with |- _ /\ _ => split end; try eassumption; try lia.
  all: eapply configured_intro; eassumption.
Qed.

Lemma chat_model_call_inv env d req r :
  In (EvFetch r) (trace (snd (run (chat env req) d))) ->
  exists c k s sc,
    chat_reaches_model env d req c k s sc /\
    r = chat_completion k
          (openaiMessages sc (history_read env d (session_id c)) c).
Proof.
  unfold history_read.
  all_paths; intros Hin; in_trace Hin.
  all: injection Hin as <-.
  all: do 4 eexists; split; [|reflexivity].
  all: unfold chat_reaches_model, is_post.
  all: repeat match goal with |- _ /\ _ => split end; try eassumption.
  all: eapply configured_intro; eassumption.
Qed.

Lemma refusal_of_null env p :
  early_refusal env p = None ->
  not_null (sent (ins_summary p)) = None \/
  not_null (sent (ins_recommendations p)) = None ->
  exists column,
    insert_refusal env p = Some (not_null_violation column) /\
    id_drawn env p = true /\
    (column = "summary" \/ column = "recommendations").
Proof.
  intros Hf Hn. unfold insert_refusal, id_drawn. rewrite Hf.
  destruct (not_null (sent (ins_summary p))) eqn:Es.
  - destruct Hn as [Hn|Hn]; [discriminate|]. rewrite Hn.
    exists "recommendations". split; [reflexivity|]. split; [reflexivity|now right].
  - exists "summary". split; [|split; [reflexivity|now left]].
    destruct (not_null (sent (ins_recommendations p))); reflexivity.
Qed.

Lemma lookup_member name members x :
  lookup name members = Some x -> exists k, In (k, x) members.
Proof.
  induction members as [|[k y] tl IH]; cbn [lookup]; [discriminate|].
  destruct (lookup name tl) as [y'|].
  - intros H. injection H as ->. destruct (IH eq_refl) as [k' Hk'].
    exists k'. now right.
  - destruct (String.eqb k name); [|discriminate].
    intros H. injection H as ->. exists k. now left.
Qed.

Lemma storable_field v name x :
  unstorable v = false -> field v name = Some x -> unstorable x = false.
Proof.
  destruct v as [| | | | |members]; cbn [field]; try discriminate.
  cbn [unstorable]. intros Hv Hx.
  apply lookup_member in Hx as [k Hk].
  destruct (unstorable x) eqn:E; [|reflexivity].
  assert (existsb (fun kv => (has_unstorable_char (fst kv) || unstorable (snd kv))%bool)
            members = true) as Habs.
  { apply existsb_exists. exists (k, x). split; [exact Hk|].
    cbn [fst snd]. rewrite E. apply orb_true_r. }
  congruence.
Qed.

(** A reply that holds no text the store cannot keep gives a row that holds
    none. *)
Lemma storable_reply_gives_storable_row session_id v :
  unstorable v = false -> unstorable_row (feedback_payload session_id v) = false.
Proof.
  intros Hv.
  assert (F : forall name x, field v name = Some x -> unstorable x = false)
    by (intros name x; now apply storable_field).
  unfold unstorable_row, feedback_payload.
  cbn [ins_summary ins_scores ins_recommendations].
  destruct (field v "summary") eqn:E1, (field v "clarity") eqn:E2,
           (field v "empathy") eqn:E3, (field v "assertiveness") eqn:E4,
           (field v "recommendations") eqn:E5.
  all: cbn [defined_members existsb snd].
  all: rewrite ?(F _ _ E1), ?(F _ _ E2), ?(F _ _ E3), ?(F _ _ E4), ?(F _ _ E5).
  all: reflexivity.
Qed.

(** ** Replies that parse but cannot be stored *)

(** X10. When the model's reply parses to a JSON value other than [null]
    whose [summary] or [recommendations] reaches the store as null (the field
    is absent, is [null], or is a number beyond the range of the doubles,
    which [JSON.stringify] writes [null]), while the store has no fault and
    the reply holds no text it cannot keep, the insert is attempted and
    refused by the [NOT NULL] constraint of the column.  The handler answers
    500 with the store's message and issues no update; the four tables, the
    session's status included, are as they were, and the refused row has used
    one value of the sequence of feedback identifiers. *)
Theorem reply_without_summary_is_refused
    (env : Env) (d : Store) (req : Request FeedbackRequest)
    (r : completion_request) (text : string) (rest : list (option string)) (v : json) :
  In (EvFetch r) (trace (snd (run (feedback env req) d))) ->
  fetch env r = Completion (Some text :: rest) ->
  JSON_parse text = Some v ->
  v <> JNull ->
  db_fault env InsertFeedback = None ->
  unstorable v = false ->
  not_null (sent (field v "summary")) = None \/
  not_null (sent (field v "recommendations")) = None ->
  exists w column f,
    run (feedback env req) d =
      (Return (mkResponse 500 json_headers (ErrorBody (not_null_violation column))), w) /\
    (column = "summary" \/ column = "recommendations") /\
    json_body req = Some f /\
    In (EvInsertFeedback (feedback_payload (feedback_session_id f) v)) (trace w) /\
    Forall (fun e => is_update e = false) (trace w) /\
    db w = skip_id d.
Proof.
  intros Hin Hfetch Hparse Hv Hfault Hstorable Hnull.
  apply feedback_model_call_inv in Hin as (f & k & s & sc & Hreach & ->).
  assert (Hearly : early_refusal env (feedback_payload (feedback_session_id f) v) = None).
  { unfold early_refusal.
    now rewrite Hfault, (storable_reply_gives_storable_row _ _ Hstorable). }
  destruct (refusal_of_null env (feedback_payload (feedback_session_id f) v) Hearly Hnull)
    as (column & Href & Hdrawn & Hcol).
  to_the_model Hreach configured_inv messages_of_length.
  exists (mkWorld (skip_id d)
            [EvSelectSession (feedback_session_id f);
             EvSelectMessages (feedback_session_id f);
             EvFetch (feedback_completion k
                        (feedbackPrompt sc (messages_of d (feedback_session_id f))));
             EvInsertFeedback (feedback_payload (feedback_session_id f) v);
             EvConsoleError "Feedback error:"
               (PostgrestError (not_null_violation column))]),
    column, f.
  split; [|split; [exact Hcol|split; [assumption|split; [simpl; auto 8|]]]].
  - known_path. destruct v; try contradiction; reduce_handler.
    all: unfold feedback_payload, field in Href, Hdrawn.
    all: rewrite Href; reduce_handler; rewrite Hdrawn; reduce_handler.
    all: destruct Hcol as [-> | ->]; reflexivity.
  - split; [repeat constructor|reflexivity].
Qed.

Lemma reply_without_summary_is_refused_witness :
  exists w,
    run (feedback (Demo.env_with (Completion [Some Replies.no_summary]))
                  (Demo.post (mkFeedbackRequest "s-1"))) Demo.store2 =
      (Return (mkResponse 500 json_headers
                 (ErrorBody (not_null_violation "summary"))), w) /\
    db w = skip_id Demo.store2.
Proof.
  destruct (reply_without_summary_is_refused
              (Demo.env_with (Completion [Some Replies.no_summary])) Demo.store2
              (Demo.post (mkFeedbackRequest "s-1"))
              (feedback_completion "sk-test"
                 (feedbackPrompt Demo.interview [Demo.greeting; Demo.answer]))
              Replies.no_summary []
              (JObj [("clarity", int 4); ("empathy", int 3); ("assertiveness", int 5);
                     ("recommendations", JStr "practise")]))
    as (w & column & f & Hrun & Hcol & _ & _ & _ & Hdb).
  - vm_compute. right. right. left. reflexivity.
  - reflexivity.
  - vm_compute. reflexivity.
  - discriminate.
  - reflexivity.
  - reflexivity.
  - left. reflexivity.
  - exists w. split; [|exact Hdb].
    rewrite Hrun. vm_compute in Hrun.
    destruct Hcol as [-> | ->]; [reflexivity|].
    exfalso. injection Hrun as Hc _. vm_compute in Hc. discriminate Hc.
Defined.

(** X11. When the model's reply is [null] (a [null] content, or the text
    [null]), parsing succeeds and the first read of a field of the result
    throws: the handler answers 500 with the engine's message for reading
    [clarity] of [null], attempts no insert and no update, and leaves the
    store as it was. *)
Theorem null_reply_fails_on_first_field
    (env : Env) (d : Store) (req : Request FeedbackRequest)
    (r : completion_request) (content : option string) (rest : list (option string)) :
  In (EvFetch r) (trace (snd (run (feedback env req) d))) ->
  fetch env r = Completion (content :: rest) ->
  JSON_parse (feedback_text content) = Some JNull ->
  exists w,
    run (feedback env req) d =
      (Return (error_response env (RuntimeError (ReadOfNull "clarity"))), w) /\
    Forall (fun e => is_write e = false) (trace w) /\
    db w = d.
Proof.
  intros Hin Hfetch Hparse.
  apply feedback_model_call_inv in Hin as (f & k & s & sc & Hreach & ->).
  to_the_model Hreach configured_inv messages_of_length.
  unfold feedback_text in Hparse.
  eexists. split.
  - destruct content; known_path; reflexivity.
  - split; [repeat constructor|reflexivity].
Qed.

Lemma null_reply_fails_on_first_field_witness :
  exists w,
    run (feedback (Demo.env_with (Completion [None]))
                  (Demo.post (mkFeedbackRequest "s-1"))) Demo.store2 =
      (Return (mkResponse 500 json_headers
                 (ErrorBody "Cannot read properties of null (reading 'clarity')")), w) /\
    db w = Demo.store2.
Proof.
  destruct (null_reply_fails_on_first_field
              (Demo.env_with (Completion [None])) Demo.store2
              (Demo.post (mkFeedbackRequest "s-1"))
              (feedback_completion "sk-test"
                 (feedbackPrompt Demo.interview [Demo.greeting; Demo.answer]))
              None [])
    as (w & Hrun & _ & Hdb).
  - vm_compute. right. right. left. reflexivity.
  - reflexivity.
  - vm_compute. reflexivity.
  - exists w. split; [exact Hrun|exact Hdb].
Defined.

(** ** What is sent to the model *)

(** X12. On the opening turn the chat handler ignores the user message: two
    requests for the same session with [is_initial] true run alike, whatever
    their [user_message]. *)
Theorem opening_turn_ignores_user_message
    (env : Env) (d : Store) (meth sid m1 m2 : string) :
  run (chat env (mkRequest meth (Some (mkChatRequest sid m1 (Some true))))) d =
  run (chat env (mkRequest meth (Some (mkChatRequest sid m2 (Some true))))) d.
Proof.
  unfold run, chat, chat_try. cbn [method json_body req_json session_id].
  destruct (String.eqb meth "OPTIONS"); [reflexivity|].
  unfold try_catch, bind. cbn [session_id].
  destruct (require_key env _) as [[k|e] w0]; [|reflexivity].
  destruct (createClient env w0) as [[u|e] w1]; [|reflexivity].
  unfold ret.
  destruct (select_session env sid w1) as [[q|e] w2]; [|reflexivity].
  destruct (found_session q w2) as [[s|e] w3]; [|reflexivity].
  destruct (select_messages env sid w3) as [[ms|e] w4]; [|reflexivity].
  destruct (scenario_title (snd s) w4) as [[sc|e] w5]; reflexivity.
Qed.

Lemma history_message_turn_role m : turn_role (history_message m).
Proof.
  unfold turn_role, history_message.
  destruct (String.eqb (message.role m) "assistant"); simpl; auto.
Qed.

Lemma openaiMessages_roles sc h c :
  exists rest,
    openaiMessages sc h c =
      mkMessage "system" (systemPrompt sc (truthy_flag (is_initial c))) :: rest /\
    Forall turn_role rest /\
    (length h <= length rest <= length h + 1)%nat.
Proof.
  unfold openaiMessages.
  assert (Hh : Forall turn_role (map history_message h)).
  { apply Forall_forall. intros m Hm. apply in_map_iff in Hm as (x & <- & _).
    apply history_message_turn_role. }
  destruct (negb (truthy_flag (is_initial c)) && truthy_string (user_message c))%bool.
  - eexists. split; [reflexivity|]. split.
    + apply Forall_app. split; [exact Hh|]. constructor; [now left|constructor].
    + rewrite length_app, length_map. simpl. lia.
  - eexists. split; [reflexivity|]. split; [exact Hh|].
    rewrite length_map. lia.
Qed.

(** X13. Every request the chat handler sends to the model opens with the
    one system message, and every message after it has the role [user] or
    [assistant]: a stored row with any other role goes out as [user], so no
    stored text is ever sent as a system instruction.  The messages after the
    first are the history read plus at most one. *)
Theorem only_turn_roles_follow_the_system_message
    (env : Env) (d : Store) (req : Request ChatRequest) (r : completion_request) :
  In (EvFetch r) (trace (snd (run (chat env req) d))) ->
  exists c prompt rest,
    json_body req = Some c /\
    messages r = mkMessage "system" prompt :: rest /\
    Forall turn_role rest /\
    (length (history_read env d (session_id c)) <= length rest
     <= length (history_read env d (session_id c)) + 1)%nat.
Proof.
  intros Hin.
  apply chat_model_call_inv in Hin as (c & k & s & sc & Hreach & ->).
  destruct Hreach as (_ & _ & [_ Hb] & _).
  destruct (openaiMessages_roles sc (history_read env d (session_id c)) c)
    as (rest & Heq & Hroles & Hlen).
  exists c. eexists. exists rest. cbn [messages chat_completion].
  split; [exact Hb|]. split; [exact Heq|]. split; [exact Hroles|exact Hlen].
Qed.

Lemma append_empty_r (s : string) : (s ++ EmptyString)%string = s.
Proof. induction s as [|c s IH]; simpl; [reflexivity|now rewrite IH]. Qed.

Lemma embeds_refl s : embeds s s.
Proof. exists EmptyString, EmptyString. simpl. now rewrite append_empty_r. Qed.

Lemma embeds_inside before whole after part :
  embeds whole part -> embeds (before ++ whole ++ after) part.
Proof.
  intros (b & a & ->). exists (before ++ b), (a ++ after).
  now rewrite !append_assoc.
Qed.

Lemma embeds_left whole after part :
  embeds whole part -> embeds (whole ++ after) part.
Proof. intros H. apply (embeds_inside EmptyString whole after part H). Qed.

Lemma embeds_right before whole part :
  embeds whole part -> embeds (before ++ whole) part.
Proof.
  intros H. rewrite <- (append_empty_r whole). now apply embeds_inside.
Qed.

Lemma join_blank_line_embeds lines l :
  In l lines -> embeds (join_blank_line lines) l.
Proof.
  induction lines as [|x tl IH]; intros Hin; [contradiction|].
  destruct tl as [|y tl'].
  - destruct Hin as [<-|[]]. apply embeds_refl.
  - change (join_blank_line (x :: y :: tl'))
      with (x ++ nl ++ nl ++ join_blank_line (y :: tl'))%string.
    destruct Hin as [<-|Hin].
    + apply embeds_left, embeds_refl.
    + apply embeds_right, embeds_right, embeds_right, IH, Hin.
Qed.

Lemma feedbackPrompt_embeds_transcript sc msgs :
  embeds (feedbackPrompt sc msgs) (conversationText msgs).
Proof.
  exists ("You are an expert communication coach evaluating a practice conversation."
          ++ nl ++ nl ++ "Scenario: " ++ scenario.title sc ++ nl
          ++ "Objective: " ++ scenario.objective sc ++ nl ++ nl
          ++ "Conversation:" ++ nl).
  eexists. unfold feedbackPrompt. repeat rewrite append_assoc. reflexivity.
Qed.

Lemma embeds_trans a b c : embeds a b -> embeds b c -> embeds a c.
Proof. intros (x & y & ->) H. now apply embeds_inside. Qed.

(** X14. The evaluation request always has two messages, the fixed system
    message and one user message holding the evaluation prompt; and the prompt
    contains, for every message read for the session, the line that renders
    it: [User: ] before the content of a row of role [user], [Coach: ] before
    the content of any other row.  No turn of the conversation is left out of
    what the model evaluates. *)
Theorem evaluation_prompt_holds_every_turn
    (env : Env) (d : Store) (req : Request FeedbackRequest) (r : completion_request) :
  In (EvFetch r) (trace (snd (run (feedback env req) d))) ->
  exists f prompt,
    json_body req = Some f /\
    messages r =
      [ mkMessage "system"
          "You are an expert communication coach providing constructive feedback.";
        mkMessage "user" prompt ] /\
    forall m, In m (messages_of d (feedback_session_id f)) ->
      embeds prompt
        ((if String.eqb (message.role m) "user" then "User" else "Coach")
         ++ ": " ++ message.content m).
Proof.
  intros Hin.
  apply feedback_model_call_inv in Hin as (f & k & s & sc & Hreach & ->).
  destruct Hreach as (_ & _ & [_ Hb] & _).
  exists f. eexists. split; [exact Hb|]. split; [reflexivity|].
  intros m Hm.
  eapply embeds_trans; [apply feedbackPrompt_embeds_transcript|].
  unfold conversationText. apply join_blank_line_embeds.
  apply in_map_iff. exists m. split; [reflexivity|exact Hm].
Qed.

Lemma evaluation_prompt_holds_every_turn_witness :
  exists f prompt,
    json_body (Demo.post (mkFeedbackRequest "s-1")) = Some f /\
    messages (feedback_completion "sk-test"
                (feedbackPrompt Demo.interview [Demo.greeting; Demo.answer])) =
      [ mkMessage "system"
          "You are an expert communication coach providing constructive feedback.";
        mkMessage "user" prompt ] /\
    embeds prompt "User: I am a software engineer.".
Proof.
  destruct (evaluation_prompt_holds_every_turn
              (Demo.env_with (Completion [Some Demo.well_formed_payload])) Demo.store2
              (Demo.post (mkFeedbackRequest "s-1"))
              (feedback_completion "sk-test"
                 (feedbackPrompt Demo.interview [Demo.greeting; Demo.answer])))
    as (f & prompt & Hb & Hm & Hall).
  - vm_compute. right. right. left. reflexivity.
  - exists f, prompt. split; [exact Hb|]. split; [exact Hm|].
    injection Hb as <-.
    apply (Hall Demo.answer). vm_compute. right. left. reflexivity.
Defined.

Lemma only_turn_roles_follow_the_system_message_witness :
  exists c prompt rest,
    json_body (Demo.post (mkChatRequest "s-1" "And then I moved to Lisbon." None)) = Some c /\
    messages
      (chat_completion "sk-test"
         (openaiMessages Demo.interview [Demo.greeting; Demo.answer]
            (mkChatRequest "s-1" "And then I moved to Lisbon." None)))
    = mkMessage "system" prompt :: rest /\
    Forall turn_role rest.
Proof.
  destruct (only_turn_roles_follow_the_system_message
              (Demo.env_with (Completion [Some "I see."])) Demo.store2
              (Demo.post (mkChatRequest "s-1" "And then I moved to Lisbon." None))
              (chat_completion "sk-test"
                 (openaiMessages Demo.interview [Demo.greeting; Demo.answer]
                    (mkChatRequest "s-1" "And then I moved to Lisbon." None))))
    as (c & prompt & rest & Hb & Hm & Hr & _).
  - vm_compute. right. right. left. reflexivity.
  - exists c, prompt, rest. split; [exact Hb|]. split; [exact Hm|exact Hr].
Defined.

(** ** What is stored of the model's reply *)

Lemma sent_members_of_three a b c :
  let members :=
    sent_members [("clarity", a); ("empathy", b); ("assertiveness", c)] in
  incl (map fst members) score_names /\ NoDup (map fst members) /\
  (forall name v, In (name, v) members ->
     (name = "clarity" /\ option_map stringified a = Some v) \/
     (name = "empathy" /\ option_map stringified b = Some v) \/
     (name = "assertiveness" /\ option_map stringified c = Some v)) /\
  (forall x, a = Some x -> In ("clarity", stringified x) members) /\
  (forall x, b = Some x -> In ("empathy", stringified x) members) /\
  (forall x, c = Some x -> In ("assertiveness", stringified x) members).
Proof.
  unfold score_names, sent_members.
  destruct a, b, c; cbn [defined_members map fst snd option_map];
    (split; [intros x Hx; simpl in *; intuition|]);
    (split; [repeat constructor; simpl; intuition discriminate|]);
    (split;
     [ intros name v Hin; simpl in Hin;
       repeat (destruct Hin as [Hin|Hin]; [injection Hin as <- <-; auto 6|]);
       contradiction |]);
    repeat split; intros x Hx; try discriminate Hx; injection Hx as <-;
    simpl; auto 6.
Qed.

(** X15. The scores stored with a feedback row never hold anything but the
    three fields the handler reads: whatever else the model's JSON carries is
    dropped.  For every run that answers with a stored record, the record's
    scores are an object whose keys are among [clarity], [empathy] and
    [assertiveness], each at most once; a key is there exactly when the
    model's parsed reply has that field, and its value is what
    [JSON.stringify] wrote for the field's value: the value itself, but for
    a number beyond the range of the doubles, which is stored as [null]. *)
Theorem only_three_scores_are_kept
    (env : Env) (d : Store) (req : Request FeedbackRequest)
    (row : feedback.row) (w : World) :
  run (feedback env req) d = (Return (mkResponse 200 json_headers (FeedbackBody row)), w) ->
  exists members r content rest v,
    In (EvFetch r) (trace w) /\
    fetch env r = Completion (content :: rest) /\
    JSON_parse (feedback_text content) = Some v /\
    feedback.scores row = JObj members /\
    incl (map fst members) score_names /\
    NoDup (map fst members) /\
    (forall name value, In (name, value) members ->
       exists x, field v name = Some x /\ value = stringified x) /\
    (forall name x, In name score_names -> field v name = Some x ->
       In (name, stringified x) members).
Proof.
  intros Hrun.
  apply feedback_run_went_through in Hrun
    as (f & k & s & sc & content & v & Hgo & -> & ->).
  destruct Hgo as (_ & _ & _ & _ & _ & _ & _ & _ & [rest Hfetch] & Hparse & _).
  destruct (sent_members_of_three (field v "clarity") (field v "empathy")
              (field v "assertiveness")) as (Hincl & Hnodup & Hval & Hc & He & Ha).
  eexists. eexists. exists content, rest, v.
  split; [cbn [trace feedback_trace In]; right; right; left; reflexivity|].
  split; [exact Hfetch|]. split; [exact Hparse|].
  split; [reflexivity|]. split; [exact Hincl|]. split; [exact Hnodup|].
  split.
  - intros name value Hin.
    destruct (Hval name value Hin) as [[-> H]|[[-> H]|[-> H]]].
    all: match type of H with
         | option_map _ ?o = _ => destruct o as [x|]; [|discriminate H]
         end.
    all: injection H as <-; exists x; split; reflexivity.
  - intros name x Hin Hx. unfold score_names in Hin.
    destruct Hin as [<-|[<-|[<-|[]]]]; auto.
Qed.

Lemma only_three_scores_are_kept_witness :
  exists members,
    feedback.scores
      (feedback.mk 1 "s-1" (JStr "ok")
         (JObj [("clarity", int 4); ("assertiveness", int 5)])
         (JStr "practise") 5001) = JObj members /\
    incl (map fst members) score_names.
Proof.
  destruct (only_three_scores_are_kept
              (Demo.env_with (Completion [Some Replies.with_tone])) Demo.store2
              (Demo.post (mkFeedbackRequest "s-1"))
              (feedback.mk 1 "s-1" (JStr "ok")
                 (JObj [("clarity", int 4); ("assertiveness", int 5)])
                 (JStr "practise") 5001)
              (snd (run (feedback (Demo.env_with (Completion [Some Replies.with_tone]))
                           (Demo.post (mkFeedbackRequest "s-1"))) Demo.store2))
              ltac:(vm_compute; reflexivity))
    as (members & r & content & rest & v & _ & _ & _ & Hs & Hincl & _).
  exists members. split; [exact Hs|exact Hincl].
Defined.

(** ** When a chat request goes through *)

Lemma chat_run_to_the_model env d req c k s sc :
  chat_reaches_model env d req c k s sc ->
  run (chat env req) d =
    match fetch env (chat_completion k
                       (openaiMessages sc (history_read env d (session_id c)) c)) with
    | Completion (reply :: _) =>
        (Return (mkResponse 200 json_headers (MessageBody reply)),
         mkWorld d (chat_trace env d c k sc))
    | Completion [] =>
        (Return (error_response env (RuntimeError (ReadOfUndefined "message"))),
         mkWorld d (chat_trace env d c k sc ++
                    [EvConsoleError "Chat error:"
                       (RuntimeError (ReadOfUndefined "message"))])%list)
    | Failure errorText =>
        (Return (error_response env (Error ("OpenAI API error: " ++ errorText))),
         mkWorld d (chat_trace env d c k sc ++
                    [EvConsoleError "Chat error:"
                       (Error ("OpenAI API error: " ++ errorText))])%list)
    | Rejected =>
        (Return (error_response env (RuntimeError FetchRejected)),
         mkWorld d (chat_trace env d c k sc ++
                    [EvConsoleError "Chat error:" (RuntimeError FetchRejected)])%list)
    end.
Proof.
  intros (Hc & Hk & [Hm Hb] & Hf & Hs & Hsc).
  apply configured_inv in Hc as (k' & Hk' & Ht & Hcc).
  rewrite Hk in Hk'. injection Hk' as <-.
  unfold chat_trace, history_read.
  known_path.
  destruct (db_fault env SelectMessages); known_path.
  all: match goal with
       | |- context [fetch ?e ?r] => destruct (fetch e r) as [| |[|? ?]]
       end; reflexivity.
Qed.

(** X16. A chat request is answered 200 exactly when the secrets are set,
    the POST body is read, the session resolves to one row with a scenario,
    and the model endpoint answers with at least one choice; the reply sent
    back is the content of the first choice, [null] included, and the run has
    made the two queries and the one model call and left the store as it
    was.  A failing message query does not prevent it. *)
Theorem chat_succeeds_exactly_when
    (env : Env) (d : Store) (req : Request ChatRequest)
    (reply : option string) (w : World) :
  run (chat env req) d = (Return (mkResponse 200 json_headers (MessageBody reply)), w)
  <->
  exists c k s sc rest,
    chat_reaches_model env d req c k s sc /\
    fetch env (chat_completion k
                 (openaiMessages sc (history_read env d (session_id c)) c))
    = Completion (reply :: rest) /\
    w = mkWorld d (chat_trace env d c k sc).
Proof.
  split.
  - intros Hrun.
    assert (Hin : exists r, In (EvFetch r) (trace (snd (run (chat env req) d)))).
    { revert Hrun. all_paths; unfold preflight, error_response; intros Hrun;
        try discriminate Hrun.
      all: eexists; cbn [app In]; right; right; left; reflexivity. }
    destruct Hin as [r Hin].
    apply chat_model_call_inv in Hin as (c & k & s & sc & Hreach & ->).
    rewrite (chat_run_to_the_model _ _ _ _ _ _ _ Hreach) in Hrun.
    exists c, k, s, sc.
    destruct (fetch env _) as [| |[|reply' rest]];
      unfold error_response in Hrun; try discriminate Hrun.
    injection Hrun as <- <-. exists rest. split; [exact Hreach|]. split; reflexivity.
  - intros (c & k & s & sc & rest & Hreach & Hfetch & ->).
    rewrite (chat_run_to_the_model _ _ _ _ _ _ _ Hreach), Hfetch. reflexivity.
Qed.

Lemma chat_succeeds_exactly_when_witness :
  run (chat (Demo.env_with (Completion [None]))
            (Demo.post (mkChatRequest "s-1" "And then?" None))) Demo.store2 =
    (Return (mkResponse 200 json_headers (MessageBody None)),
     mkWorld Demo.store2
       (chat_trace (Demo.env_with (Completion [None])) Demo.store2
          (mkChatRequest "s-1" "And then?" None) "sk-test" Demo.interview)).
Proof.
  apply (proj2 (chat_succeeds_exactly_when
                  (Demo.env_with (Completion [None])) Demo.store2
                  (Demo.post (mkChatRequest "s-1" "And then?" None)) None _)).
  exists (mkChatRequest "s-1" "And then?" None), "sk-test", Demo.s1, Demo.interview, [].
  split; [|split; reflexivity].
  unfold chat_reaches_model, is_post. repeat split; reflexivity.
Defined.


(** * Properties of the chat page *)

Lemma chat_keeps_store env req d : db (snd (run (chat env req) d)) = d.
Proof. all_paths; reflexivity. Qed.

Lemma chat_run_shape env req d :
  exists resp t, run (chat env req) d = (Return resp, mkWorld d t).
Proof. all_paths; eexists; eexists; reflexivity. Qed.

(** X17. [sendMessage] returns at once, leaving the store, the state and the
    screen untouched and calling nothing, when the page is already sending or
    when the text is blank once trimmed and the call is not the opening one. *)
Theorem blank_or_busy_send_does_nothing
    (env : ChatInterface.PageEnv) (sessionId content : string) (isInitial : bool)
    (p : ChatInterface.Page) :
  ChatInterface.loading (ChatInterface.state p) = true \/
  (ChatInterface.trim env content = EmptyString /\ isInitial = false) ->
  ChatInterface.sendMessage env sessionId content isInitial p = (ChatInterface.Done tt, p).
Proof.
  intros [H|[H ->]]; unfold ChatInterface.sendMessage; rewrite H.
  - now rewrite orb_true_r.
  - reflexivity.
Qed.

Lemma blank_or_busy_send_does_nothing_witness :
  ChatInterface.sendMessage
    (Visit.env_of (Some "u-1") ChatInterface.Forwarded (Completion [Some "I see."]))
    "s-1" "   " false (Visit.chatting Demo.store2)
  = (ChatInterface.Done tt, Visit.chatting Demo.store2).
Proof.
  apply blank_or_busy_send_does_nothing. right. split; reflexivity.
Defined.

(** X18. A [sendMessage] that gets past its guard never throws and always
    ends with [loading] and [typingIndicator] off; it leaves the scenario,
    session and feedback tables as they were, keeps every message row there
    was, in place, and adds at most two after them. *)
Theorem send_always_settles
    (env : ChatInterface.PageEnv) (sessionId content : string) (isInitial : bool)
    (p : ChatInterface.Page) :
  send_guard env content isInitial p = false ->
  exists p',
    ChatInterface.sendMessage env sessionId content isInitial p = (ChatInterface.Done tt, p') /\
    ChatInterface.loading (ChatInterface.state p') = false /\
    ChatInterface.typingIndicator (ChatInterface.state p') = false /\
    scenario_table (ChatInterface.store p') = scenario_table (ChatInterface.store p) /\
    session_table (ChatInterface.store p') = session_table (ChatInterface.store p) /\
    feedback_table (ChatInterface.store p') = feedback_table (ChatInterface.store p) /\
    exists added,
      message_table (ChatInterface.store p') =
        (message_table (ChatInterface.store p) ++ added)%list /\
      (length added <= 2)%nat.
Proof.
  destruct p as [d [ms inp ld ty ini] shown fl]. unfold send_guard.
  cbn [ChatInterface.state ChatInterface.loading]. intros Hg.
  unfold ChatInterface.sendMessage. cbn [ChatInterface.state ChatInterface.loading].
  rewrite Hg.
  page_paths chat_run_shape.
  all: eexists; (split; [reflexivity|]); cbn [db message_table].
  all: repeat (split; [reflexivity|]).
  all: first [ exists []; split; [now rewrite app_nil_r|simpl; lia]
             | eexists; split; [rewrite <- ?app_assoc; reflexivity|simpl; lia] ].
Qed.

Lemma send_always_settles_witness :
  exists p',
    ChatInterface.sendMessage
      (Visit.env_of (Some "u-1") ChatInterface.Unreachable Rejected)
      "s-1" "Hello" false (Visit.chatting Demo.store2)
    = (ChatInterface.Done tt, p') /\
    ChatInterface.loading (ChatInterface.state p') = false.
Proof.
  destruct (send_always_settles
              (Visit.env_of (Some "u-1") ChatInterface.Unreachable Rejected)
              "s-1" "Hello" false (Visit.chatting Demo.store2) eq_refl)
    as (p' & Hrun & Hl & _).
  exists p'. split; [exact Hrun|exact Hl].
Defined.

(** X19. A send of a text that is not blank, from a page that is not
    sending, by the owner of the session, with a sound store, a function that
    runs and answers 200 with a reply: the user's trimmed text is stored as a
    [user] row first, the function is then called on the store holding that
    row, and the reply is stored as an [assistant] row; the page's list gains
    the same two rows in this order, the input is cleared, and the tip is
    shown only when the page's list was empty. *)
Theorem sent_message_stores_both_turns
    (env : ChatInterface.PageEnv) (sessionId content reply : string)
    (p : ChatInterface.Page) (hs : list (string * string)) (w : World) :
  send_guard env content false p = false ->
  ChatInterface.page_fault env ChatInterface.InsertUserMessage = None ->
  ChatInterface.page_fault env ChatInterface.InsertAssistantMessage = None ->
  Policy.owns_session (ChatInterface.store p) (ChatInterface.uid env) sessionId = true ->
  ChatInterface.chat_gateway env = ChatInterface.Forwarded ->
  run (chat (ChatInterface.function_env env) (posted env sessionId content false))
      (with_message (ChatInterface.store p) (user_row env sessionId content))
  = (Return (mkResponse 200 hs (MessageBody (Some reply))), w) ->
  exists p',
    ChatInterface.sendMessage env sessionId content false p = (ChatInterface.Done tt, p') /\
    message_table (ChatInterface.store p') =
      (message_table (ChatInterface.store p)
       ++ [user_row env sessionId content; assistant_row env sessionId reply])%list /\
    ChatInterface.messages (ChatInterface.state p') =
      (ChatInterface.messages (ChatInterface.state p)
       ++ [user_row env sessionId content; assistant_row env sessionId reply])%list /\
    ChatInterface.input (ChatInterface.state p') = EmptyString /\
    ChatInterface.ui p' =
      (ChatInterface.ui p
       ++ match ChatInterface.messages (ChatInterface.state p) with
          | [] => [ChatInterface.ShowTip ChatInterface.first_message_tip]
          | _ => []
          end)%list /\
    ChatInterface.function_log p' = (ChatInterface.function_log p ++ trace w)%list.
Proof.
  destruct p as [d [ms inp ld ty ini] shown fl].
  intros Hg Hf1 Hf2 Hown Hgw Hrun.
  pose proof (chat_keeps_store (ChatInterface.function_env env)
                (posted env sessionId content false)
                (with_message d (user_row env sessionId content))) as Hkeep.
  cbn [ChatInterface.store] in Hrun. rewrite Hrun in Hkeep. cbn [snd] in Hkeep.
  destruct w as [dw tw]. cbn [db] in Hkeep. subst dw.
  reduce_page_in Hg. reduce_page_in Hown. reduce_page_in Hrun.
  assert (Hr1 : ChatInterface.message_refusal env d ChatInterface.InsertUserMessage
                  sessionId (Some (ChatInterface.trim env content)) = None).
  { unfold ChatInterface.message_refusal. now rewrite Hf1, Hown. }
  assert (Hr2 : forall d', session_table d' = session_table d ->
                ChatInterface.message_refusal env d' ChatInterface.InsertAssistantMessage
                  sessionId (Some reply) = None).
  { intros d' Hd'. unfold ChatInterface.message_refusal, Policy.owns_session in *.
    now rewrite Hf2, Hd', Hown. }
  unfold ChatInterface.sendMessage. reduce_page. rewrite Hg. cbn [negb]. reduce_page.
  rewrite Hr1. reduce_page.
  destruct ms as [|m0 ms']; cbn [length Nat.eqb]; reduce_page.
  all: rewrite Hgw; reduce_page; rewrite Hrun; reduce_page.
  all: change (ChatInterface.ok _) with true; cbn [negb]; reduce_page.
  all: erewrite Hr2 by reflexivity; reduce_page.
  all: eexists; (split; [reflexivity|]); cbn [db message_table trace].
  all: rewrite <- ?app_assoc; repeat split; try reflexivity.
  all: try now rewrite app_nil_r.
Qed.

Lemma sent_message_stores_both_turns_witness :
  exists p',
    ChatInterface.sendMessage
      (Visit.env_of (Some "u-1") ChatInterface.Forwarded (Completion [Some "I see."]))
      "s-1" "  And then I moved to Lisbon. " false (Visit.chatting Demo.store2)
    = (ChatInterface.Done tt, p') /\
    message_table (ChatInterface.store p') =
      [Demo.answer; Demo.greeting;
       message.mk "s-1" "user" "And then I moved to Lisbon." 50;
       message.mk "s-1" "assistant" "I see." 60].
Proof.
  destruct (sent_message_stores_both_turns
              (Visit.env_of (Some "u-1") ChatInterface.Forwarded (Completion [Some "I see."]))
              "s-1" "  And then I moved to Lisbon. " "I see."
              (Visit.chatting Demo.store2) json_headers
              (snd (run (chat (Demo.env_with (Completion [Some "I see."]))
                           (posted
                              (Visit.env_of (Some "u-1") ChatInterface.Forwarded
                                 (Completion [Some "I see."]))
                              "s-1" "  And then I moved to Lisbon. " false))
                        (with_message Demo.store2
                           (user_row
                              (Visit.env_of (Some "u-1") ChatInterface.Forwarded
                                 (Completion [Some "I see."]))
                              "s-1" "  And then I moved to Lisbon. "))))
              eq_refl eq_refl eq_refl eq_refl eq_refl
              ltac:(vm_compute; reflexivity))
    as (p' & Hrun & Htable & _).
  exists p'. split; [exact Hrun|exact Htable].
Defined.

Lemma doubled_in_prompt sc hist sid text u :
  truthy_string text = true ->
  In u hist -> message.role u = "user" -> message.content u = text ->
  exists before,
    openaiMessages sc hist (mkChatRequest sid text (Some false)) =
      (before ++ [mkMessage "user" text])%list /\
    In (mkMessage "user" text) before.
Proof.
  intros Ht Hin Hrole Hcontent. unfold openaiMessages.
  cbn [is_initial user_message truthy_flag negb andb]. rewrite Ht.
  eexists. split; [reflexivity|]. right.
  apply in_map_iff. exists u. split; [|exact Hin].
  unfold history_message. now rewrite Hrole, Hcontent.
Qed.

(** X20. The user's text reaches the model twice.  [sendMessage] stores the
    text before it calls the function and also passes it as [user_message];
    the function reads the stored messages, the new row among them, and
    appends [user_message] after them.  So, when the function's message query
    is sound, every request to the model made during a send that is not the
    opening one ends with the user's trimmed text as a [user] message and
    holds the same message once more before it. *)
Theorem sent_text_reaches_the_model_twice
    (env : ChatInterface.PageEnv) (sessionId content : string) (p : ChatInterface.Page) :
  db_fault (ChatInterface.function_env env) SelectMessages = None ->
  exists t,
    ChatInterface.function_log
      (snd (ChatInterface.sendMessage env sessionId content false p))
    = (ChatInterface.function_log p ++ t)%list /\
    forall r, In (EvFetch r) t ->
      exists before,
        messages r = (before ++ [mkMessage "user" (ChatInterface.trim env content)])%list /\
        In (mkMessage "user" (ChatInterface.trim env content)) before.
Proof.
  destruct p as [d [ms inp ld ty ini] shown fl]. intros Hfault.
  unfold ChatInterface.sendMessage. cbn [negb].
  page_paths chat_run_shape.
  all: first [ exists []; split; [now rewrite app_nil_r|intros r []]
             | eexists; split; [reflexivity|] ].
  all: intros r Hin.
  all: match goal with
       | H : run (chat ?e ?q) ?d1 = (_, {| db := _; trace := ?t |}) |- _ =>
           assert (Hin' : In (EvFetch r) (trace (snd (run (chat e q) d1))))
             by (rewrite H; exact Hin);
           apply chat_model_call_inv in Hin' as (? & ? & ? & ? & Hreach & ->);
           destruct Hreach as (_ & _ & [_ Hb] & _);
           cbn [json_body] in Hb; injection Hb as <-
       end.
  all: cbn [messages chat_completion session_id]; unfold history_read; rewrite Hfault.
  all: match goal with
       | Hg : (_ || _)%bool = false |- _ =>
           apply orb_false_iff in Hg as [Hg _];
           rewrite andb_true_r in Hg; apply negb_false_iff in Hg
       end.
  all: eapply doubled_in_prompt; [eassumption| | |];
       [apply messages_of_in; cbn [message_table]; split;
        [apply in_or_app; right; left; reflexivity|reflexivity]
       |reflexivity|reflexivity].
Qed.

Lemma sent_text_reaches_the_model_twice_witness :
  exists before,
    messages
      (chat_completion "sk-test"
         (openaiMessages Demo.interview
            [Demo.greeting; Demo.answer;
             message.mk "s-1" "user" "And then I moved to Lisbon." 50]
            (mkChatRequest "s-1" "And then I moved to Lisbon." (Some false))))
    = (before ++ [mkMessage "user" "And then I moved to Lisbon."])%list /\
    In (mkMessage "user" "And then I moved to Lisbon.") before.
Proof.
  destruct (sent_text_reaches_the_model_twice
              (Visit.env_of (Some "u-1") ChatInterface.Forwarded (Completion [Some "I see."]))
              "s-1" "  And then I moved to Lisbon. " (Visit.chatting Demo.store2) eq_refl)
    as (t & Hlog & Hall).
  apply (Hall (chat_completion "sk-test"
                 (openaiMessages Demo.interview
                    [Demo.greeting; Demo.answer;
                     message.mk "s-1" "user" "And then I moved to Lisbon." 50]
                    (mkChatRequest "s-1" "And then I moved to Lisbon." (Some false))))).
  vm_compute in Hlog. subst t.
  right. right. left. reflexivity.
Defined.

(** X21. A send never loses the user's text, and says so when the reply is
    missing.  Once the store has accepted the user's row, the send ends in one
    of two ways: the message table and the page's list have gained the user's
    row and, after it, an [assistant] row holding the function's reply; or
    they have gained the user's row alone, and the page has logged the error
    and shown the toast [Failed to send message. Please try again.].  In both
    cases the input is cleared. *)
Theorem send_keeps_the_user_text
    (env : ChatInterface.PageEnv) (sessionId content : string) (p : ChatInterface.Page) :
  send_guard env content false p = false ->
  ChatInterface.message_refusal env (ChatInterface.store p)
    ChatInterface.InsertUserMessage sessionId (Some (ChatInterface.trim env content)) = None ->
  exists p',
    ChatInterface.sendMessage env sessionId content false p = (ChatInterface.Done tt, p') /\
    ChatInterface.input (ChatInterface.state p') = EmptyString /\
    ((exists reply,
        message_table (ChatInterface.store p') =
          (message_table (ChatInterface.store p)
           ++ [user_row env sessionId content; assistant_row env sessionId reply])%list /\
        ChatInterface.messages (ChatInterface.state p') =
          (ChatInterface.messages (ChatInterface.state p)
           ++ [user_row env sessionId content; assistant_row env sessionId reply])%list) \/
     (message_table (ChatInterface.store p') =
        (message_table (ChatInterface.store p) ++ [user_row env sessionId content])%list /\
      ChatInterface.messages (ChatInterface.state p') =
        (ChatInterface.messages (ChatInterface.state p)
         ++ [user_row env sessionId content])%list /\
      send_failed (ChatInterface.ui p) (ChatInterface.ui p'))).
Proof.
  destruct p as [d [ms inp ld ty ini] shown fl]. intros Hg Href.
  reduce_page_in Hg. reduce_page_in Href.
  unfold ChatInterface.sendMessage. reduce_page. rewrite Hg. cbn [negb]. reduce_page.
  rewrite Href.
  page_paths chat_run_shape.
  all: eexists; (split; [reflexivity|]); (split; [reflexivity|]); cbn [db message_table].
  all: rewrite <- ?app_assoc.
  all: first
    [ right; split; [reflexivity|]; split; [reflexivity|];
      unfold send_failed;
      first [ eexists [], _; reflexivity
            | eexists [_], _; reflexivity ]
    | left; eexists; split; reflexivity ].
Qed.

Lemma send_keeps_the_user_text_witness :
  exists p',
    ChatInterface.sendMessage
      (Visit.env_of (Some "u-1") ChatInterface.Unreachable Rejected)
      "s-1" "  And then I moved to Lisbon. " false (Visit.chatting Demo.store2)
    = (ChatInterface.Done tt, p') /\
    ChatInterface.input (ChatInterface.state p') = EmptyString.
Proof.
  destruct (send_keeps_the_user_text
              (Visit.env_of (Some "u-1") ChatInterface.Unreachable Rejected)
              "s-1" "  And then I moved to Lisbon. " (Visit.chatting Demo.store2)
              eq_refl eq_refl)
    as (p' & Hrun & Hin & _).
  exists p'. split; [exact Hrun|exact Hin].
Defined.

(** X22. Somebody who does not own the session cannot add to it from the
    page: the policy of the message table refuses the user's row (or a fault
    of the store does), so the send stores nothing, never calls the chat
    function, leaves the page's list and input as they were, logs the store's
    error and shows the toast of a failed send. *)
Theorem stranger_cannot_send
    (env : ChatInterface.PageEnv) (sessionId content : string) (p : ChatInterface.Page) :
  send_guard env content false p = false ->
  Policy.owns_session (ChatInterface.store p) (ChatInterface.uid env) sessionId = false ->
  exists p' refusal,
    ChatInterface.sendMessage env sessionId content false p = (ChatInterface.Done tt, p') /\
    ChatInterface.store p' = ChatInterface.store p /\
    ChatInterface.function_log p' = ChatInterface.function_log p /\
    ChatInterface.messages (ChatInterface.state p') =
      ChatInterface.messages (ChatInterface.state p) /\
    ChatInterface.input (ChatInterface.state p') = ChatInterface.input (ChatInterface.state p) /\
    ChatInterface.ui p' =
      (ChatInterface.ui p
       ++ [ChatInterface.ConsoleError "Error sending message:"
             (ChatInterface.StoreError refusal);
           ChatInterface.ShowToast "Failed to send message. Please try again." "error"])%list /\
    (ChatInterface.page_fault env ChatInterface.InsertUserMessage = None ->
     refusal = ChatInterface.policy_violation).
Proof.
  destruct p as [d [ms inp ld ty ini] shown fl]. intros Hg Hown.
  reduce_page_in Hg. reduce_page_in Hown.
  unfold ChatInterface.sendMessage. reduce_page. rewrite Hg. cbn [negb]. reduce_page.
  unfold ChatInterface.message_refusal. rewrite Hown.
  destruct (ChatInterface.page_fault env ChatInterface.InsertUserMessage) as [m|];
    reduce_page; eexists; eexists; repeat (split; [reflexivity|]);
    rewrite <- app_assoc; (split; [reflexivity|]).
  - discriminate.
  - reflexivity.
Qed.

Lemma stranger_cannot_send_witness :
  exists p',
    ChatInterface.sendMessage
      (Visit.env_of (Some "u-2") ChatInterface.Forwarded (Completion [Some "I see."]))
      "s-1" "Hello" false (Visit.chatting Demo.store2)
    = (ChatInterface.Done tt, p') /\
    ChatInterface.store p' = Demo.store2.
Proof.
  destruct (stranger_cannot_send
              (Visit.env_of (Some "u-2") ChatInterface.Forwarded (Completion [Some "I see."]))
              "s-1" "Hello" (Visit.chatting Demo.store2) eq_refl eq_refl)
    as (p' & refusal & Hrun & Hstore & _).
  exists p'. split; [exact Hrun|exact Hstore].
Defined.

Lemma accepted_row_is_the_owners env d op sessionId content :
  ChatInterface.message_refusal env d op sessionId content = None ->
  Policy.owns_session d (ChatInterface.uid env) sessionId = true.
Proof.
  unfold ChatInterface.message_refusal.
  destruct (ChatInterface.page_fault env op); [discriminate|].
  now destruct (Policy.owns_session d (ChatInterface.uid env) sessionId).
Qed.

(** X23. When the chat function answers 200 with no text (the model's first
    choice had a null content), the page asks the store for an [assistant]
    row with a null [content]; the NOT NULL constraint of the column refuses
    it.  The user's row stays the last one in the table and in the page's
    list, and the page logs the constraint's error and shows the toast of a
    failed send. *)
Theorem reply_without_text_is_not_stored
    (env : ChatInterface.PageEnv) (sessionId content : string)
    (p : ChatInterface.Page) (hs : list (string * string)) (w : World) :
  send_guard env content false p = false ->
  ChatInterface.message_refusal env (ChatInterface.store p)
    ChatInterface.InsertUserMessage sessionId (Some (ChatInterface.trim env content)) = None ->
  ChatInterface.page_fault env ChatInterface.InsertAssistantMessage = None ->
  ChatInterface.chat_gateway env = ChatInterface.Forwarded ->
  run (chat (ChatInterface.function_env env) (posted env sessionId content false))
      (with_message (ChatInterface.store p) (user_row env sessionId content))
  = (Return (mkResponse 200 hs (MessageBody None)), w) ->
  exists p',
    ChatInterface.sendMessage env sessionId content false p = (ChatInterface.Done tt, p') /\
    message_table (ChatInterface.store p') =
      (message_table (ChatInterface.store p) ++ [user_row env sessionId content])%list /\
    ChatInterface.messages (ChatInterface.state p') =
      (ChatInterface.messages (ChatInterface.state p)
       ++ [user_row env sessionId content])%list /\
    ChatInterface.ui p' =
      (ChatInterface.ui p
       ++ match ChatInterface.messages (ChatInterface.state p) with
          | [] => [ChatInterface.ShowTip ChatInterface.first_message_tip]
          | _ => []
          end
       ++ [ChatInterface.ConsoleError "Error sending message:"
             (ChatInterface.StoreError ChatInterface.content_violation);
           ChatInterface.ShowToast "Failed to send message. Please try again." "error"])%list.
Proof.
  destruct p as [d [ms inp ld ty ini] shown fl].
  intros Hg Hr1 Hf2 Hgw Hrun.
  pose proof (accepted_row_is_the_owners _ _ _ _ _ Hr1) as Hown.
  pose proof (chat_keeps_store (ChatInterface.function_env env)
                (posted env sessionId content false)
                (with_message d (user_row env sessionId content))) as Hkeep.
  cbn [ChatInterface.store] in Hrun. rewrite Hrun in Hkeep. cbn [snd] in Hkeep.
  destruct w as [dw tw]. cbn [db] in Hkeep. subst dw.
  reduce_page_in Hg. reduce_page_in Hown. reduce_page_in Hrun. reduce_page_in Hr1.
  assert (Hr2 : forall d', session_table d' = session_table d ->
                ChatInterface.message_refusal env d' ChatInterface.InsertAssistantMessage
                  sessionId None = Some ChatInterface.content_violation).
  { intros d' Hd'. unfold ChatInterface.message_refusal, Policy.owns_session in *.
    now rewrite Hf2, Hd', Hown. }
  unfold ChatInterface.sendMessage. reduce_page. rewrite Hg. cbn [negb]. reduce_page.
  rewrite Hr1. reduce_page.
  destruct ms as [|m0 ms']; cbn [length Nat.eqb]; reduce_page.
  all: rewrite Hgw; reduce_page; rewrite Hrun; reduce_page.
  all: change (ChatInterface.ok _) with true; cbn [negb]; reduce_page.
  all: erewrite Hr2 by reflexivity; reduce_page.
  all: eexists; (split; [reflexivity|]); cbn [db message_table trace].
  all: rewrite <- ?app_assoc; repeat split; try reflexivity.
Qed.

Lemma reply_without_text_is_not_stored_witness :
  exists p',
    ChatInterface.sendMessage
      (Visit.env_of (Some "u-1") ChatInterface.Forwarded (Completion [None]))
      "s-1" "  And then I moved to Lisbon. " false (Visit.chatting Demo.store2)
    = (ChatInterface.Done tt, p') /\
    message_table (ChatInterface.store p') =
      [Demo.answer; Demo.greeting;
       message.mk "s-1" "user" "And then I moved to Lisbon." 50].
Proof.
  destruct (reply_without_text_is_not_stored
              (Visit.env_of (Some "u-1") ChatInterface.Forwarded (Completion [None]))
              "s-1" "  And then I moved to Lisbon. "
              (Visit.chatting Demo.store2) json_headers
              (snd (run (chat (Demo.env_with (Completion [None]))
                           (posted
                              (Visit.env_of (Some "u-1") ChatInterface.Forwarded
                                 (Completion [None]))
                              "s-1" "  And then I moved to Lisbon. " false))
                        (with_message Demo.store2
                           (user_row
                              (Visit.env_of (Some "u-1") ChatInterface.Forwarded
                                 (Completion [None]))
                              "s-1" "  And then I moved to Lisbon. "))))
              eq_refl eq_refl eq_refl eq_refl
              ltac:(vm_compute; reflexivity))
    as (p' & Hrun & Htable & _).
  exists p'. split; [exact Hrun|exact Htable].
Defined.

(** X24. The opening send ([isInitial] true) stores no user row and ignores
    the text it is given: the function is asked with an empty [user_message]
    and [is_initial] true, on the store as it is.  The send ends with the
    reply stored and listed as one more [assistant] row and nothing shown, or
    with the store and the list unchanged, the error logged and the toast of
    a failed send shown.  The input is left alone in both cases. *)
Theorem opening_send_stores_the_reply_alone
    (env : ChatInterface.PageEnv) (sessionId content : string) (p : ChatInterface.Page) :
  ChatInterface.loading (ChatInterface.state p) = false ->
  exists p',
    ChatInterface.sendMessage env sessionId content true p = (ChatInterface.Done tt, p') /\
    ChatInterface.sendMessage env sessionId EmptyString true p = (ChatInterface.Done tt, p') /\
    ChatInterface.input (ChatInterface.state p') = ChatInterface.input (ChatInterface.state p) /\
    ((exists reply,
        message_table (ChatInterface.store p') =
          (message_table (ChatInterface.store p) ++ [assistant_row env sessionId reply])%list /\
        ChatInterface.messages (ChatInterface.state p') =
          (ChatInterface.messages (ChatInterface.state p)
           ++ [assistant_row env sessionId reply])%list /\
        ChatInterface.ui p' = ChatInterface.ui p) \/
     (ChatInterface.store p' = ChatInterface.store p /\
      ChatInterface.messages (ChatInterface.state p') =
        ChatInterface.messages (ChatInterface.state p) /\
      send_failed (ChatInterface.ui p) (ChatInterface.ui p'))) /\
    (ChatInterface.chat_gateway env = ChatInterface.Forwarded ->
     ChatInterface.function_log p' =
       (ChatInterface.function_log p
        ++ trace (snd (run (chat (ChatInterface.function_env env)
                              (mkRequest "POST"
                                 (Some (mkChatRequest sessionId EmptyString (Some true)))))
                           (ChatInterface.store p))))%list).
Proof.
  destruct p as [d [ms inp ld ty ini] shown fl].
  cbn [ChatInterface.state ChatInterface.loading]. intros ->.
  unfold ChatInterface.sendMessage.
  cbn [ChatInterface.state ChatInterface.loading negb]. rewrite !andb_false_r.
  cbn [orb negb].
  page_paths chat_run_shape.
  all: eexists; (split; [reflexivity|]); (split; [reflexivity|]); (split; [reflexivity|]).
  all: cbn [db message_table trace].
  all: (split; [|first [discriminate | intros _; reflexivity]]).
  all: first
    [ left; eexists; repeat split; reflexivity
    | right; split; [destruct d; reflexivity|]; split; [reflexivity|];
      unfold send_failed; eexists [], _; rewrite <- ?app_assoc; reflexivity ].
Qed.

Lemma opening_send_stores_the_reply_alone_witness :
  exists p',
    ChatInterface.sendMessage
      (Visit.env_of (Some "u-1") ChatInterface.Forwarded (Completion [Some "Welcome."]))
      "s-1" "never sent" true (Visit.arriving Demo.store0)
    = (ChatInterface.Done tt, p') /\
    ChatInterface.sendMessage
      (Visit.env_of (Some "u-1") ChatInterface.Forwarded (Completion [Some "Welcome."]))
      "s-1" EmptyString true (Visit.arriving Demo.store0)
    = (ChatInterface.Done tt, p').
Proof.
  destruct (opening_send_stores_the_reply_alone
              (Visit.env_of (Some "u-1") ChatInterface.Forwarded (Completion [Some "Welcome."]))
              "s-1" "never sent" (Visit.arriving Demo.store0) eq_refl)
    as (p' & Hrun & Hsame & _).
  exists p'. split; [exact Hrun|exact Hsame].
Defined.

Lemma filter_keeps_all {A} (f : A -> bool) (l : list A) :
  (forall a, In a l -> f a = true) -> filter f l = l.
Proof.
  induction l as [|a l IH]; intros H; [reflexivity|].
  cbn [filter]. rewrite (H a (or_introl eq_refl)). f_equal.
  apply IH. intros b Hb. apply H. now right.
Qed.

Lemma filter_keeps_none {A} (f : A -> bool) (l : list A) :
  (forall a, In a l -> f a = false) -> filter f l = [].
Proof.
  induction l as [|a l IH]; intros H; [reflexivity|].
  cbn [filter]. rewrite (H a (or_introl eq_refl)).
  apply IH. intros b Hb. apply H. now right.
Qed.

(** The rows of a session that the policy lets a user read are all of them
    for its owner and none for anybody else. *)
Lemma visible_rows d uid sessionId :
  filter (Policy.view_message d uid) (messages_of d sessionId)
  = if Policy.owns_session d uid sessionId then messages_of d sessionId else [].
Proof.
  destruct (Policy.owns_session d uid sessionId) eqn:Hown.
  - apply filter_keeps_all. intros m Hm. apply messages_of_in in Hm as [_ <-]. exact Hown.
  - apply filter_keeps_none. intros m Hm. apply messages_of_in in Hm as [_ <-]. exact Hown.
Qed.

(** X25. When the owner of a session that has messages opens the chat page
    and the store answers, [loadMessages] lists exactly the rows of that
    session, oldest first, and ends the initialisation; it stores nothing,
    shows nothing and does not call the chat function. *)
Theorem owner_load_shows_the_conversation
    (env : ChatInterface.PageEnv) (sessionId : string) (p : ChatInterface.Page) :
  ChatInterface.page_fault env ChatInterface.SelectMessages = None ->
  Policy.owns_session (ChatInterface.store p) (ChatInterface.uid env) sessionId = true ->
  message_rows (ChatInterface.store p) sessionId <> [] ->
  exists listed,
    ChatInterface.loadMessages env sessionId p
    = (ChatInterface.Done tt,
       ChatInterface.mkPage (ChatInterface.store p)
         (ChatInterface.mkState listed
            (ChatInterface.input (ChatInterface.state p))
            (ChatInterface.loading (ChatInterface.state p))
            (ChatInterface.typingIndicator (ChatInterface.state p))
            false)
         (ChatInterface.ui p) (ChatInterface.function_log p)) /\
    Permutation (message_rows (ChatInterface.store p) sessionId) listed /\
    Sorted older_or_same listed.
Proof.
  destruct p as [d [ms inp ld ty ini] shown fl].
  cbn [ChatInterface.store ChatInterface.state ChatInterface.input ChatInterface.loading
       ChatInterface.typingIndicator ChatInterface.ui ChatInterface.function_log].
  intros Hf Hown Hrows.
  exists (messages_of d sessionId). split; [|split].
  - unfold ChatInterface.loadMessages. reduce_page. rewrite Hf. reduce_page.
    rewrite visible_rows, Hown.
    destruct (messages_of d sessionId) as [|m l] eqn:E.
    + exfalso. apply Hrows. apply length_zero_iff_nil.
      rewrite <- messages_of_length, E. reflexivity.
    + reflexivity.
  - apply messages_of_perm.
  - apply messages_of_sorted.
Qed.

Lemma owner_load_shows_the_conversation_witness :
  exists listed,
    ChatInterface.loadMessages
      (Visit.env_of (Some "u-1") ChatInterface.Forwarded Rejected)
      "s-1" (Visit.arriving Demo.store2)
    = (ChatInterface.Done tt,
       ChatInterface.mkPage Demo.store2
         (ChatInterface.mkState listed EmptyString false false false) [] []) /\
    Sorted older_or_same listed.
Proof.
  destruct (owner_load_shows_the_conversation
              (Visit.env_of (Some "u-1") ChatInterface.Forwarded Rejected)
              "s-1" (Visit.arriving Demo.store2) eq_refl eq_refl
              ltac:(discriminate))
    as (listed & Hrun & _ & Hsorted).
  exists listed. split; [exact Hrun|exact Hsorted].
Defined.

(** X26. [loadMessages] never throws and always ends the initialisation.  It
    leaves the scenario, session and feedback tables alone and adds at most
    one message row (the reply to the opening send).  When the query of the
    messages fails, all it does besides is to log the store's error: the
    store, the list and the function are left alone. *)
Theorem load_always_settles
    (env : ChatInterface.PageEnv) (sessionId : string) (p : ChatInterface.Page) :
  exists p',
    ChatInterface.loadMessages env sessionId p = (ChatInterface.Done tt, p') /\
    ChatInterface.initializing (ChatInterface.state p') = false /\
    scenario_table (ChatInterface.store p') = scenario_table (ChatInterface.store p) /\
    session_table (ChatInterface.store p') = session_table (ChatInterface.store p) /\
    feedback_table (ChatInterface.store p') = feedback_table (ChatInterface.store p) /\
    (exists added,
       message_table (ChatInterface.store p') =
         (message_table (ChatInterface.store p) ++ added)%list /\
       (length added <= 1)%nat) /\
    (forall m, ChatInterface.page_fault env ChatInterface.SelectMessages = Some m ->
       p' = ChatInterface.mkPage (ChatInterface.store p)
              (ChatInterface.mkState
                 (ChatInterface.messages (ChatInterface.state p))
                 (ChatInterface.input (ChatInterface.state p))
                 (ChatInterface.loading (ChatInterface.state p))
                 (ChatInterface.typingIndicator (ChatInterface.state p))
                 false)
              (ChatInterface.ui p
               ++ [ChatInterface.ConsoleError "Error loading messages:"
                     (ChatInterface.StoreError m)])%list
              (ChatInterface.function_log p)).
Proof.
  destruct p as [d [ms inp ld ty ini] shown fl].
  unfold ChatInterface.loadMessages.
  page_paths chat_run_shape.
  all: eexists; (split; [reflexivity|]); cbn [db message_table].
  all: repeat (split; [reflexivity|]).
  all: split;
    [ first [ exists []; split; [now rewrite app_nil_r|simpl; lia]
            | eexists; split; [reflexivity|simpl; lia] ]
    | intros m' Hm'; first [discriminate | now injection Hm' as ->] ].
Qed.

(** X27. When somebody who does not own the session opens its chat page, the
    policy hides every row, so the page takes the session for a new one and
    makes the opening send: the chat function runs on the session as stored
    (it does not ask who is calling), but the policy refuses the row for its
    reply.  The store and the page's list stay as they were, the
    initialisation ends, and the toast of a failed send is shown. *)
Theorem stranger_load_shows_and_stores_nothing
    (env : ChatInterface.PageEnv) (sessionId : string) (p : ChatInterface.Page) :
  ChatInterface.page_fault env ChatInterface.SelectMessages = None ->
  ChatInterface.loading (ChatInterface.state p) = false ->
  Policy.owns_session (ChatInterface.store p) (ChatInterface.uid env) sessionId = false ->
  exists p',
    ChatInterface.loadMessages env sessionId p = (ChatInterface.Done tt, p') /\
    ChatInterface.store p' = ChatInterface.store p /\
    ChatInterface.messages (ChatInterface.state p') =
      ChatInterface.messages (ChatInterface.state p) /\
    ChatInterface.initializing (ChatInterface.state p') = false /\
    send_failed (ChatInterface.ui p) (ChatInterface.ui p') /\
    (ChatInterface.chat_gateway env = ChatInterface.Forwarded ->
     ChatInterface.function_log p' =
       (ChatInterface.function_log p
        ++ trace (snd (run (chat (ChatInterface.function_env env)
                              (mkRequest "POST"
                                 (Some (mkChatRequest sessionId EmptyString (Some true)))))
                           (ChatInterface.store p))))%list).
Proof.
  destruct p as [d [ms inp ld ty ini] shown fl].
  cbn [ChatInterface.store ChatInterface.state ChatInterface.loading].
  intros Hf -> Hown.
  assert (Hr : forall d' op content, session_table d' = session_table d ->
               exists m, ChatInterface.message_refusal env d' op sessionId content = Some m).
  { intros d' op content Hd'. unfold ChatInterface.message_refusal, Policy.owns_session in *.
    rewrite Hd', Hown. destruct (ChatInterface.page_fault env op); eexists; reflexivity. }
  unfold ChatInterface.loadMessages. reduce_page. rewrite Hf. reduce_page.
  rewrite visible_rows, Hown. cbn [length Nat.eqb].
  unfold ChatInterface.sendMessage.
  cbn [ChatInterface.state ChatInterface.loading negb]. rewrite !andb_false_r.
  cbn [orb negb].
  reduce_page.
  destruct (ChatInterface.chat_gateway env) eqn:Hgw; reduce_page.
  3: destruct (chat_run_shape (ChatInterface.function_env env)
                 (mkRequest "POST" (Some (mkChatRequest sessionId EmptyString (Some true)))) d)
       as (resp & t & Hrun); rewrite Hrun; reduce_page;
     destruct (ChatInterface.ok (ChatInterface.FromFunction resp)); cbn [negb]; reduce_page;
     [destruct resp as [st hs [| |[reply|]|]]; reduce_page|].
  all: cbn [db trace].
  all: try (destruct (Hr d (ChatInterface.InsertAssistantMessage) (@None string) eq_refl)
              as (m1 & ->); reduce_page).
  all: try (destruct (Hr d (ChatInterface.InsertAssistantMessage) (Some reply) eq_refl)
              as (m2 & ->); reduce_page).
  all: eexists; (split; [reflexivity|]); cbn [db trace].
  all: (split; [destruct d; reflexivity|]); (split; [reflexivity|]); (split; [reflexivity|]).
  all: (split; [|first [discriminate | intros _; reflexivity]]).
  all: unfold send_failed; eexists [], _; rewrite <- ?app_assoc; reflexivity.
Qed.

Lemma stranger_load_shows_and_stores_nothing_witness :
  exists p',
    ChatInterface.loadMessages
      (Visit.env_of (Some "u-2") ChatInterface.Forwarded (Completion [Some "Welcome back."]))
      "s-1" (Visit.arriving Demo.store2)
    = (ChatInterface.Done tt, p') /\
    ChatInterface.store p' = Demo.store2 /\
    ChatInterface.messages (ChatInterface.state p') = [].
Proof.
  destruct (stranger_load_shows_and_stores_nothing
              (Visit.env_of (Some "u-2") ChatInterface.Forwarded
                 (Completion [Some "Welcome back."]))
              "s-1" (Visit.arriving Demo.store2) eq_refl eq_refl eq_refl)
    as (p' & Hrun & Hstore & Hlist & _).
  exists p'. split; [exact Hrun|]. split; [exact Hstore|exact Hlist].
Defined.

(** * The policies and the feedback function *)

Lemma set_status_keeps_user sid st t s :
  session.user_id (set_status sid st t s) = session.user_id s.
Proof. unfold set_status. destruct (String.eqb (session.id s) sid); reflexivity. Qed.

Lemma owns_session_spec d uid sessionId :
  Policy.owns_session d uid sessionId = true <->
  exists s, In s (session_table d) /\ session.id s = sessionId /\
            uid = Some (session.user_id s).
Proof.
  unfold Policy.owns_session. rewrite existsb_exists. split.
  - intros (s & Hin & H). apply andb_true_iff in H as [Hid Hu].
    exists s. split; [exact Hin|]. split; [now apply String.eqb_eq|].
    destruct uid as [u|]; [|discriminate]. cbn in Hu.
    apply String.eqb_eq in Hu. now subst.
  - intros (s & Hin & <- & ->). exists s. split; [exact Hin|].
    cbn. now rewrite !String.eqb_refl.
Qed.

Lemma key_gives_one_row {A B} (f : A -> B) (l : list A) a b :
  NoDup (map f l) -> In a l -> In b l -> f a = f b -> a = b.
Proof.
  induction l as [|x l IH]; cbn [map]; intros Hnd Ha Hb Hf; [contradiction|].
  inversion Hnd as [|? ? Hnot Hnd']; subst.
  destruct Ha as [->|Ha], Hb as [->|Hb].
  - reflexivity.
  - exfalso. apply Hnot. rewrite Hf. now apply in_map.
  - exfalso. apply Hnot. rewrite <- Hf. now apply in_map.
  - now apply IH.
Qed.

Lemma owns_session_one_user d a b sessionId :
  session_key d ->
  Policy.owns_session d (Some a) sessionId = true ->
  Policy.owns_session d (Some b) sessionId = true ->
  a = b.
Proof.
  intros Hkey Ha Hb.
  apply owns_session_spec in Ha as (s1 & Hin1 & Hid1 & Hu1).
  apply owns_session_spec in Hb as (s2 & Hin2 & Hid2 & Hu2).
  assert (s1 = s2) by (apply (key_gives_one_row session.id _ _ _ Hkey Hin1 Hin2); congruence).
  congruence.
Qed.

Lemma owns_session_after_update d d' sid st t :
  session_table d' = map (set_status sid st t) (session_table d) ->
  forall uid sessionId,
    Policy.owns_session d' uid sessionId = Policy.owns_session d uid sessionId.
Proof.
  intros Hd' uid sessionId. unfold Policy.owns_session. rewrite Hd'. clear Hd'.
  induction (session_table d) as [|s l IH]; [reflexivity|].
  cbn [map existsb]. now rewrite set_status_keeps_id, set_status_keeps_user, IH.
Qed.

Lemma feedback_session_table env d req :
  let d' := db (snd (run (feedback env req) d)) in
  session_table d' = session_table d \/
  exists sid st t, session_table d' = map (set_status sid st t) (session_table d).
Proof.
  all_paths; first [left; reflexivity | right; eexists; eexists; eexists; reflexivity].
Qed.

(** X28. With the session table's primary key, the policies make every
    message and every feedback row readable by one user at most: two
    signed-in users who can both read a row are the same user; and a request
    without a signed-in user reads none. *)
Theorem rows_have_one_reader (d : Store) :
  session_key d ->
  (forall a b m,
     Policy.view_message d (Some a) m = true ->
     Policy.view_message d (Some b) m = true -> a = b) /\
  (forall a b f,
     Policy.view_feedback d (Some a) f = true ->
     Policy.view_feedback d (Some b) f = true -> a = b) /\
  (forall m, Policy.view_message d None m = false) /\
  (forall f, Policy.view_feedback d None f = false).
Proof.
  intros Hkey.
  assert (Hnone : forall sid, Policy.owns_session d None sid = false).
  { intros sid. unfold Policy.owns_session.
    induction (session_table d) as [|s l IH]; [reflexivity|].
    cbn [existsb Policy.is_own]. now rewrite andb_false_r. }
  repeat split.
  - intros a b m. apply owns_session_one_user, Hkey.
  - intros a b f. apply owns_session_one_user, Hkey.
  - intros m. apply Hnone.
  - intros f. apply Hnone.
Qed.

Lemma rows_have_one_reader_witness :
  session_key Scene.store_adrift /\
  Policy.view_message Scene.store_adrift None Demo.greeting = false.
Proof.
  assert (Hkey : session_key Scene.store_adrift).
  { unfold session_key. cbn. repeat constructor; cbn; intuition discriminate. }
  split; [exact Hkey|].
  destruct (rows_have_one_reader Scene.store_adrift Hkey) as (_ & _ & Hnone & _).
  apply Hnone.
Defined.

(** X29. A run of the feedback function changes nobody's rights: whatever
    the request and the outcome, every user reads after the run exactly the
    message rows and the feedback rows the policies let them read before,
    and the session table keeps its primary key. *)
Theorem feedback_keeps_every_reader
    (env : Env) (d : Store) (req : Request FeedbackRequest) :
  let d' := db (snd (run (feedback env req) d)) in
  (forall uid m, Policy.view_message d' uid m = Policy.view_message d uid m) /\
  (forall uid f, Policy.view_feedback d' uid f = Policy.view_feedback d uid f) /\
  (session_key d -> session_key d').
Proof.
  intros d'.
  assert (Hown : forall uid sid,
            Policy.owns_session d' uid sid = Policy.owns_session d uid sid).
  { intros uid sid. unfold Policy.owns_session.
    destruct (feedback_session_table env d req) as [H|(sid' & st & t & H)];
      fold d' in H.
    - now rewrite H.
    - now apply (owns_session_after_update d d' sid' st t). }
  split; [|split].
  - intros uid m. apply Hown.
  - intros uid f. apply Hown.
  - unfold session_key.
    destruct (feedback_session_table env d req) as [H|(sid' & st & t & H)];
      fold d' in H; rewrite H; [tauto|].
    rewrite map_map,
      (map_ext (fun x => session.id (set_status sid' st t x)) session.id); [tauto|].
    intros s. apply set_status_keeps_id.
Qed.

Lemma feedback_keeps_every_reader_witness :
  session_key
    (db (snd (run (feedback (Demo.env_with (Completion [Some Demo.well_formed_payload]))
                     (Demo.post (mkFeedbackRequest "s-1")))
                  Demo.store2))).
Proof.
  apply (feedback_keeps_every_reader
           (Demo.env_with (Completion [Some Demo.well_formed_payload]))
           Demo.store2 (Demo.post (mkFeedbackRequest "s-1"))).
  unfold session_key. cbn. repeat constructor. cbn. tauto.
Defined.

(** X30. The record a feedback request stores belongs to the session's
    owner: when the request is answered with a stored record, the session it
    names has one row, the record is in the feedback table the run leaves,
    the policy lets the user of that session row read it there and, with the
    session table's primary key, lets no other user read it. *)
Theorem stored_feedback_is_the_owners
    (env : Env) (d : Store) (req : Request FeedbackRequest)
    (row : feedback.row) (w : World) :
  run (feedback env req) d
  = (Return (mkResponse 200 json_headers (FeedbackBody row)), w) ->
  exists s,
    sessions_with_id d (feedback.session_id row) = [s] /\
    In row (feedback_table (db w)) /\
    Policy.view_feedback (db w) (Some (session.user_id s)) row = true /\
    (session_key d ->
     forall u, Policy.view_feedback (db w) (Some u) row = true -> u = session.user_id s).
Proof.
  intros Hrun.
  apply feedback_run_went_through in Hrun
    as (f & k & s & sc & content & v & Hgo & Hrow & ->).
  destruct Hgo as (_ & _ & _ & _ & Hs & _).
  assert (Hsid : feedback.session_id row = feedback_session_id f)
    by (rewrite Hrow; reflexivity).
  exists s. rewrite Hsid. split; [exact Hs|].
  assert (Hin : In s (session_table d) /\ session.id s = feedback_session_id f).
  { assert (H : In s (sessions_with_id d (feedback_session_id f)))
      by (rewrite Hs; now left).
    unfold sessions_with_id in H. apply filter_In in H as [H1 H2].
    split; [exact H1|now apply String.eqb_eq]. }
  destruct Hin as [Hin Hid].
  assert (Hsame : forall uid sid,
            Policy.owns_session (after_feedback env d (feedback_session_id f) row) uid sid
            = Policy.owns_session d uid sid).
  { intros uid sid. unfold after_feedback.
    destruct (db_fault env UpdateSession); [reflexivity|].
    eapply owns_session_after_update. reflexivity. }
  assert (Hown : Policy.owns_session d (Some (session.user_id s)) (feedback_session_id f)
                 = true).
  { apply owns_session_spec. exists s. repeat split; assumption. }
  cbn [db]. split; [|split].
  - unfold after_feedback. cbn [feedback_table]. apply in_or_app. right. now left.
  - unfold Policy.view_feedback. rewrite Hsame, Hsid. exact Hown.
  - intros Hkey u Hu. unfold Policy.view_feedback in Hu. rewrite Hsame, Hsid in Hu.
    exact (owns_session_one_user d u (session.user_id s) _ Hkey Hu Hown).
Qed.

Lemma stored_feedback_is_the_owners_witness :
  exists s,
    sessions_with_id Demo.store2 "s-1" = [s] /\
    Policy.view_feedback
      (db (snd (run (feedback (Demo.env_with (Completion [Some Demo.well_formed_payload]))
                       (Demo.post (mkFeedbackRequest "s-1"))) Demo.store2)))
      (Some (session.user_id s))
      (feedback.mk 1 "s-1" (JStr "ok")
         (JObj [("clarity", int 4); ("empathy", int 3); ("assertiveness", int 5)])
         (JStr (Demo.bullet ++ " a" ++ nl ++ Demo.bullet ++ " b" ++ nl
                ++ Demo.bullet ++ " c")) 5001)
    = true.
Proof.
  destruct (stored_feedback_is_the_owners
              (Demo.env_with (Completion [Some Demo.well_formed_payload])) Demo.store2
              (Demo.post (mkFeedbackRequest "s-1"))
              (feedback.mk 1 "s-1" (JStr "ok")
                 (JObj [("clarity", int 4); ("empathy", int 3); ("assertiveness", int 5)])
                 (JStr (Demo.bullet ++ " a" ++ nl ++ Demo.bullet ++ " b" ++ nl
                        ++ Demo.bullet ++ " c")) 5001)
              (snd (run (feedback
                           (Demo.env_with (Completion [Some Demo.well_formed_payload]))
                           (Demo.post (mkFeedbackRequest "s-1"))) Demo.store2))
              ltac:(vm_compute; reflexivity))
    as (s & Hs & _ & Hview & _).
  exists s. split; [exact Hs|exact Hview].
Defined.

